(** * Verification of the news ingestion pipeline

    Shallow embedding of [news/management/commands/scrape_news.py] and of
    [NewsArticle.save] from [news/models.py], with the properties of the
    ingestion pipeline stated over it. *)

From Stdlib Require Import NArith ZArith List String Ascii Bool Lia.
From Stdlib Require Import DecimalString DecimalN.
Import ListNotations.

(** ** Python strings

    A Python [str] whose code points are below 256 is a [string]: one
    [ascii] per code point, so that [len], slicing and the regular
    expression classes count characters the way Python does. *)

Module PyStr.

Local Open Scope N_scope.

Definition ord (c : ascii) : N := N_of_ascii c.

(** [str.isspace] and the class [\s] of [re] on a [str] pattern. *)
Definition isspace (c : ascii) : bool :=
  let n := ord c in
  ((9 <=? n) && (n <=? 13)) || ((28 <=? n) && (n <=? 32))
  || (n =? 133) || (n =? 160).

Definition is_lower (c : ascii) : bool :=
  let n := ord c in (97 <=? n) && (n <=? 122).

Definition is_upper (c : ascii) : bool :=
  let n := ord c in (65 <=? n) && (n <=? 90).

Definition is_digit (c : ascii) : bool :=
  let n := ord c in (48 <=? n) && (n <=? 57).

Definition is_hyphen (c : ascii) : bool := ord c =? 45.

(** [str.lower] on one code point: A-Z, and the upper-case letters of
    the Latin-1 block (U+00C0..U+00DE without the sign U+00D7). *)
Definition lower_char (c : ascii) : ascii :=
  let n := ord c in
  if is_upper c then ascii_of_N (n + 32)
  else if (192 <=? n) && (n <=? 222) && negb (n =? 215)
       then ascii_of_N (n + 32)
  else c.

Local Close Scope N_scope.
Local Open Scope string_scope.

Fixpoint map (f : ascii -> ascii) (s : string) : string :=
  match s with
  | EmptyString => EmptyString
  | String c r => String (f c) (map f r)
  end.

Fixpoint filter (p : ascii -> bool) (s : string) : string :=
  match s with
  | EmptyString => EmptyString
  | String c r => if p c then String c (filter p r) else filter p r
  end.

Fixpoint forallb (p : ascii -> bool) (s : string) : bool :=
  match s with
  | EmptyString => true
  | String c r => p c && forallb p r
  end.

Definition lower (s : string) : string := map lower_char s.

(** [s[:n]] for a non-negative [n]. *)
Fixpoint take (n : nat) (s : string) : string :=
  match n, s with
  | S m, String c r => String c (take m r)
  | _, _ => EmptyString
  end.

(** [s.startswith(p)]. *)
Fixpoint startswith (p s : string) : bool :=
  match p, s with
  | EmptyString, _ => true
  | String a p', String b s' => Ascii.eqb a b && startswith p' s'
  | String _ _, EmptyString => false
  end.

(** [p in s]. *)
Fixpoint contains (p s : string) : bool :=
  match s with
  | EmptyString => startswith p EmptyString
  | String _ r => startswith p s || contains p r
  end.

Fixpoint lstrip (p : ascii -> bool) (s : string) : string :=
  match s with
  | EmptyString => EmptyString
  | String c r => if p c then lstrip p r else s
  end.

Fixpoint rstrip (p : ascii -> bool) (s : string) : string :=
  match s with
  | EmptyString => EmptyString
  | String c r =>
      match rstrip p r with
      | EmptyString => if p c then EmptyString else String c EmptyString
      | r' => String c r'
      end
  end.

(** [s.strip()] removes white space, [s.strip('-')] the given character. *)
Definition strip_with (p : ascii -> bool) (s : string) : string :=
  rstrip p (lstrip p s).

Definition strip (s : string) : string := strip_with isspace s.

(** [re.sub(r'\s+', '-', s)]: every maximal run of white space becomes
    one hyphen.  [in_run] tells that the previous character was white. *)
Fixpoint collapse_spaces (in_run : bool) (s : string) : string :=
  match s with
  | EmptyString => EmptyString
  | String c r =>
      if isspace c
      then if in_run then collapse_spaces true r
           else String "-" (collapse_spaces true r)
      else String c (collapse_spaces false r)
  end.

(** [str(n)] for a non-negative integer. *)
Definition of_N (n : N) : string := NilEmpty.string_of_uint (N.to_uint n).

(** [s.encode()]: UTF-8, one byte below U+0080 and two from there on. *)
Fixpoint encode (s : string) : list N :=
  match s with
  | EmptyString => []
  | String c r =>
      let n := ord c in
      if (n <? 128)%N then n :: encode r
      else (192 + n / 64)%N :: (128 + n mod 64)%N :: encode r
  end.

(** [s.split()]: the maximal runs of characters that are not white space. *)
Fixpoint split (s : string) : list string :=
  match s with
  | EmptyString => []
  | String c r =>
      if isspace c then split r
      else match r with
           | EmptyString => [String c EmptyString]
           | String c' _ =>
               if isspace c' then String c EmptyString :: split r
               else match split r with
                    | w :: ws => String c w :: ws
                    | [] => [String c EmptyString]
                    end
           end
  end.

(** [sep.join(l)]. *)
Fixpoint join (sep : string) (l : list string) : string :=
  match l with
  | [] => EmptyString
  | [w] => w
  | w :: ws => w ++ sep ++ join sep ws
  end.

End PyStr.

(** ** SHA-256 (FIPS 180-4), as [hashlib.sha256(...).hexdigest()] *)

Module SHA256.

Local Open Scope N_scope.

Definition w32 : N := 4294967296.

Definition add32 (a b : N) : N := (a + b) mod w32.
Definition rotr (n x : N) : N :=
  N.lor (N.shiftr x n) (N.shiftl x (32 - n) mod w32).
Definition shr (n x : N) : N := N.shiftr x n.
Definition not32 (x : N) : N := N.lxor x (w32 - 1).

Definition Ch (x y z : N) : N := N.lxor (N.land x y) (N.land (not32 x) z).
Definition Maj (x y z : N) : N :=
  N.lxor (N.lxor (N.land x y) (N.land x z)) (N.land y z).
Definition bsig0 (x : N) : N := N.lxor (N.lxor (rotr 2 x) (rotr 13 x)) (rotr 22 x).
Definition bsig1 (x : N) : N := N.lxor (N.lxor (rotr 6 x) (rotr 11 x)) (rotr 25 x).
Definition ssig0 (x : N) : N := N.lxor (N.lxor (rotr 7 x) (rotr 18 x)) (shr 3 x).
Definition ssig1 (x : N) : N := N.lxor (N.lxor (rotr 17 x) (rotr 19 x)) (shr 10 x).

(** The first [n] primes, by trial division. *)
Definition is_prime (p : N) : bool :=
  (1 <? p) && forallb (fun d => negb (p mod d =? 0))
                      (List.map N.of_nat (seq 2 (N.to_nat p - 2))).

Definition primes (n : nat) : list N :=
  firstn n (List.filter is_prime (List.map N.of_nat (seq 2 310))).

(** The integer cube root below [2 ^ bits], one bit at a time. *)
Fixpoint cbrt_bits (bits : nat) (n r : N) : N :=
  match bits with
  | O => r
  | S b =>
      let c := r + 2 ^ N.of_nat b in
      cbrt_bits b n (if c * c * c <=? n then c else r)
  end.

(** The round constants: the first thirty-two bits of the fractional
    parts of the cube roots of the first sixty-four primes. *)
Definition K : list N :=
  List.map (fun p => cbrt_bits 36 (p * 2 ^ 96) 0 mod w32) (primes 64).

(** The eight working variables. *)
Record state : Type := State {
  sa : N; sb : N; sc : N; sd : N; se : N; sf : N; sg : N; sh : N
}.

(** The initial hash value: the first thirty-two bits of the fractional
    parts of the square roots of the first eight primes. *)
Definition frac_sqrt (p : N) : N := N.sqrt (p * 2 ^ 64) mod w32.

Definition H0 : state :=
  State (frac_sqrt 2) (frac_sqrt 3) (frac_sqrt 5) (frac_sqrt 7)
        (frac_sqrt 11) (frac_sqrt 13) (frac_sqrt 17) (frac_sqrt 19).

(** Message schedule; [rw] holds the words so far, the latest first. *)
Fixpoint schedule (n : nat) (rw : list N) : list N :=
  match n with
  | O => rw
  | S m =>
      let w := add32 (add32 (ssig1 (nth 1 rw 0)) (nth 6 rw 0))
                     (add32 (ssig0 (nth 14 rw 0)) (nth 15 rw 0)) in
      schedule m (w :: rw)
  end.

Definition round (s : state) (kw : N * N) : state :=
  let (k, w) := kw in
  let t1 := add32 (add32 (add32 (sh s) (bsig1 (se s)))
                         (add32 (Ch (se s) (sf s) (sg s)) k)) w in
  let t2 := add32 (bsig0 (sa s)) (Maj (sa s) (sb s) (sc s)) in
  State (add32 t1 t2) (sa s) (sb s) (sc s) (add32 (sd s) t1) (se s) (sf s) (sg s).

(** One block of sixteen words, given the latest first. *)
Definition compress (h : state) (rblock : list N) : state :=
  let w := rev (schedule 48 rblock) in
  let s := fold_left round (combine K w) h in
  State (add32 (sa h) (sa s)) (add32 (sb h) (sb s))
        (add32 (sc h) (sc s)) (add32 (sd h) (sd s))
        (add32 (se h) (se s)) (add32 (sf h) (sf s))
        (add32 (sg h) (sg s)) (add32 (sh h) (sh s)).

Definition be_bytes (k : nat) (n : N) : list N :=
  List.map (fun i => (n / 256 ^ N.of_nat i) mod 256) (rev (seq 0 k)).

Definition pad (msg : list N) : list N :=
  let len := N.of_nat (List.length msg) in
  let zeros := (119 - len mod 64) mod 64 in
  msg ++ 128 :: repeat 0 (N.to_nat zeros) ++ be_bytes 8 (8 * len).

(** Bytes to big-endian words; [acc] and [k] hold a partial word. *)
Fixpoint words (acc : N) (k : nat) (bs : list N) : list N :=
  match bs with
  | [] => []
  | b :: r =>
      let acc' := acc * 256 + b in
      match k with
      | 3%nat => acc' :: words 0 0 r
      | _ => words acc' (S k) r
      end
  end.

(** Words to blocks; [buf] holds a partial block, the latest word first. *)
Fixpoint absorb (h : state) (buf : list N) (k : nat) (ws : list N) : state :=
  match ws with
  | [] => h
  | w :: r =>
      match k with
      | 15%nat => absorb (compress h (w :: buf)) [] 0 r
      | _ => absorb h (w :: buf) (S k) r
      end
  end.

Definition digest (msg : list N) : state := absorb H0 [] 0 (words 0 0 (pad msg)).

Definition hexchars : list ascii :=
  [ "0"; "1"; "2"; "3"; "4"; "5"; "6"; "7";
    "8"; "9"; "a"; "b"; "c"; "d"; "e"; "f" ]%char.

Definition hexdigit (n : N) : ascii := nth (N.to_nat (n mod 16)) hexchars "0"%char.

Definition hex8 (w : N) : string :=
  String (hexdigit (w / 268435456)) (String (hexdigit (w / 16777216))
 (String (hexdigit (w / 1048576)) (String (hexdigit (w / 65536))
 (String (hexdigit (w / 4096)) (String (hexdigit (w / 256))
 (String (hexdigit (w / 16)) (String (hexdigit w) EmptyString))))))).

Definition hex_of_state (s : state) : string :=
  (hex8 (sa s) ++ hex8 (sb s) ++ hex8 (sc s) ++ hex8 (sd s) ++
   hex8 (se s) ++ hex8 (sf s) ++ hex8 (sg s) ++ hex8 (sh s))%string.

Definition hexdigest (msg : list N) : string := hex_of_state (digest msg).

End SHA256.

(** ** Exceptions and results *)

Inductive exn : Type :=
| KeyError (key : string)
| DoesNotExist
| MultipleObjectsReturned
| IntegrityError
| ValidationError
| CommandError (msg : string).

Inductive result (A : Type) : Type :=
| Ok (a : A)
| Raise (e : exn).

Arguments Ok {A} a.
Arguments Raise {A} e.

(** ** Data model *)

(** [timezone.now().date()], as a day number. *)
Definition date : Type := Z.

(** The dict that the extractors hand to the reconciler.  Every dict the
    program builds carries the keys [title], [summary], [source_url] and
    [source_name]; the canned test records carry no [publication_date]. *)
Record article_data : Type := ArticleData {
  ad_title : string;
  ad_summary : string;
  ad_source_url : string;
  ad_source_name : string;
  ad_publication_date : option date
}.

(** A row of [NewsArticle] ([news/models.py]), with the fields of the page
    it extends that the command sets.  The two time stamps, which the
    command never reads, are left out. *)
Record NewsArticle : Type := MkNewsArticle {
  title : string;
  summary : string;
  source_url : string;
  source_name : string;
  publication_date : date;
  content_hash : string;
  slug : string;
  show_in_menus : bool;
  live : bool
}.

(** A row of [NewsListPage]; [lp_child_of_root] tells that the page is a
    child of the root page of the default site. *)
Record NewsListPage : Type := MkNewsListPage {
  lp_title : string;
  lp_intro : string;
  lp_slug : string;
  lp_show_in_menus : bool;
  lp_child_of_root : bool;
  lp_live : bool
}.

(** The storage the command reads and writes: whether the default site
    exists, the list pages and the articles, in the order they were
    stored.  The checks of the page framework on the length and the form
    of the fields are not part of it. *)
Record db : Type := Db {
  default_site : bool;
  news_list_pages : list NewsListPage;
  news_articles : list NewsArticle
}.

Definition set_articles (d : db) (rows : list NewsArticle) : db :=
  Db (default_site d) (news_list_pages d) rows.

Definition set_content_hash (a : NewsArticle) (h : string) : NewsArticle :=
  MkNewsArticle (title a) (summary a) (source_url a) (source_name a)
    (publication_date a) h (slug a) (show_in_menus a) (live a).

Definition set_live (a : NewsArticle) (b : bool) : NewsArticle :=
  MkNewsArticle (title a) (summary a) (source_url a) (source_name a)
    (publication_date a) (content_hash a) (slug a) (show_in_menus a) b.

(** The four assignments of the update, lines 351-354. *)
Definition set_scraped_fields (a : NewsArticle) (new_title new_summary : string)
    (new_date : date) (new_source_name : string) : NewsArticle :=
  MkNewsArticle new_title new_summary (source_url a) new_source_name
    new_date (content_hash a) (slug a) (show_in_menus a) (live a).

(** ** [news/models.py] *)

Module Models.

(** [hashlib.sha256(s.encode()).hexdigest()]. *)
Definition sha256_hexdigest (s : string) : string :=
  SHA256.hexdigest (PyStr.encode s).

(** [NewsArticle.save], on the instance. *)
Definition save (self : NewsArticle) : NewsArticle :=
  match content_hash self with
  | EmptyString =>
      let content_for_hash := (title self ++ summary self ++ source_url self)%string in
      set_content_hash self (sha256_hexdigest content_for_hash)
  | _ => self
  end.

(** [save_revision().publish()]: the page goes live and is saved. *)
Definition publish (self : NewsArticle) : NewsArticle := save (set_live self true).

(** [NewsArticle.objects.get(content_hash=h)]. *)
Definition objects_get (d : db) (h : string) : result NewsArticle :=
  match List.filter (fun r => String.eqb (content_hash r) h) (news_articles d) with
  | [] => Raise DoesNotExist
  | [r] => Ok r
  | _ => Raise MultipleObjectsReturned
  end.

(** [NewsArticle.objects.filter(slug=s).exists()]. *)
Definition slug_exists (d : db) (s : string) : bool :=
  existsb (fun r => String.eqb (slug r) s) (news_articles d).

(** [NewsArticle.objects.filter(content_hash=h).exists()]. *)
Definition hash_exists (d : db) (h : string) : bool :=
  existsb (fun r => String.eqb (content_hash r) h) (news_articles d).

(** [parent.add_child(instance=a)]: the row is saved; [content_hash] is
    declared [unique=True], and a slug is unique among the children. *)
Definition add_child (d : db) (a : NewsArticle) : result db :=
  let a' := save a in
  if hash_exists d (content_hash a') then Raise IntegrityError
  else if slug_exists d (slug a') then Raise ValidationError
  else Ok (set_articles d (news_articles d ++ [a'])).

(** Writing back the row fetched under the hash [h]. *)
Definition update_row (d : db) (h : string) (a : NewsArticle) : db :=
  set_articles d
    (List.map (fun r => if String.eqb (content_hash r) h then a else r)
              (news_articles d)).

(** The property [short_summary]. *)
Definition short_summary (self : NewsArticle) : string :=
  if (150 <? String.length (summary self))%nat
  then (PyStr.take 150 (summary self) ++ "...")%string
  else summary self.

End Models.

(** ** Command output

    The lines written to standard output and to the logger, by what they
    report rather than by their text. *)

Inductive source : Type := hackernews | reddit | all.

Inductive event : Type :=
| Starting
| Options (max_articles : Z) (src : source) (dry_run : bool)
| TestMode
| ScrapingHackerNews
| FoundHackerNews (n : nat)
| ScrapingReddit
| FoundReddit (n : nat)
| NoArticlesFound
| WouldCreate (title60 : string)
| Created (title60 : string)
| Updated (title60 : string)
| Skipped (title60 : string)
| Failed (title60 : string) (e : exn)
| LogFailedToProcess (article_title : string) (e : exn)
| ScrapingComplete (created_count updated_count skipped_count : nat)
| DryRunComplete (found : nat)
| WouldCreateTest (article_title : string)
| CreatedTest (article_title : string)
| SkippedTest (article_title : string)
| FailedTest (e : exn)
| TestComplete (created_count : nat)
| CreatedNewsListPage
| FailedNewsListPage (e : exn)
| LogFailedToExtract (src : source) (e : exn)
| LogFailedToScrape (src : source).

(** ** [class NewsScraper] *)

Module NewsScraper.

Local Open Scope string_scope.

(** The parsed front page: a story row holds at most one title cell,
    whose first link has text nodes and maybe an [href]. *)
Record anchor : Type := Anchor {
  a_strings : list string;
  a_href : option string
}.

Record story_row : Type := StoryRow {
  (** [story_row.find('span', class_='titleline')], then [.find('a')] *)
  titleline : option (option anchor)
}.

(** [tag.get_text(strip=True)]. *)
Definition get_text_strip (a : anchor) : string :=
  fold_right (fun t acc => PyStr.strip t ++ acc) "" (a_strings a).

(** The body of the loop of [scrape_hacker_news]; [None] is [continue]. *)
Definition hacker_news_entry (today : date) (row : story_row) : option article_data :=
  match titleline row with
  | None => None
  | Some None => None
  | Some (Some title_link) =>
      let title := get_text_strip title_link in
      let link := match a_href title_link with Some h => h | None => "" end in
      let keep (link : string) :=
        let summary := "Latest story from Hacker News: " ++ title in
        let summary := if (200 <? String.length summary)%nat
                       then PyStr.take 200 summary ++ "..." else summary in
        Some (ArticleData title summary link "Hacker News" (Some today)) in
      if PyStr.startswith "item?" link
      then keep ("https://news.ycombinator.com/" ++ link)
      else if negb (PyStr.startswith "http" link) then None
      else keep link
  end.

(** [l[:n]] for any integer [n]. *)
Definition py_prefix {A : Type} (n : Z) (l : list A) : list A :=
  if (0 <=? n)%Z then firstn (Z.to_nat n) l
  else firstn (List.length l - Z.to_nat (- n)) l.

Fixpoint somes {A : Type} (l : list (option A)) : list A :=
  match l with
  | [] => []
  | Some a :: r => a :: somes r
  | None :: r => somes r
  end.

(** [response] is the parsed page, [None] when the request failed. *)
Definition scrape_hacker_news (today : date) (response : option (list story_row))
    (max_articles : Z) : list article_data * list event :=
  match response with
  | None => ([], [LogFailedToScrape hackernews])
  | Some story_rows =>
      (somes (List.map (hacker_news_entry today) (py_prefix max_articles story_rows)), [])
  end.

(** The [data] object of one child of the feed; its fields are strings
    when present. *)
Record post_data : Type := PostData {
  pd_title : option string;
  pd_url : option string;
  pd_permalink : option string;
  pd_selftext : option string
}.

Definition get (o : option string) (default : string) : string :=
  match o with Some s => s | None => default end.

(** Lines 102-105: the URL of a post. *)
Definition reddit_source_url (p : post_data) : result string :=
  let source_url := get (pd_url p) "" in
  if PyStr.startswith "/r/" source_url || PyStr.contains "reddit.com" source_url
  then match pd_permalink p with
       | Some permalink => Ok ("https://reddit.com" ++ permalink)
       | None => Raise (KeyError "permalink")
       end
  else Ok source_url.

(** Lines 107-114: the summary of a post. *)
Definition reddit_summary (title : string) (p : post_data) : string :=
  let selftext := get (pd_selftext p) "" in
  match selftext with
  | String _ _ => if (200 <? String.length selftext)%nat
                  then PyStr.take 200 selftext ++ "..." else selftext
  | EmptyString =>
      let summary := "Programming discussion: " ++ title in
      if (200 <? String.length summary)%nat
      then PyStr.take 200 summary ++ "..." else summary
  end.

(** The body of the loop of [scrape_reddit_programming]; [Ok None] is
    [continue], [Raise] an exception caught by the entry's handler.
    [post] is [None] when the child has no [data]. *)
Definition reddit_entry (today : date) (post : option post_data)
    : result (option article_data) :=
  match post with
  | None => Raise (KeyError "data")
  | Some p =>
      let title := PyStr.strip (get (pd_title p) "") in
      match title with
      | EmptyString => Ok None
      | _ =>
          match reddit_source_url p with
          | Raise e => Raise e
          | Ok source_url =>
              let summary := reddit_summary title p in
              Ok (Some (ArticleData title summary source_url
                                    "Reddit Programming" (Some today)))
          end
      end
  end.

Fixpoint reddit_loop (today : date) (posts : list (option post_data))
    : list article_data * list event :=
  match posts with
  | [] => ([], [])
  | post :: rest =>
      let (articles, log) := reddit_loop today rest in
      match reddit_entry today post with
      | Ok (Some a) => (a :: articles, log)
      | Ok None => (articles, log)
      | Raise e => (articles, LogFailedToExtract reddit e :: log)
      end
  end.

(** [response] is [data['data']['children']], [None] when the request
    failed or the document has another shape. *)
Definition scrape_reddit_programming (today : date)
    (response : option (list (option post_data))) (max_articles : Z)
    : list article_data * list event :=
  match response with
  | None => ([], [LogFailedToScrape reddit])
  | Some children => reddit_loop today (py_prefix max_articles children)
  end.

End NewsScraper.

(** ** [class Command] *)

Inductive outcome : Type := created | updated | skipped.

(** The command-line options. *)
Record options : Type := MkOptions {
  max_articles : Z;
  opt_source : source;
  dry_run : bool;
  force_update : bool;
  test : bool
}.

(** What a run reads from outside: the two responses and the day. *)
Record world : Type := World {
  hacker_news_response : option (list NewsScraper.story_row);
  reddit_response : option (list (option NewsScraper.post_data));
  today : date
}.

(** The three counters of [handle]. *)
Record tally : Type := Tally {
  created_count : nat;
  updated_count : nat;
  skipped_count : nat
}.

Module Command.

Local Open Scope string_scope.

(** The loop of [_create_slug]: at most one turn per stored row, since
    every turn but the last has met a row of its own
    ([Command.slug_loop_free] below). *)
Fixpoint slug_loop (fuel : nat) (d : db) (base_slug slug : string) (counter : N)
    : string :=
  if Models.slug_exists d slug
  then match fuel with
       | O => slug
       | S fuel' =>
           slug_loop fuel' d base_slug (base_slug ++ "-" ++ PyStr.of_N counter)
                     (counter + 1)
       end
  else slug.

(** The characters that [re.sub(r'[^a-zA-Z0-9\s-]', '', ...)] keeps. *)
Definition slug_char (c : ascii) : bool :=
  PyStr.is_lower c || PyStr.is_upper c || PyStr.is_digit c
  || PyStr.isspace c || PyStr.is_hyphen c.

(** Lines 387-391. *)
Definition base_slug_of (title : string) : string :=
  let slug := PyStr.filter slug_char (PyStr.lower title) in
  let slug := PyStr.collapse_spaces false slug in
  PyStr.take 50 (PyStr.strip_with PyStr.is_hyphen slug).

Definition _create_slug (d : db) (title : string) : string :=
  let slug := base_slug_of title in
  let base_slug := slug in
  slug_loop (List.length (news_articles d)) d base_slug slug 1.

Definition content_hash_of (article_data : article_data) : string :=
  let content_for_hash :=
    ad_title article_data ++ ad_summary article_data ++ ad_source_url article_data in
  Models.sha256_hexdigest content_for_hash.

Arguments content_hash_of : simpl never.

Definition _process_article (d : db) (article_data : article_data)
    (force_update : bool) : db * result outcome :=
  let content_hash := content_hash_of article_data in
  match Models.objects_get d content_hash with
  | Ok existing_article =>
      if negb force_update then (d, Ok skipped)
      else
        match ad_publication_date article_data with
        | None => (d, Raise (KeyError "publication_date"))
        | Some publication_date =>
            let existing_article :=
              set_scraped_fields existing_article (ad_title article_data)
                (ad_summary article_data) publication_date
                (ad_source_name article_data) in
            (Models.update_row d content_hash (Models.publish existing_article),
             Ok updated)
        end
  | Raise DoesNotExist =>
      match news_list_pages d with
      | [] => (d, Raise (CommandError
                 "No news list page found. Please run the command again."))
      | news_list_page :: _ =>
          let slug := _create_slug d (ad_title article_data) in
          match ad_publication_date article_data with
          | None => (d, Raise (KeyError "publication_date"))
          | Some publication_date =>
              let article :=
                MkNewsArticle (ad_title article_data) (ad_summary article_data)
                  (ad_source_url article_data) (ad_source_name article_data)
                  publication_date content_hash slug true true in
              match Models.add_child d article with
              | Raise e => (d, Raise e)
              | Ok d' =>
                  (Models.update_row d' content_hash (Models.publish (Models.save article)),
                   Ok created)
              end
          end
      end
  | Raise e => (d, Raise e)
  end.

Definition _ensure_news_list_page (d : db) : db * list event * result unit :=
  if default_site d then
    if existsb lp_child_of_root (news_list_pages d) then (d, [], Ok tt)
    else
      let news_list_page :=
        MkNewsListPage "Latest News"
          "Stay updated with the latest technology news from top sources."
          "news" true true true in
      (Db (default_site d) (news_list_pages d ++ [news_list_page]) (news_articles d),
       [CreatedNewsListPage], Ok tt)
  else
    (d, [FailedNewsListPage DoesNotExist],
     Raise (CommandError
       "Failed to create news list page: Site matching query does not exist.")).

Definition title60 (article_data : article_data) : string :=
  PyStr.take 60 (ad_title article_data).

(** The loop of [handle], lines 217-242. *)
Fixpoint handle_loop (dry_run force_update : bool) (all_articles : list article_data)
    (d : db) (t : tally) : db * tally * list event :=
  match all_articles with
  | [] => (d, t, [])
  | article_data :: rest =>
      if dry_run then
        let '(d', t', out) := handle_loop dry_run force_update rest d t in
        (d', t', WouldCreate (title60 article_data) :: out)
      else
        let (d1, result) := _process_article d article_data force_update in
        let (t1, out1) :=
          match result with
          | Ok created =>
              (Tally (created_count t + 1) (updated_count t) (skipped_count t),
               [Created (title60 article_data)])
          | Ok updated =>
              (Tally (created_count t) (updated_count t + 1) (skipped_count t),
               [Updated (title60 article_data)])
          | Ok skipped =>
              (Tally (created_count t) (updated_count t) (skipped_count t + 1),
               [Skipped (title60 article_data)])
          | Raise e =>
              (t, [Failed (title60 article_data) e;
                   LogFailedToProcess (ad_title article_data) e])
          end in
        let '(d', t', out) := handle_loop dry_run force_update rest d1 t1 in
        (d', t', (out1 ++ out)%list)
  end.

Definition test_articles : list article_data :=
  [ ArticleData "Test Article: Python Django Framework Updates"
      "This is a test article about Django framework updates and new features for web development."
      "https://example.com/django-updates" "Test Tech News" None;
    ArticleData "Test Article: AI and Machine Learning Trends"
      "A comprehensive overview of current artificial intelligence and machine learning trends in the tech industry."
      "https://example.com/ai-trends" "Test AI News" None;
    ArticleData "Test Article: Web Development Best Practices"
      "Essential best practices for modern web development including security, performance, and maintainability."
      "https://example.com/web-dev-practices" "Test Dev News" None ].

(** The loop of [_create_test_articles], lines 290-303. *)
Fixpoint test_loop (articles : list article_data) (d : db) (created_count : nat)
    : db * nat * list event :=
  match articles with
  | [] => (d, created_count, [])
  | article_data :: rest =>
      let (d1, result) := _process_article d article_data false in
      let (c1, out1) :=
        match result with
        | Ok created => (created_count + 1, [CreatedTest (ad_title article_data)])
        | Ok _ => (created_count, [SkippedTest (ad_title article_data)])
        | Raise e => (created_count, [FailedTest e])
        end in
      let '(d', c', out) := test_loop rest d1 c1 in
      (d', c', (out1 ++ out)%list)
  end.

Definition _create_test_articles (d : db) (dry_run : bool)
    : db * list event * result unit :=
  if dry_run then
    (d, List.map (fun a => WouldCreateTest (ad_title a)) test_articles, Ok tt)
  else
    match _ensure_news_list_page d with
    | (d0, out0, Raise e) => (d0, out0, Raise e)
    | (d0, out0, Ok _) =>
        let '(d', created_count, out) := test_loop test_articles d0 0 in
        (d', (out0 ++ out ++ [TestComplete created_count])%list, Ok tt)
    end.

Definition in_sources (s : source) (l : list source) : bool :=
  existsb (fun x => match s, x with
                    | hackernews, hackernews | reddit, reddit | all, all => true
                    | _, _ => false
                    end) l.

Definition handle (w : world) (o : options) (d : db) : db * list event * result unit :=
  let out := [Starting; Options (max_articles o) (opt_source o) (dry_run o)] in
  if test o then
    let '(d', out', r) := _create_test_articles d (dry_run o) in
    (d', (out ++ TestMode :: out')%list, r)
  else
    match (if dry_run o then (d, [], Ok tt) else _ensure_news_list_page d) with
    | (d0, out0, Raise e) => (d0, (out ++ out0)%list, Raise e)
    | (d0, out0, Ok _) =>
        let (hn_articles, out1) :=
          if in_sources (opt_source o) [hackernews; all] then
            let (l, log) := NewsScraper.scrape_hacker_news (today w)
                              (hacker_news_response w) (max_articles o) in
            (l, (ScrapingHackerNews :: log ++ [FoundHackerNews (List.length l)])%list)
          else ([], []) in
        let (reddit_articles, out2) :=
          if in_sources (opt_source o) [reddit; all] then
            let (l, log) := NewsScraper.scrape_reddit_programming (today w)
                              (reddit_response w) (max_articles o) in
            (l, (ScrapingReddit :: log ++ [FoundReddit (List.length l)])%list)
          else ([], []) in
        let all_articles := (hn_articles ++ reddit_articles)%list in
        let out := (out ++ out0 ++ out1 ++ out2)%list in
        match all_articles with
        | [] => (d0, (out ++ [NoArticlesFound])%list, Ok tt)
        | _ =>
            let '(d', t, out3) :=
              handle_loop (dry_run o) (force_update o) all_articles d0 (Tally 0 0 0) in
            let summary :=
              if negb (dry_run o)
              then ScrapingComplete (created_count t) (updated_count t) (skipped_count t)
              else DryRunComplete (List.length all_articles) in
            (d', (out ++ out3 ++ [summary])%list, Ok tt)
        end
    end.

End Command.

(** ** [news/templetetags/news_tags.py] *)

Module NewsTags.

(** The exceptions that [int(arg)] raises on the built-in types: on a
    string that is no integer literal or a NaN, on [None] or a list, on
    an infinite float. *)
Inductive int_error : Type := ValueError | TypeError | OverflowError.

(** The filter [truncate_words].  [int_arg] is what [int(arg)] gives: an
    integer ([int(2.9)] is 2), or the exception it raises.  The filter
    catches [ValueError] alone: [inr e] is the exception [e] leaving the
    filter. *)
Definition truncate_words (value : string) (int_arg : Z + int_error)
    : string + int_error :=
  match int_arg with
  | inr ValueError => inl value
  | inr e => inr e
  | inl length =>
      let words := PyStr.split value in
      if (Z.of_nat (List.length words) <=? length)%Z then inl value
      else inl (PyStr.join " " (NewsScraper.py_prefix length words) ++ "...")%string
  end.

End NewsTags.

(** * Specification

    The notions of the specification that the properties compare the code
    with, and the storages and records of the examples. *)

(** The characters of a lower-case hexadecimal digest: [0-9a-f]. *)
Definition is_lower_hex (c : ascii) : bool :=
  PyStr.is_digit c || ((97 <=? PyStr.ord c)%N && (PyStr.ord c <=? 102)%N).

(** No two rows share a [content_hash] (the column is [unique=True]). *)
Definition unique_hashes (d : db) : Prop :=
  NoDup (List.map content_hash (news_articles d)).

(** The three fields that identify a record. *)
Definition triple (a : article_data) : string * string * string :=
  (ad_title a, ad_summary a, ad_source_url a).

(** The record carries the key [publication_date]. *)
Definition has_date (a : article_data) : Prop := ad_publication_date a <> None.

(** The row that the CREATE branch stores. *)
Definition new_row (d : db) (a : article_data) (day : date) : NewsArticle :=
  MkNewsArticle (ad_title a) (ad_summary a) (ad_source_url a) (ad_source_name a)
    day (Command.content_hash_of a) (Command._create_slug d (ad_title a)) true true.

(** The slug tried with the counter at [k]. *)
Definition suffixed (base_slug : string) (k : N) : string :=
  base_slug ++ "-" ++ PyStr.of_N k.

(** The counters [counter], [counter + 1], ... of [n] turns. *)
Fixpoint counters (counter : N) (n : nat) : list N :=
  match n with
  | O => []
  | S m => counter :: counters (counter + 1) m
  end.

(** The fingerprint in the words of the specification: the three fields
    concatenated in that order with no separator, digested with SHA-256,
    in lower-case hexadecimal. *)
Definition fingerprint (title summary source_url : string) : string :=
  SHA256.hexdigest (PyStr.encode (title ++ summary ++ source_url)).

(** The characters of the class [[a-z0-9\s-]] of the specification. *)
Definition spec_slug_char (c : ascii) : bool :=
  PyStr.is_lower c || PyStr.is_digit c || PyStr.isspace c || PyStr.is_hyphen c.

(** [slugify] in the words of the specification: lower-case; strip every
    character outside the class; collapse the runs of white space to one
    hyphen each; strip the hyphens at both ends; truncate to fifty. *)
Definition slugify (title : string) : string :=
  PyStr.take 50
    (PyStr.strip_with PyStr.is_hyphen
       (PyStr.collapse_spaces false
          (PyStr.filter spec_slug_char (PyStr.lower title)))).

(** The 200-character rule in the words of the specification. *)
Definition truncate200 (s : string) : string :=
  if (200 <? String.length s)%nat then (PyStr.take 200 s ++ "...")%string else s.

(** The summary of a forum post before the rule is applied. *)
Definition forum_summary_text (title : string) (p : NewsScraper.post_data) : string :=
  match NewsScraper.get (NewsScraper.pd_selftext p) "" with
  | EmptyString => ("Programming discussion: " ++ title)%string
  | selftext => selftext
  end.

(** The test of line 104 on the [url] field. *)
Definition internal_forum_path (url : string) : bool :=
  PyStr.startswith "/r/" url || PyStr.contains "reddit.com" url.

(** The number of [Failed] lines of an output. *)
Fixpoint failures (out : list event) : nat :=
  match out with
  | [] => 0
  | Failed _ _ :: rest => S (failures rest)
  | _ :: rest => failures rest
  end.

(** The records that the selected extractors return, in source order. *)
Definition scraped_articles (w : world) (o : options) : list article_data :=
  (if Command.in_sources (opt_source o) [hackernews; all]
   then fst (NewsScraper.scrape_hacker_news (today w) (hacker_news_response w)
                                            (max_articles o))
   else [])
  ++ (if Command.in_sources (opt_source o) [reddit; all]
      then fst (NewsScraper.scrape_reddit_programming (today w) (reddit_response w)
                                                      (max_articles o))
      else []).

(** The extraction step of [handle] for the aggregator, with what it prints. *)
Definition hacker_news_step (w : world) (o : options) : list article_data * list event :=
  if Command.in_sources (opt_source o) [hackernews; all] then
    let (l, log) := NewsScraper.scrape_hacker_news (today w)
                      (hacker_news_response w) (max_articles o) in
    (l, (ScrapingHackerNews :: log ++ [FoundHackerNews (List.length l)])%list)
  else ([], []).

(** The same for the forum. *)
Definition reddit_step (w : world) (o : options) : list article_data * list event :=
  if Command.in_sources (opt_source o) [reddit; all] then
    let (l, log) := NewsScraper.scrape_reddit_programming (today w)
                      (reddit_response w) (max_articles o) in
    (l, (ScrapingReddit :: log ++ [FoundReddit (List.length l)])%list)
  else ([], []).

(** A storage for the examples: the default site and its list page, no
    article yet. *)
Definition fresh_db : db :=
  Db true
     [MkNewsListPage "Latest News"
        "Stay updated with the latest technology news from top sources."
        "news" true true true]
     [].

(** A storage with the default site and nothing else. *)
Definition no_page_db : db := Db true [] [].

(** Two records as the extractors build them. *)
Definition sample_articles : list article_data :=
  [ ArticleData "Show HN: a tiny parser" "Latest story from Hacker News: Show HN: a tiny parser"
      "https://example.org/parser" "Hacker News" (Some 20000%Z);
    ArticleData "Why tests matter" "Programming discussion: Why tests matter"
      "https://example.org/tests" "Reddit Programming" (Some 20000%Z) ].

(** The first canned record, which carries no date. *)
Definition undated : article_data :=
  hd (ArticleData "" "" "" "" None) Command.test_articles.

(** The storage after the first sample record has been created. *)
Definition stored_db : db :=
  fst (Command._process_article fresh_db (hd (ArticleData "" "" "" "" None) sample_articles) false).

(** Its one row. *)
Definition stored_row : NewsArticle :=
  hd (MkNewsArticle "" "" "" "" 0%Z "" "" false false) (news_articles stored_db).

(** The same triple, seen a day later under another source name. *)
Definition retitled : article_data :=
  ArticleData "Show HN: a tiny parser"
    "Latest story from Hacker News: Show HN: a tiny parser"
    "https://example.org/parser" "HN" (Some 20001%Z).

(** [c * n]. *)
Fixpoint replicate (n : nat) (c : ascii) : string :=
  match n with
  | O => EmptyString
  | S m => String c (replicate m c)
  end.

(** A front page of three rows: a story, a row whose title cell has no
    link, and a row whose link is neither absolute nor an item. *)
Definition sample_rows : list NewsScraper.story_row :=
  [ NewsScraper.StoryRow
      (Some (Some (NewsScraper.Anchor [" Show HN: a tiny parser "%string]
                                      (Some "item?id=42"%string))));
    NewsScraper.StoryRow (Some None);
    NewsScraper.StoryRow
      (Some (Some (NewsScraper.Anchor ["No link"%string] (Some "ftp://x"%string)))) ].

(** A post with an external link and a body of 250 characters. *)
Definition sample_post : NewsScraper.post_data :=
  NewsScraper.PostData (Some " Why tests matter "%string)
    (Some "https://example.org/tests"%string)
    (Some "/r/programming/comments/1/why/"%string)
    (Some (replicate 250 "x")).

(** What two runs on consecutive days read. *)
Definition sample_world : world :=
  World (Some sample_rows) (Some [None; Some sample_post]) 20000%Z.

Definition next_day_world : world :=
  World (Some sample_rows) (Some [None; Some sample_post]) 20001%Z.

(** The defaults of the command line. *)
Definition sample_options : options := MkOptions 5%Z all false false false.

(** The row that a forced update writes over the stored row [x]. *)
Definition updated_row (x : NewsArticle) (a : article_data) (day : date) : NewsArticle :=
  set_live (set_scraped_fields x (ad_title a) (ad_summary a) day (ad_source_name a))
           true.

(** No two rows share a slug. *)
Definition unique_slugs (d : db) : Prop :=
  NoDup (List.map slug (news_articles d)).

(** The hash of the row is the digest of its own three fields. *)
Definition consistent (r : NewsArticle) : Prop :=
  content_hash r = fingerprint (title r) (summary r) (source_url r).

(** What identifies a stored row and never changes: hash, slug and URL. *)
Definition row_key (r : NewsArticle) : string * string * string :=
  (content_hash r, slug r, source_url r).

(** The characters of a slug: [a-z], [0-9] and the hyphen. *)
Definition url_safe_char (c : ascii) : bool :=
  PyStr.is_lower c || PyStr.is_digit c || PyStr.is_hyphen c.

(** A word: not empty, and free of white space. *)
Definition is_word (w : string) : Prop :=
  w <> EmptyString /\ PyStr.forallb (fun c => negb (PyStr.isspace c)) w = true.

(** The articles a whole run leaves in the storage. *)
Definition run_articles (w : world) (o : options) (d : db) : list NewsArticle :=
  news_articles (fst (fst (Command.handle w o d))).

(** The storage after a first run over the sample pages. *)
Definition after_first_run : db :=
  fst (fst (Command.handle sample_world sample_options no_page_db)).

(** The options of a run that forces the update. *)
Definition forcing_options : options := MkOptions 5%Z all false true false.

(** * Properties *)

(** ** Strings *)

Module PyStrFacts.

Local Open Scope string_scope.

Lemma length_app (s t : string) :
  String.length (s ++ t) = String.length s + String.length t.
Proof. induction s as [|c s IH]; simpl; [reflexivity | now rewrite IH]. Qed.

Lemma app_assoc (s t u : string) : (s ++ t) ++ u = s ++ t ++ u.
Proof. induction s as [|c s IH]; simpl; [reflexivity | now rewrite IH]. Qed.

Lemma app_inv_head (s t u : string) : s ++ t = s ++ u -> t = u.
Proof.
  induction s as [|c s IH]; simpl; intros H; [exact H | injection H as H; auto].
Qed.

Lemma length_take (n : nat) (s : string) : String.length (PyStr.take n s) <= n.
Proof.
  revert s; induction n as [|n IH]; intros [|c s]; simpl; try lia.
  specialize (IH s); lia.
Qed.

Lemma take_all (n : nat) (s : string) : String.length s <= n -> PyStr.take n s = s.
Proof.
  revert s; induction n as [|n IH]; intros [|c s]; simpl; intros H;
    try reflexivity; try lia.
  f_equal; apply IH; lia.
Qed.

Lemma length_take_exact (n : nat) (s : string) :
  n <= String.length s -> String.length (PyStr.take n s) = n.
Proof.
  revert s; induction n as [|n IH]; intros [|c s]; simpl; intros H;
    try reflexivity; try lia.
  f_equal; apply IH; lia.
Qed.

(** [str(n)] tells the numbers apart. *)
Lemma of_N_inj (m n : N) : PyStr.of_N m = PyStr.of_N n -> m = n.
Proof.
  unfold PyStr.of_N; intros H.
  assert (E : Some (N.to_uint m) = Some (N.to_uint n)).
  { rewrite <- !NilEmpty.usu; now rewrite H. }
  injection E as E.
  rewrite <- (Unsigned.of_to m), <- (Unsigned.of_to n); now rewrite E.
Qed.

Lemma forallb_app (p : ascii -> bool) (s t : string) :
  PyStr.forallb p (s ++ t) = PyStr.forallb p s && PyStr.forallb p t.
Proof. induction s as [|c s IH]; simpl; [reflexivity | now rewrite IH, andb_assoc]. Qed.

End PyStrFacts.

(** ** The digest *)

Module SHA256Facts.

Local Open Scope string_scope.

Lemma hexdigit_lower_hex (n : N) : is_lower_hex (SHA256.hexdigit n) = true.
Proof.
  unfold SHA256.hexdigit.
  assert (H : Forall (fun c => is_lower_hex c = true) SHA256.hexchars)
    by (repeat constructor).
  assert (L : (N.to_nat (n mod 16) < List.length SHA256.hexchars)%nat).
  { simpl. pose proof (N.mod_upper_bound n 16). lia. }
  rewrite Forall_forall in H; apply H, nth_In, L.
Qed.

Lemma hex8_length (w : N) : String.length (SHA256.hex8 w) = 8.
Proof. reflexivity. Qed.

Lemma hex8_lower_hex (w : N) : PyStr.forallb is_lower_hex (SHA256.hex8 w) = true.
Proof.
  unfold SHA256.hex8; cbn [PyStr.forallb]; now rewrite !hexdigit_lower_hex.
Qed.

Lemma hexdigest_length (msg : list N) : String.length (SHA256.hexdigest msg) = 64.
Proof.
  unfold SHA256.hexdigest, SHA256.hex_of_state.
  now rewrite !PyStrFacts.length_app, !hex8_length.
Qed.

Lemma hexdigest_lower_hex (msg : list N) :
  PyStr.forallb is_lower_hex (SHA256.hexdigest msg) = true.
Proof.
  unfold SHA256.hexdigest, SHA256.hex_of_state.
  now rewrite !PyStrFacts.forallb_app, !hex8_lower_hex.
Qed.

Lemma hexdigest_nonempty (msg : list N) : SHA256.hexdigest msg <> "".
Proof.
  intros H; pose proof (hexdigest_length msg) as L; rewrite H in L; discriminate.
Qed.

(** The test vectors of FIPS 180-4, one and two blocks long. *)
Example digest_empty :
  Models.sha256_hexdigest "" =
  "e3b0c44298fc1c149afbf4c8996fb92427ae41e4649b934ca495991b7852b855".
Proof. vm_compute. reflexivity. Qed.

Example digest_abc :
  Models.sha256_hexdigest "abc" =
  "ba7816bf8f01cfea414140de5dae2223b00361a396177a9cb410ff61f20015ad".
Proof. vm_compute. reflexivity. Qed.

Example digest_two_blocks :
  Models.sha256_hexdigest "abcdbcdecdefdefgefghfghighijhijkijkljklmklmnlmnomnopnopq" =
  "248d6a61d20638b8e5c026930c3e6039a33ce45964ff2167f6ecedd419db06c1".
Proof. vm_compute. reflexivity. Qed.

End SHA256Facts.

(** ** Storage *)

Module ModelsFacts.

Local Open Scope string_scope.

Lemma sha256_hexdigest_nonempty (s : string) : Models.sha256_hexdigest s <> "".
Proof. apply SHA256Facts.hexdigest_nonempty. Qed.

Lemma save_hashed (a : NewsArticle) : content_hash a <> "" -> Models.save a = a.
Proof. unfold Models.save; destruct (content_hash a); congruence. Qed.

Lemma hash_exists_In (d : db) (h : string) :
  Models.hash_exists d h = true <-> In h (List.map content_hash (news_articles d)).
Proof.
  unfold Models.hash_exists; rewrite existsb_exists, in_map_iff; split.
  - intros (r & I & E); apply String.eqb_eq in E; eauto.
  - intros (r & E & I); exists r; split; [exact I | now apply String.eqb_eq].
Qed.

Lemma slug_exists_In (d : db) (s : string) :
  Models.slug_exists d s = true <-> In s (List.map slug (news_articles d)).
Proof.
  unfold Models.slug_exists; rewrite existsb_exists, in_map_iff; split.
  - intros (r & I & E); apply String.eqb_eq in E; eauto.
  - intros (r & E & I); exists r; split; [exact I | now apply String.eqb_eq].
Qed.

Lemma filter_absent (h : string) (rows : list NewsArticle) :
  ~ In h (List.map content_hash rows) ->
  List.filter (fun r => String.eqb (content_hash r) h) rows = [].
Proof.
  induction rows as [|r rows IH]; simpl; intros N; [reflexivity|].
  destruct (String.eqb_spec (content_hash r) h) as [E|E]; [tauto|].
  apply IH; tauto.
Qed.

Lemma filter_unique (h : string) (rows : list NewsArticle) :
  NoDup (List.map content_hash rows) ->
  In h (List.map content_hash rows) ->
  exists r, List.filter (fun r => String.eqb (content_hash r) h) rows = [r]
            /\ In r rows /\ content_hash r = h.
Proof.
  induction rows as [|r rows IH]; simpl; intros ND I; [tauto|].
  inversion ND as [|? ? NI ND']; subst.
  destruct (String.eqb_spec (content_hash r) h) as [E|E].
  - exists r; subst h; rewrite (filter_absent _ _ NI); auto.
  - destruct I as [I|I]; [tauto|].
    destruct (IH ND' I) as (r' & F & I' & E'); exists r'; auto.
Qed.

(** [get] raises [DoesNotExist] exactly when no row has the hash. *)
Lemma objects_get_absent (d : db) (h : string) :
  Models.hash_exists d h = false -> Models.objects_get d h = Raise DoesNotExist.
Proof.
  intros H; unfold Models.objects_get; rewrite filter_absent; [reflexivity|].
  rewrite <- hash_exists_In; congruence.
Qed.

(** Under the uniqueness constraint [get] returns the row that has it. *)
Lemma objects_get_present (d : db) (h : string) :
  unique_hashes d -> Models.hash_exists d h = true ->
  exists r, Models.objects_get d h = Ok r /\ In r (news_articles d)
            /\ content_hash r = h.
Proof.
  intros U H; apply hash_exists_In in H.
  destruct (filter_unique h _ U H) as (r & F & I & E).
  exists r; unfold Models.objects_get; rewrite F; auto.
Qed.

Lemma update_row_absent (d : db) (h : string) (a : NewsArticle) :
  Models.hash_exists d h = false -> Models.update_row d h a = d.
Proof.
  intros H; unfold Models.update_row, set_articles; destruct d as [s p rows]; simpl.
  f_equal.
  assert (N : ~ In h (List.map content_hash rows))
    by (rewrite <- (hash_exists_In (Db s p rows)); simpl; congruence).
  clear H; induction rows as [|r rows IH]; simpl in *; [reflexivity|].
  destruct (String.eqb_spec (content_hash r) h); [tauto|].
  f_equal; apply IH; tauto.
Qed.

Lemma map_update_hashes (h : string) (a : NewsArticle) (rows : list NewsArticle) :
  content_hash a = h ->
  List.map content_hash
    (List.map (fun r => if String.eqb (content_hash r) h then a else r) rows)
  = List.map content_hash rows.
Proof.
  intros E; induction rows as [|r rows IH]; simpl; [reflexivity|].
  rewrite IH; f_equal.
  destruct (String.eqb_spec (content_hash r) h); congruence.
Qed.

End ModelsFacts.

(** ** The slug *)

Module SlugFacts.

Local Open Scope string_scope.

Lemma counters_ge (counter : N) (n : nat) (k : N) :
  In k (counters counter n) -> (counter <= k)%N.
Proof.
  revert counter; induction n as [|n IH]; simpl; intros counter; [tauto|].
  intros [E|I]; [lia | apply IH in I; lia].
Qed.

Lemma counters_NoDup (counter : N) (n : nat) : NoDup (counters counter n).
Proof.
  revert counter; induction n as [|n IH]; simpl; intros counter; constructor; auto.
  intros I; apply counters_ge in I; lia.
Qed.

Lemma suffixed_inj (base_slug : string) (j k : N) :
  suffixed base_slug j = suffixed base_slug k -> j = k.
Proof.
  unfold suffixed; intros H.
  apply PyStrFacts.app_inv_head in H; simpl in H; injection H as H.
  now apply PyStrFacts.of_N_inj.
Qed.

Lemma suffixed_not_base (base_slug : string) (k : N) : suffixed base_slug k <> base_slug.
Proof.
  unfold suffixed; intros H.
  apply (f_equal String.length) in H; rewrite PyStrFacts.length_app in H.
  simpl in H; lia.
Qed.

Lemma tried_NoDup (base_slug : string) (counter : N) (n : nat) :
  NoDup (base_slug :: List.map (suffixed base_slug) (counters counter n)).
Proof.
  constructor.
  - rewrite in_map_iff; intros (k & E & _); now apply suffixed_not_base in E.
  - generalize (counters_NoDup counter n).
    induction (counters counter n) as [|k l IH]; simpl; intros ND; [constructor|].
    inversion ND; subst; constructor; auto.
    rewrite in_map_iff; intros (j & E & I); apply suffixed_inj in E; congruence.
Qed.

(** A loop that ends on a slug in use has met a row at every turn. *)
Lemma loop_exhausted (d : db) (base_slug : string) (fuel : nat) :
  forall (slug : string) (counter : N),
  Models.slug_exists d (Command.slug_loop fuel d base_slug slug counter) = true ->
  Forall (fun s => Models.slug_exists d s = true)
         (slug :: List.map (suffixed base_slug) (counters counter fuel)).
Proof.
  induction fuel as [|fuel IH]; intros slug counter; simpl;
    destruct (Models.slug_exists d slug) eqn:T; intros H; try congruence.
  - repeat constructor; exact T.
  - constructor; [exact T | apply (IH _ _ H)].
Qed.

(** The loop leaves through its test: the slug it returns is in use by
    no row. *)
Lemma slug_loop_free (d : db) (base_slug : string) :
  Models.slug_exists d
    (Command.slug_loop (List.length (news_articles d)) d base_slug base_slug 1) = false.
Proof.
  destruct (Models.slug_exists d (Command.slug_loop _ d base_slug base_slug 1)) eqn:T;
    [exfalso | reflexivity].
  apply loop_exhausted in T.
  assert (L : List.length (base_slug :: List.map (suffixed base_slug)
                (counters 1 (List.length (news_articles d))))
              <= List.length (List.map slug (news_articles d))).
  { apply NoDup_incl_length; [apply tried_NoDup|].
    intros s I; rewrite Forall_forall in T.
    now apply ModelsFacts.slug_exists_In, T. }
  simpl in L; rewrite !length_map in L.
  assert (C : forall c n, List.length (counters c n) = n)
    by (intros c n; revert c; induction n; simpl; intros; [reflexivity | now f_equal]).
  rewrite C in L; lia.
Qed.

(** What the loop returns when it leaves through its test: the slug it
    was entered with if that is free, else the first free suffixed one. *)
Lemma slug_loop_first (d : db) (base_slug : string) (fuel : nat) :
  forall (slug : string) (counter : N),
  Models.slug_exists d (Command.slug_loop fuel d base_slug slug counter) = false ->
  (Models.slug_exists d slug = false
   /\ Command.slug_loop fuel d base_slug slug counter = slug)
  \/ (Models.slug_exists d slug = true
      /\ exists k, (counter <= k)%N
         /\ Command.slug_loop fuel d base_slug slug counter = suffixed base_slug k
         /\ forall j, (counter <= j < k)%N ->
                      Models.slug_exists d (suffixed base_slug j) = true).
Proof.
  induction fuel as [|fuel IH]; intros slug counter; simpl;
    destruct (Models.slug_exists d slug) eqn:T; intros H; try congruence; auto.
  right; split; [reflexivity|].
  destruct (IH _ _ H) as [[F E]|[F (k & G & E & A)]].
  - exists counter; repeat split; [lia | exact E | intros j J; lia].
  - exists k; repeat split; [lia | exact E |].
    intros j J; destruct (N.eq_dec j counter) as [->|N]; [exact F | apply A; lia].
Qed.

End SlugFacts.

(** ** The reconciler *)

Module ReconcilerFacts.

Local Open Scope string_scope.

Lemma content_hash_of_nonempty (a : article_data) : Command.content_hash_of a <> "".
Proof. apply ModelsFacts.sha256_hexdigest_nonempty. Qed.

Lemma publish_new_row (d : db) (a : article_data) (day : date) :
  Models.publish (Models.save (new_row d a day)) = new_row d a day.
Proof.
  rewrite (ModelsFacts.save_hashed (new_row d a day))
    by apply content_hash_of_nonempty.
  unfold Models.publish.
  apply (ModelsFacts.save_hashed (new_row d a day)), content_hash_of_nonempty.
Qed.

Lemma update_appended (rows : list NewsArticle) (r : NewsArticle) :
  ~ In (content_hash r) (List.map content_hash rows) ->
  List.map (fun x => if String.eqb (content_hash x) (content_hash r) then r else x)
           (rows ++ [r])%list = (rows ++ [r])%list.
Proof.
  intros N; rewrite map_app; simpl; rewrite String.eqb_refl; f_equal.
  induction rows as [|x rows IH]; simpl in *; [reflexivity|].
  destruct (String.eqb_spec (content_hash x) (content_hash r)); [tauto|].
  f_equal; apply IH; tauto.
Qed.

(** Found, and no update forced: nothing is written. *)
Lemma process_skipped (d : db) (a : article_data) :
  unique_hashes d ->
  Models.hash_exists d (Command.content_hash_of a) = true ->
  Command._process_article d a false = (d, Ok skipped).
Proof.
  intros U H; unfold Command._process_article.
  destruct (ModelsFacts.objects_get_present _ _ U H) as (r & G & _).
  now rewrite G.
Qed.

(** Not found, with a list page and a date: one row is appended. *)
Lemma process_created (d : db) (a : article_data) (force : bool) (day : date) :
  Models.hash_exists d (Command.content_hash_of a) = false ->
  news_list_pages d <> [] ->
  ad_publication_date a = Some day ->
  Command._process_article d a force
  = (set_articles d (news_articles d ++ [new_row d a day])%list, Ok created).
Proof.
  intros H P D; unfold Command._process_article.
  rewrite (ModelsFacts.objects_get_absent _ _ H).
  destruct (news_list_pages d) as [|p ps] eqn:EP; [congruence|].
  rewrite D; fold (new_row d a day).
  rewrite publish_new_row.
  unfold Models.add_child.
  rewrite (ModelsFacts.save_hashed (new_row d a day))
    by apply content_hash_of_nonempty.
  change (content_hash (new_row d a day)) with (Command.content_hash_of a).
  rewrite H.
  change (slug (new_row d a day)) with (Command._create_slug d (ad_title a)).
  unfold Command._create_slug at 1; rewrite SlugFacts.slug_loop_free.
  unfold Models.update_row, set_articles; simpl; f_equal; f_equal.
  apply (update_appended (news_articles d) (new_row d a day)).
  change (content_hash (new_row d a day)) with (Command.content_hash_of a).
  rewrite <- ModelsFacts.hash_exists_In; congruence.
Qed.

(** Not found and no list page: a [CommandError], nothing written. *)
Lemma process_no_list_page (d : db) (a : article_data) (force : bool) :
  Models.hash_exists d (Command.content_hash_of a) = false ->
  news_list_pages d = [] ->
  Command._process_article d a force
  = (d, Raise (CommandError "No news list page found. Please run the command again.")).
Proof.
  intros H P; unfold Command._process_article.
  now rewrite (ModelsFacts.objects_get_absent _ _ H), P.
Qed.

(** An exception leaves the storage as it was. *)
Lemma process_raise_unchanged (d d' : db) (a : article_data) (force : bool) (e : exn) :
  Command._process_article d a force = (d', Raise e) -> d' = d.
Proof.
  unfold Command._process_article.
  destruct (Models.objects_get d _) as [r|[]]; try (intros [= <-]; reflexivity).
  - destruct (negb force); [discriminate|].
    destruct (ad_publication_date a); [discriminate | now intros [= <-]].
  - destruct (news_list_pages d); [now intros [= <-]|].
    destruct (ad_publication_date a); [|now intros [= <-]].
    destruct (Models.add_child d _); [discriminate | now intros [= <-]].
Qed.

(** The list pages and the site are never written. *)
Lemma process_keeps_pages (d d' : db) (a : article_data) (force : bool)
    (r : result outcome) :
  Command._process_article d a force = (d', r) ->
  news_list_pages d' = news_list_pages d /\ default_site d' = default_site d.
Proof.
  unfold Command._process_article.
  destruct (Models.objects_get d _) as [x|[]]; try (intros [= <- _]; auto).
  - destruct (negb force); [intros [= <- _]; auto|].
    destruct (ad_publication_date a); intros [= <- _]; auto.
  - destruct (news_list_pages d) eqn:P; [intros [= <- _]; auto|].
    destruct (ad_publication_date a); [|intros [= <- _]; auto].
    unfold Models.add_child.
    destruct (Models.hash_exists d _); [intros [= <- _]; auto|].
    destruct (Models.slug_exists d _); intros [= <- _]; auto.
Qed.

End ReconcilerFacts.

(** ** The loop of [handle] *)

Module LoopFacts.

Import ReconcilerFacts.

Lemma same_triple_same_hash (a b : article_data) :
  triple a = triple b -> Command.content_hash_of a = Command.content_hash_of b.
Proof.
  unfold triple, Command.content_hash_of; intros [= -> -> ->]; reflexivity.
Qed.

Lemma same_triples_same_hashes (l m : list article_data) :
  List.map triple l = List.map triple m ->
  List.map Command.content_hash_of l = List.map Command.content_hash_of m.
Proof.
  intros E.
  pose (f := fun t : string * string * string =>
               let '(x, y, z) := t in Models.sha256_hexdigest (x ++ y ++ z)).
  rewrite (map_ext Command.content_hash_of (fun a => f (triple a)))
    by reflexivity.
  now rewrite <- !(map_map triple f), E.
Qed.

Lemma hash_exists_appended (d : db) (r : NewsArticle) (h : string) :
  Models.hash_exists (set_articles d (news_articles d ++ [r])) h
  = Models.hash_exists d h || String.eqb (content_hash r) h.
Proof.
  unfold Models.hash_exists; simpl; rewrite existsb_app; simpl.
  now rewrite orb_false_r.
Qed.

Lemma unique_appended (d : db) (r : NewsArticle) :
  unique_hashes d -> Models.hash_exists d (content_hash r) = false ->
  unique_hashes (set_articles d (news_articles d ++ [r])).
Proof.
  unfold unique_hashes; simpl; intros U H; rewrite map_app; simpl.
  apply NoDup_app; auto.
  - repeat constructor; simpl; tauto.
  - intros h I [<-|[]]. apply ModelsFacts.hash_exists_In in I; congruence.
Qed.

(** A run over records that are all stored skips them all and writes
    nothing. *)
Lemma loop_all_skipped (arts : list article_data) :
  forall (d : db) (t : tally),
  unique_hashes d ->
  (forall a, In a arts -> Models.hash_exists d (Command.content_hash_of a) = true) ->
  Command.handle_loop false false arts d t
  = (d, Tally (created_count t) (updated_count t)
              (skipped_count t + List.length arts),
     List.map (fun a => Skipped (Command.title60 a)) arts).
Proof.
  induction arts as [|a arts IH]; intros d t U H; simpl.
  - destruct t; simpl; now rewrite Nat.add_0_r.
  - rewrite (process_skipped d a U) by (apply H; now left).
    rewrite IH by (auto; intros; apply H; now right); simpl.
    do 3 f_equal; lia.
Qed.

(** A first run: every record with a date is created or skipped, and is
    stored afterwards. *)
Lemma loop_first_run (arts : list article_data) :
  forall (d : db) (t : tally),
  unique_hashes d -> news_list_pages d <> [] -> Forall has_date arts ->
  exists d1 t1 out,
    Command.handle_loop false false arts d t = (d1, t1, out)
    /\ unique_hashes d1
    /\ news_list_pages d1 = news_list_pages d
    /\ (forall a, In a arts ->
          Models.hash_exists d1 (Command.content_hash_of a) = true)
    /\ (forall h, Models.hash_exists d h = true -> Models.hash_exists d1 h = true)
    /\ created_count t1 + skipped_count t1
       = created_count t + skipped_count t + List.length arts
    /\ updated_count t1 = updated_count t
    /\ List.length (news_articles d1)
       = List.length (news_articles d) + (created_count t1 - created_count t)
    /\ created_count t <= created_count t1
    /\ (NoDup (List.map Command.content_hash_of arts) ->
        (forall a, In a arts ->
           Models.hash_exists d (Command.content_hash_of a) = false) ->
        skipped_count t1 = skipped_count t).
Proof.
  induction arts as [|a arts IH]; intros d t U P D; simpl.
  - exists d, t, []; repeat split; auto; try lia; tauto.
  - inversion D as [|? ? Da Drest]; subst.
    destruct (Models.hash_exists d (Command.content_hash_of a)) eqn:H.
    + rewrite (process_skipped d a U H).
      destruct (IH d (Tally (created_count t) (updated_count t) (skipped_count t + 1))
                   U P Drest)
        as (d1 & t1 & out & E & U1 & P1 & S1 & M1 & C1 & V1 & L1 & G1 & F1).
      rewrite E; cbn [created_count updated_count skipped_count List.length app] in *.
      exists d1, t1, (Skipped (Command.title60 a) :: out).
      repeat split; auto; try lia.
      * intros x [<-|I]; auto.
      * intros _ Fr. specialize (Fr a (or_introl eq_refl)). congruence.
    + destruct (ad_publication_date a) as [day|] eqn:Dy; [|now elim Da].
      rewrite (process_created d a false day H P Dy).
      set (d' := set_articles d (news_articles d ++ [new_row d a day])).
      assert (U' : unique_hashes d') by (apply unique_appended; auto).
      destruct (IH d' (Tally (created_count t + 1) (updated_count t) (skipped_count t))
                   U' P Drest)
        as (d1 & t1 & out & E & U1 & P1 & S1 & M1 & C1 & V1 & L1 & G1 & F1).
      rewrite E; cbn [created_count updated_count skipped_count List.length app] in *.
      exists d1, t1, (Created (Command.title60 a) :: out).
      repeat split; auto; try lia.
      * intros x [<-|I]; [|auto].
        apply M1; unfold d'; rewrite hash_exists_appended.
        change (content_hash (new_row d a day)) with (Command.content_hash_of a).
        now rewrite String.eqb_refl, orb_true_r.
      * intros h Hh; apply M1; unfold d'; rewrite hash_exists_appended.
        now rewrite Hh.
      * rewrite L1; unfold d', set_articles; cbn [news_articles].
        rewrite length_app; cbn [List.length]; lia.
      * intros ND Fr; inversion ND as [|? ? NI ND']; subst.
        rewrite F1; auto.
        intros x I; unfold d'; rewrite hash_exists_appended.
        change (content_hash (new_row d a day)) with (Command.content_hash_of a).
        rewrite (Fr x (or_intror I)); cbn [orb].
        apply String.eqb_neq; intros Eq; apply NI; rewrite Eq.
        now apply in_map.
Qed.

End LoopFacts.

(** * The pipeline *)

(** Two runs of the loop: a first run over records that carry their date
    creates or skips every record (creates them all when their hashes are
    new and pairwise distinct); a second run over records with the same
    triples skips them all and leaves the storage as it is. *)
Lemma two_runs_of_the_loop :
  forall (d : db) (arts arts2 : list article_data),
    unique_hashes d ->
    news_list_pages d <> [] ->
    Forall has_date arts ->
    List.map triple arts2 = List.map triple arts ->
    (forall a, Models.hash_exists d (Command.content_hash_of a) = true ->
               Command._process_article d a false = (d, Ok skipped))
    /\ exists d1 t1 out1 out2,
         Command.handle_loop false false arts d (Tally 0 0 0) = (d1, t1, out1)
         /\ created_count t1 + skipped_count t1 = List.length arts
         /\ updated_count t1 = 0
         /\ List.length (news_articles d1)
            = List.length (news_articles d) + created_count t1
         /\ (NoDup (List.map Command.content_hash_of arts) ->
             (forall a, In a arts ->
                Models.hash_exists d (Command.content_hash_of a) = false) ->
             t1 = Tally (List.length arts) 0 0)
         /\ Command.handle_loop false false arts2 d1 (Tally 0 0 0)
            = (d1, Tally 0 0 (List.length arts), out2).
Proof.
  intros d arts arts2 U P D T; split.
  - intros a H; now apply ReconcilerFacts.process_skipped.
  - destruct (LoopFacts.loop_first_run arts d (Tally 0 0 0) U P D)
      as (d1 & t1 & out1 & E & U1 & P1 & S1 & M1 & C1 & V1 & L1 & G1 & F1).
    cbn [created_count updated_count skipped_count] in *.
    exists d1, t1, out1, (List.map (fun a => Skipped (Command.title60 a)) arts2).
    repeat split; auto; try lia.
    + intros ND Fr; specialize (F1 ND Fr); destruct t1 as [c u s].
      cbn [created_count updated_count skipped_count] in *; f_equal; lia.
    + rewrite LoopFacts.loop_all_skipped; auto.
      * cbn [created_count updated_count skipped_count]; do 3 f_equal.
        rewrite <- (length_map triple arts2), T, length_map; reflexivity.
      * intros a I.
        apply ModelsFacts.hash_exists_In.
        assert (J : In (Command.content_hash_of a)
                       (List.map Command.content_hash_of arts)).
        { rewrite <- (LoopFacts.same_triples_same_hashes _ _ T); now apply in_map. }
        apply in_map_iff in J; destruct J as (b & Eb & Ib).
        apply ModelsFacts.hash_exists_In; rewrite <- Eb; now apply S1.
Qed.

(** ** The fingerprint *)

Module FingerprintFacts.

Local Open Scope string_scope.

Lemma ord_inj (a b : ascii) : PyStr.ord a = PyStr.ord b -> a = b.
Proof.
  unfold PyStr.ord; intros H.
  rewrite <- (ascii_N_embedding a), <- (ascii_N_embedding b); now rewrite H.
Qed.

Lemma ord_bound (a : ascii) : (PyStr.ord a < 256)%N.
Proof. apply N_ascii_bounded. Qed.

(** UTF-8 tells the strings apart. *)
Lemma encode_inj (s : string) : forall t, PyStr.encode s = PyStr.encode t -> s = t.
Proof.
  induction s as [|a s IH]; intros [|b t]; cbn [PyStr.encode];
    repeat match goal with
           | |- context [(?x <? 128)%N] => destruct (N.ltb_spec x 128)
           end; try discriminate; try reflexivity;
    repeat match goal with
           | |- context [(?n / 64)%N] =>
               let q := fresh "q" in
               let r := fresh "r" in
               pose proof (N.div_mod n 64 ltac:(discriminate));
               pose proof (N.mod_lt n 64 ltac:(discriminate));
               remember (n / 64)%N as q in *; remember (n mod 64)%N as r in *
           end;
    repeat match goal with
           | |- context [(?k + ?q)%N] =>
               is_var q; let x := fresh "byte" in remember (k + q)%N as x
           end;
    intros E; injection E as E; try (exfalso; lia).
  - f_equal; [now apply ord_inj | now apply IH].
  - f_equal; [apply ord_inj; lia | now apply IH].
Qed.

Lemma app_inv_tail (u : string) (s : string) :
  forall t, String.length s = String.length t -> s ++ u = t ++ u -> s = t.
Proof.
  induction s as [|a s IH]; intros [|b t]; simpl; try discriminate; auto.
  intros [= L] [= -> E]; f_equal; now apply IH.
Qed.

(** The example of [hashlib] on text outside ASCII: U+00E9 takes two bytes. *)
Example digest_latin1 :
  Models.sha256_hexdigest (String "c" (String "a" (String "f"
      (String (ascii_of_N 233) EmptyString)))) =
  "850f7dc43910ff890f8879c0ed26fe697c93a067ad93a7d50f466a7028a9bf4e".
Proof. vm_compute. reflexivity. Qed.

End FingerprintFacts.

(** C2. The hash under which the reconciler looks a record up, and which
    it stores on the row it creates, is the SHA-256 digest in lower-case
    hexadecimal (sixty-four characters) of [title + summary + source_url]
    in that order with no separator; records with the same three fields
    get the same hash, whatever their other fields. *)
Theorem content_hash_is_fingerprint :
  forall (title summary source_url : string) (name1 name2 : string)
         (day1 day2 : option date),
    let a := ArticleData title summary source_url name1 day1 in
    let b := ArticleData title summary source_url name2 day2 in
    Command.content_hash_of a = fingerprint title summary source_url
    /\ String.length (Command.content_hash_of a) = 64
    /\ PyStr.forallb is_lower_hex (Command.content_hash_of a) = true
    /\ Command.content_hash_of a = Command.content_hash_of b
    /\ (forall d day,
          content_hash (new_row d a day)
          = fingerprint title summary source_url)
    /\ (forall d force,
          Models.hash_exists d (fingerprint title summary source_url) = true
          \/ snd (Command._process_article d a force) <> Ok skipped).
Proof.
  intros title summary source_url name1 name2 day1 day2 a b.
  split; [reflexivity|].
  split; [apply SHA256Facts.hexdigest_length|].
  split; [apply SHA256Facts.hexdigest_lower_hex|].
  split; [reflexivity|].
  split; [reflexivity|].
  intros d force.
  destruct (Models.hash_exists d (fingerprint title summary source_url)) eqn:H;
    [now left | right].
  unfold Command._process_article.
  rewrite ModelsFacts.objects_get_absent by exact H.
  destruct (news_list_pages d); [discriminate|].
  destruct (ad_publication_date a); [|discriminate].
  destruct (Models.add_child d _); discriminate.
Qed.

(** The fingerprint of the first canned record, as [sha256sum] gives it. *)
Example content_hash_of_test_article :
  List.map Command.content_hash_of (firstn 1 Command.test_articles) =
  ["91b1bce6dd64c063cadb1d4437489991d11ee2baf9a0a31686511fb5ac5d977e"%string].
Proof. vm_compute. reflexivity. Qed.

(** C3, as stated, fails: with the title equal to the summary the swap
    gives the same hash. *)
Lemma fingerprint_swap_counterexample :
  ~ (forall title summary url : string,
       fingerprint summary title url <> fingerprint title summary url).
Proof. intros H; exact (H "a"%string "a"%string "u"%string eq_refl). Qed.

(** C3, amended.  The fingerprint is a function of the concatenation
    alone.  Swapping title and summary leaves the hash as it is whenever
    [title + summary = summary + title] (equal fields, or an empty one);
    whenever the two concatenations differ, the byte strings that are
    digested differ. *)
Theorem fingerprint_swap :
  forall title summary url : string,
    (forall t s u, (t ++ s ++ u = title ++ summary ++ url)%string ->
                   fingerprint t s u = fingerprint title summary url)
    /\ ((title ++ summary = summary ++ title)%string ->
        fingerprint summary title url = fingerprint title summary url)
    /\ ((title ++ summary <> summary ++ title)%string ->
        PyStr.encode (summary ++ title ++ url) <> PyStr.encode (title ++ summary ++ url)).
Proof.
  intros title summary url; repeat split.
  - intros t s u E; unfold fingerprint; now rewrite E.
  - intros E; unfold fingerprint.
    now rewrite <- !PyStrFacts.app_assoc, E.
  - intros N E; apply N; symmetry.
    apply FingerprintFacts.encode_inj in E.
    rewrite <- !PyStrFacts.app_assoc in E.
    apply FingerprintFacts.app_inv_tail in E; [exact E|].
    rewrite !PyStrFacts.length_app; lia.
Qed.

Lemma fingerprint_swap_witness :
  ("ab" ++ "abab" = "abab" ++ "ab")%string
  /\ fingerprint "abab" "ab" "u" = fingerprint "ab" "abab" "u"
  /\ ("a" ++ "b" <> "b" ++ "a")%string
  /\ PyStr.encode ("b" ++ "a" ++ "u") <> PyStr.encode ("a" ++ "b" ++ "u").
Proof.
  assert (E : ("ab" ++ "abab" = "abab" ++ "ab")%string) by reflexivity.
  assert (N : ("a" ++ "b" <> "b" ++ "a")%string) by discriminate.
  split; [exact E|]; split.
  - exact (proj1 (proj2 (fingerprint_swap "ab" "abab" "u")) E).
  - split; [exact N|].
    exact (proj2 (proj2 (fingerprint_swap "a" "b" "u")) N).
Defined.

(** A swap that does change the hash. *)
Example fingerprint_swap_changes :
  fingerprint "b" "a" "" <> fingerprint "a" "b" "".
Proof. vm_compute. discriminate. Qed.

(** ** [NewsArticle.save] *)

Module SaveFacts.

Local Open Scope string_scope.

Lemma save_content_hash_nonempty (a : NewsArticle) : content_hash (Models.save a) <> "".
Proof.
  unfold Models.save; destruct (content_hash a) eqn:E.
  - apply ModelsFacts.sha256_hexdigest_nonempty.
  - rewrite E; discriminate.
Qed.

(** A forced update of a stored record rewrites the row under its hash. *)
Lemma process_updated (d : db) (a : article_data) (r : NewsArticle) (day : date) :
  Models.objects_get d (Command.content_hash_of a) = Ok r ->
  content_hash r = Command.content_hash_of a ->
  ad_publication_date a = Some day ->
  Command._process_article d a true
  = (Models.update_row d (Command.content_hash_of a)
       (set_live (set_scraped_fields r (ad_title a) (ad_summary a) day
                                     (ad_source_name a)) true),
     Ok updated).
Proof.
  intros G H D; unfold Command._process_article; rewrite G, D; cbn [negb].
  unfold Models.publish; rewrite ModelsFacts.save_hashed; [reflexivity|].
  cbn [set_live set_scraped_fields content_hash]; rewrite H.
  apply ReconcilerFacts.content_hash_of_nonempty.
Qed.

End SaveFacts.

(** C10. [save] computes [content_hash], the SHA-256 lower-case
    hexadecimal digest of [title + summary + source_url], only when the
    field is empty; a row whose [content_hash] is set is saved as it is.
    After one save the field is set, so it stays what it is through every
    later save, also when title, summary, publication date and source
    name have been overwritten, as a forced update does: the forced
    update of a stored row leaves the hashes of all rows as they were. *)
Theorem content_hash_fixed_once_set :
  forall a : NewsArticle,
    (content_hash a = ""%string ->
     content_hash (Models.save a)
     = Models.sha256_hexdigest (title a ++ summary a ++ source_url a))
    /\ (content_hash a <> ""%string -> Models.save a = a)
    /\ content_hash (Models.save a) <> ""%string
    /\ (forall new_title new_summary new_date new_source_name,
          content_hash
            (Models.save (set_scraped_fields (Models.save a) new_title new_summary
                                             new_date new_source_name))
          = content_hash (Models.save a))
    /\ (forall d art day,
          Models.objects_get d (Command.content_hash_of art) = Ok a ->
          content_hash a = Command.content_hash_of art ->
          ad_publication_date art = Some day ->
          exists d',
            Command._process_article d art true = (d', Ok updated)
            /\ List.map content_hash (news_articles d')
               = List.map content_hash (news_articles d)).
Proof.
  intros a; split; [|split; [|split; [|split]]].
  - intros E; unfold Models.save; rewrite E; reflexivity.
  - apply ModelsFacts.save_hashed.
  - apply SaveFacts.save_content_hash_nonempty.
  - intros t s day n; rewrite ModelsFacts.save_hashed; [reflexivity|].
    cbn [set_scraped_fields content_hash].
    apply SaveFacts.save_content_hash_nonempty.
  - intros d art day G H D; eexists; split.
    + apply (SaveFacts.process_updated d art a day G H D).
    + unfold Models.update_row, set_articles; cbn [news_articles].
      apply ModelsFacts.map_update_hashes.
      cbn [set_live set_scraped_fields content_hash]; exact H.
Qed.

Lemma content_hash_fixed_once_set_witness :
  content_hash stored_row <> ""%string
  /\ Models.save stored_row = stored_row
  /\ Models.objects_get stored_db (Command.content_hash_of retitled) = Ok stored_row
  /\ exists d',
       Command._process_article stored_db retitled true = (d', Ok updated)
       /\ List.map content_hash (news_articles d')
          = List.map content_hash (news_articles stored_db).
Proof.
  assert (N : content_hash stored_row <> ""%string) by (vm_compute; discriminate).
  assert (G : Models.objects_get stored_db (Command.content_hash_of retitled)
              = Ok stored_row) by (vm_compute; reflexivity).
  assert (H : content_hash stored_row = Command.content_hash_of retitled)
    by (vm_compute; reflexivity).
  split; [exact N|]; split.
  - exact (proj1 (proj2 (content_hash_fixed_once_set stored_row)) N).
  - split; [exact G|].
    exact (proj2 (proj2 (proj2 (proj2 (content_hash_fixed_once_set stored_row))))
             stored_db retitled 20001%Z G H eq_refl).
Defined.

(** ** The slug *)

Module SlugifyFacts.

Local Open Scope string_scope.

(** [lower] leaves no letter of A-Z behind, which makes the [A-Z] of the
    class in the code idle. *)
Lemma lower_char_not_upper (c : ascii) : PyStr.is_upper (PyStr.lower_char c) = false.
Proof. destruct c as [[] [] [] [] [] [] [] []]; vm_compute; reflexivity. Qed.

Lemma filter_lower (title : string) :
  PyStr.filter Command.slug_char (PyStr.lower title)
  = PyStr.filter spec_slug_char (PyStr.lower title).
Proof.
  unfold PyStr.lower; induction title as [|c title IH]; cbn [PyStr.map PyStr.filter];
    [reflexivity|].
  assert (E : Command.slug_char (PyStr.lower_char c)
              = spec_slug_char (PyStr.lower_char c)).
  { unfold Command.slug_char, spec_slug_char.
    now rewrite lower_char_not_upper, orb_false_r. }
  rewrite E, IH; reflexivity.
Qed.

Lemma base_slug_of_slugify (title : string) : Command.base_slug_of title = slugify title.
Proof. unfold Command.base_slug_of, slugify; now rewrite filter_lower. Qed.

Lemma slug_exists_appended (d : db) (r : NewsArticle) (s : string) :
  Models.slug_exists (set_articles d (news_articles d ++ [r])) s
  = Models.slug_exists d s || String.eqb (slug r) s.
Proof.
  unfold Models.slug_exists; cbn [set_articles news_articles].
  rewrite existsb_app; cbn [existsb]; now rewrite orb_false_r.
Qed.

Lemma create_slug_free (d : db) (title : string) :
  Models.slug_exists d (Command._create_slug d title) = false.
Proof. apply SlugFacts.slug_loop_free. Qed.

End SlugifyFacts.

(** C9. The slug of a title is [slugify title] (at most fifty characters)
    when no stored article has that slug; otherwise it is that base with
    the suffix [-k], for the first [k] among 1, 2, ... whose slug no
    stored article has.  Either way no stored article has the slug that
    is returned, so an article stored under it and any article processed
    afterwards get distinct slugs. *)
Theorem create_slug_unique :
  forall (d : db) (title : string),
    let base := slugify title in
    let s := Command._create_slug d title in
    Command.base_slug_of title = base
    /\ String.length base <= 50
    /\ Models.slug_exists d s = false
    /\ ((Models.slug_exists d base = false /\ s = base)
        \/ (Models.slug_exists d base = true
            /\ exists k : N,
                 (1 <= k)%N
                 /\ s = (base ++ "-" ++ PyStr.of_N k)%string
                 /\ forall j : N, (1 <= j < k)%N ->
                      Models.slug_exists d (base ++ "-" ++ PyStr.of_N j)%string = true))
    /\ (forall summary url name hash day title2,
          let row := MkNewsArticle title summary url name day hash s true true in
          Command._create_slug (set_articles d (news_articles d ++ [row])) title2 <> s).
Proof.
  intros d title base s.
  assert (F : Models.slug_exists d s = false) by apply SlugifyFacts.create_slug_free.
  split; [apply SlugifyFacts.base_slug_of_slugify|].
  split; [apply PyStrFacts.length_take|].
  split; [exact F|].
  split.
  - unfold s, Command._create_slug in *.
    rewrite SlugifyFacts.base_slug_of_slugify in *; fold base in F |- *.
    destruct (SlugFacts.slug_loop_first d base _ base 1 F) as [[B E]|[B (k & G & E & A)]].
    + left; auto.
    + right; split; [exact B|]; exists k; auto.
  - intros summary url name hash day title2 row E.
    pose proof (SlugifyFacts.create_slug_free
                  (set_articles d (news_articles d ++ [row])) title2) as F2.
    rewrite E, SlugifyFacts.slug_exists_appended in F2.
    cbn [row slug] in F2; rewrite String.eqb_refl, orb_true_r in F2; discriminate.
Qed.

(** The slug of the specification's example, and [foo], [foo-1]. *)
Example slug_of_test_title :
  Command._create_slug fresh_db "Test Article: Python Django Framework Updates!!"
  = "test-article-python-django-framework-updates"%string.
Proof. vm_compute. reflexivity. Qed.

Example slug_of_spaced_title :
  Command._create_slug fresh_db " Hello,   World -- " = "hello-world"%string.
Proof. vm_compute. reflexivity. Qed.

Example slug_foo_then_foo_1 :
  let row := MkNewsArticle "Foo" "" "" "" 0%Z "" (Command._create_slug fresh_db "Foo")
                           true true in
  Command._create_slug fresh_db "Foo" = "foo"%string
  /\ Command._create_slug (set_articles fresh_db [row]) "foo!" = "foo-1"%string.
Proof. vm_compute. split; reflexivity. Qed.

(** ** The extractors *)

Module ExtractorFacts.

Local Open Scope string_scope.

Lemma in_somes {A B : Type} (f : A -> option B) (l : list A) (b : B) :
  In b (NewsScraper.somes (List.map f l)) -> exists a, In a l /\ f a = Some b.
Proof.
  induction l as [|a l IH]; cbn [List.map NewsScraper.somes]; [intros []|].
  destruct (f a) as [b'|] eqn:E.
  - intros [<-|I]; [exists a; split; [now left | exact E]|].
    destruct (IH I) as (x & Ix & Ex); exists x; split; [now right | exact Ex].
  - intros I; destruct (IH I) as (x & Ix & Ex); exists x; split;
      [now right | exact Ex].
Qed.

Lemma in_reddit_loop (today : date) (posts : list (option NewsScraper.post_data))
    (a : article_data) :
  In a (fst (NewsScraper.reddit_loop today posts)) ->
  exists post, In post posts /\ NewsScraper.reddit_entry today post = Ok (Some a).
Proof.
  induction posts as [|post posts IH]; cbn [NewsScraper.reddit_loop]; [intros []|].
  destruct (NewsScraper.reddit_loop today posts) as [articles log].
  cbn [fst] in IH.
  destruct (NewsScraper.reddit_entry today post) as [[b|]|e] eqn:E; cbn [fst].
  - intros [<-|I]; [exists post; split; [now left | exact E]|].
    destruct (IH I) as (x & Ix & Ex); exists x; split; [now right | exact Ex].
  - intros I; destruct (IH I) as (x & Ix & Ex); exists x; split;
      [now right | exact Ex].
  - intros I; destruct (IH I) as (x & Ix & Ex); exists x; split;
      [now right | exact Ex].
Qed.

Lemma in_firstn {A : Type} (n : nat) (a : A) :
  forall l, In a (firstn n l) -> In a l.
Proof.
  induction n as [|n IH]; intros [|x l]; simpl; try tauto.
  intros [<-|I]; [now left | right; now apply IH].
Qed.

Lemma in_py_prefix {A : Type} (n : Z) (l : list A) (a : A) :
  In a (NewsScraper.py_prefix n l) -> In a l.
Proof.
  unfold NewsScraper.py_prefix; destruct (0 <=? n)%Z; apply in_firstn.
Qed.

(** What the aggregator entry yields. *)
Lemma hacker_news_entry_summary (today : date) (row : NewsScraper.story_row)
    (a : article_data) :
  NewsScraper.hacker_news_entry today row = Some a ->
  ad_summary a = truncate200 ("Latest story from Hacker News: " ++ ad_title a).
Proof.
  unfold NewsScraper.hacker_news_entry.
  destruct (NewsScraper.titleline row) as [[title_link|]|]; try discriminate.
  destruct (PyStr.startswith "item?" _); [|destruct (negb _); [discriminate|]];
    intros [= <-]; reflexivity.
Qed.

(** What the forum entry yields. *)
Lemma reddit_entry_fields (today : date) (post : option NewsScraper.post_data)
    (a : article_data) :
  NewsScraper.reddit_entry today post = Ok (Some a) ->
  exists p, post = Some p
    /\ ad_title a = PyStr.strip (NewsScraper.get (NewsScraper.pd_title p) "")
    /\ ad_title a <> ""
    /\ ad_summary a = NewsScraper.reddit_summary (ad_title a) p
    /\ NewsScraper.reddit_source_url p = Ok (ad_source_url a).
Proof.
  unfold NewsScraper.reddit_entry; destruct post as [p|]; [|discriminate].
  destruct (PyStr.strip _) as [|c t] eqn:T; [discriminate|].
  destruct (NewsScraper.reddit_source_url p) as [u|e] eqn:U; [|discriminate].
  intros [= <-]; exists p; cbn [ad_title ad_summary ad_source_url].
  repeat split; auto; discriminate.
Qed.

Lemma reddit_summary_truncated (title : string) (p : NewsScraper.post_data) :
  NewsScraper.reddit_summary title p = truncate200 (forum_summary_text title p).
Proof.
  unfold NewsScraper.reddit_summary, forum_summary_text, truncate200.
  destruct (NewsScraper.get (NewsScraper.pd_selftext p) ""); reflexivity.
Qed.

End ExtractorFacts.

(** C8. Every article that either extractor returns has as summary its
    text under the 200-character rule: the text itself when it has at
    most 200 characters, else its first 200 characters followed by the
    ellipsis.  The text is the template with the title for the
    aggregator.  For the forum the article is the record of one post of
    the page, with the stripped title and the URL of that post, and the
    text is the body of that same post when it is not empty, else the
    template with the title. *)
Theorem summaries_truncated :
  forall (today : date) (max_articles : Z),
    (forall response a,
       In a (fst (NewsScraper.scrape_hacker_news today response max_articles)) ->
       (exists story_rows row,
          response = Some story_rows /\ In row story_rows
          /\ NewsScraper.hacker_news_entry today row = Some a)
       /\ ad_summary a
          = truncate200 ("Latest story from Hacker News: " ++ ad_title a)%string)
    /\ (forall response a,
          In a (fst (NewsScraper.scrape_reddit_programming today response max_articles)) ->
          exists children p,
            response = Some children /\ In (Some p) children
            /\ NewsScraper.reddit_entry today (Some p) = Ok (Some a)
            /\ ad_title a = PyStr.strip (NewsScraper.get (NewsScraper.pd_title p) "")
            /\ NewsScraper.reddit_source_url p = Ok (ad_source_url a)
            /\ ad_summary a = truncate200 (forum_summary_text (ad_title a) p)
            /\ (forall selftext,
                  NewsScraper.pd_selftext p = Some selftext -> selftext <> ""%string ->
                  ad_summary a = truncate200 selftext)
            /\ (NewsScraper.get (NewsScraper.pd_selftext p) "" = ""%string ->
                ad_summary a
                = truncate200 ("Programming discussion: " ++ ad_title a)%string))
    /\ (forall s, String.length s <= 200 -> truncate200 s = s)
    /\ (forall s, 200 < String.length s ->
          truncate200 s = (PyStr.take 200 s ++ "...")%string
          /\ String.length (truncate200 s) = 203).
Proof.
  intros today max_articles; split; [|split; [|split]].
  - intros [story_rows|] a; cbn [NewsScraper.scrape_hacker_news fst]; [|intros []].
    intros I; apply ExtractorFacts.in_somes in I; destruct I as (row & Ir & E).
    apply ExtractorFacts.in_py_prefix in Ir.
    split; [exists story_rows, row; auto|].
    now apply ExtractorFacts.hacker_news_entry_summary in E.
  - intros [children|] a; cbn [NewsScraper.scrape_reddit_programming fst];
      [|intros []].
    intros I; apply ExtractorFacts.in_reddit_loop in I; destruct I as (post & Ip & E).
    apply ExtractorFacts.in_py_prefix in Ip.
    pose proof (ExtractorFacts.reddit_entry_fields _ _ _ E) as (p & -> & T & _ & S & U).
    assert (R : ad_summary a = truncate200 (forum_summary_text (ad_title a) p))
      by now rewrite S, ExtractorFacts.reddit_summary_truncated.
    exists children, p.
    split; [reflexivity|]. split; [exact Ip|]. split; [exact E|].
    split; [exact T|]. split; [exact U|]. split; [exact R|]. split.
    + intros selftext B NE; rewrite R; unfold forum_summary_text; rewrite B.
      cbn [NewsScraper.get]; destruct selftext; [congruence | reflexivity].
    + intros B; rewrite R; unfold forum_summary_text; now rewrite B.
  - intros s L; unfold truncate200.
    destruct (Nat.ltb_spec 200 (String.length s)); [lia | reflexivity].
  - intros s L; unfold truncate200.
    destruct (Nat.ltb_spec 200 (String.length s)); [|lia].
    split; [reflexivity|].
    rewrite PyStrFacts.length_app, PyStrFacts.length_take_exact by lia; reflexivity.
Qed.

Lemma summaries_truncated_witness :
  let hn := ArticleData "Show HN: a tiny parser"
              "Latest story from Hacker News: Show HN: a tiny parser"
              "https://news.ycombinator.com/item?id=42" "Hacker News" (Some 20000%Z) in
  let rd := ArticleData "Why tests matter" (replicate 200 "x" ++ "...")
              "https://example.org/tests" "Reddit Programming" (Some 20000%Z) in
  In hn (fst (NewsScraper.scrape_hacker_news 20000%Z (Some sample_rows) 5%Z))
  /\ ad_summary hn = truncate200 ("Latest story from Hacker News: " ++ ad_title hn)%string
  /\ In rd (fst (NewsScraper.scrape_reddit_programming 20000%Z
                   (Some [None; Some sample_post]) 5%Z))
  /\ (exists children p,
        Some [None; Some sample_post] = Some children /\ In (Some p) children
        /\ NewsScraper.reddit_entry 20000%Z (Some p) = Ok (Some rd)
        /\ ad_title rd = PyStr.strip (NewsScraper.get (NewsScraper.pd_title p) "")
        /\ NewsScraper.reddit_source_url p = Ok (ad_source_url rd)
        /\ ad_summary rd = truncate200 (forum_summary_text (ad_title rd) p))
  /\ String.length (ad_summary hn) <= 200
  /\ truncate200 (ad_summary hn) = ad_summary hn
  /\ 200 < String.length (replicate 250 "x")
  /\ String.length (truncate200 (replicate 250 "x")) = 203.
Proof.
  intros hn rd.
  pose proof (summaries_truncated 20000%Z 5%Z) as (HN & RD & Short & Long).
  assert (I1 : In hn (fst (NewsScraper.scrape_hacker_news 20000%Z (Some sample_rows) 5%Z)))
    by (vm_compute; auto).
  assert (I2 : In rd (fst (NewsScraper.scrape_reddit_programming 20000%Z
                             (Some [None; Some sample_post]) 5%Z)))
    by (vm_compute; auto).
  assert (L1 : String.length (ad_summary hn) <= 200) by (vm_compute; lia).
  assert (L2 : 200 < String.length (replicate 250 "x")) by (vm_compute; lia).
  split; [exact I1|]. split; [exact (proj2 (HN _ _ I1))|].
  split; [exact I2|]. split.
  - destruct (RD _ _ I2) as (children & p & A & B & C & D & E & F & _).
    exists children, p; auto 10.
  - split; [exact L1|]. split; [exact (Short _ L1)|].
    split; [exact L2|]. exact (proj2 (Long _ L2)).
Defined.

(** ** The URL of a forum post *)

(** C7, as stated, fails: a post whose [url] is empty is extracted with
    an empty [source_url], not with its permalink. *)
Lemma forum_url_counterexample :
  ~ (forall (today : date) (p : NewsScraper.post_data) (a : article_data)
            (permalink : string),
       NewsScraper.reddit_entry today (Some p) = Ok (Some a) ->
       NewsScraper.pd_permalink p = Some permalink ->
       let url := NewsScraper.get (NewsScraper.pd_url p) "" in
       (internal_forum_path url = true \/ url = ""%string ->
        ad_source_url a = ("https://reddit.com" ++ permalink)%string)
       /\ (~ (internal_forum_path url = true \/ url = ""%string) ->
           ad_source_url a = url)).
Proof.
  intros H.
  pose (p := NewsScraper.PostData (Some "A post"%string) (Some ""%string)
               (Some "/r/programming/comments/1/a_post/"%string) None).
  destruct (H 20000%Z p
              (ArticleData "A post" "Programming discussion: A post" ""
                           "Reddit Programming" (Some 20000%Z))
              "/r/programming/comments/1/a_post/"%string eq_refl eq_refl)
    as [S _].
  specialize (S (or_intror eq_refl)); discriminate.
Qed.

(** C7, amended.  For every post that the forum extractor returns: when
    the [url] field starts with [/r/] or contains [reddit.com], the
    [source_url] is [https://reddit.com] followed by the permalink of the
    post; otherwise, an empty or absent [url] included, it is the [url]
    field as it is. *)
Theorem forum_url_resolution :
  forall (today : date) (p : NewsScraper.post_data) (a : article_data),
    NewsScraper.reddit_entry today (Some p) = Ok (Some a) ->
    let url := NewsScraper.get (NewsScraper.pd_url p) "" in
    (internal_forum_path url = true ->
     exists permalink, NewsScraper.pd_permalink p = Some permalink
       /\ ad_source_url a = ("https://reddit.com" ++ permalink)%string)
    /\ (internal_forum_path url = false -> ad_source_url a = url)
    /\ (url = ""%string -> ad_source_url a = ""%string).
Proof.
  intros today p a E url.
  apply ExtractorFacts.reddit_entry_fields in E.
  destruct E as (p' & [= <-] & _ & _ & _ & U).
  unfold NewsScraper.reddit_source_url in U; fold url in U.
  fold (internal_forum_path url) in U.
  assert (R : internal_forum_path url = false -> ad_source_url a = url).
  { intros F; rewrite F in U; now injection U as <-. }
  split; [|split; [exact R|]].
  - intros T; rewrite T in U.
    destruct (NewsScraper.pd_permalink p) as [permalink|]; [|discriminate].
    exists permalink; split; [reflexivity | now injection U as <-].
  - intros Z.
    assert (F : internal_forum_path url = false) by (rewrite Z; reflexivity).
    rewrite (R F); exact Z.
Qed.

Lemma forum_url_resolution_witness :
  let internal := NewsScraper.PostData (Some "Ask"%string)
                    (Some "/r/programming/comments/2/ask/"%string)
                    (Some "/r/programming/comments/2/ask/"%string) None in
  let a := ArticleData "Ask" "Programming discussion: Ask"
             "https://reddit.com/r/programming/comments/2/ask/"
             "Reddit Programming" (Some 20000%Z) in
  let b := ArticleData "Why tests matter" (replicate 200 "x" ++ "...")
             "https://example.org/tests" "Reddit Programming" (Some 20000%Z) in
  NewsScraper.reddit_entry 20000%Z (Some internal) = Ok (Some a)
  /\ (exists permalink, NewsScraper.pd_permalink internal = Some permalink
        /\ ad_source_url a = ("https://reddit.com" ++ permalink)%string)
  /\ NewsScraper.reddit_entry 20000%Z (Some sample_post) = Ok (Some b)
  /\ ad_source_url b = "https://example.org/tests"%string.
Proof.
  intros internal a b.
  assert (E1 : NewsScraper.reddit_entry 20000%Z (Some internal) = Ok (Some a))
    by (vm_compute; reflexivity).
  assert (E2 : NewsScraper.reddit_entry 20000%Z (Some sample_post) = Ok (Some b))
    by (vm_compute; reflexivity).
  split; [exact E1|].
  split; [exact (proj1 (forum_url_resolution 20000%Z internal a E1) eq_refl)|].
  split; [exact E2|].
  exact (proj1 (proj2 (forum_url_resolution 20000%Z sample_post b E2)) eq_refl).
Defined.

(** ** Failures in the loop of [handle] *)

Module HandleFacts.

Lemma failures_app (l m : list event) : failures (l ++ m) = failures l + failures m.
Proof.
  induction l as [|e l IH]; [reflexivity|].
  destruct e; cbn [app failures]; rewrite IH; reflexivity.
Qed.

(** An exception in one record: caught, reported with the title, no
    counter touched, and the loop goes on with the rest. *)
Lemma loop_step_failed (d d1 : db) (a : article_data) (rest : list article_data)
    (force : bool) (t : tally) (e : exn) :
  Command._process_article d a force = (d1, Raise e) ->
  Command.handle_loop false force (a :: rest) d t
  = (let '(d', t', out) := Command.handle_loop false force rest d t in
     (d', t', Failed (Command.title60 a) e
              :: LogFailedToProcess (ad_title a) e :: out)).
Proof.
  intros E; pose proof (ReconcilerFacts.process_raise_unchanged _ _ _ _ _ E) as ->.
  cbn [Command.handle_loop]; rewrite E.
  destruct (Command.handle_loop false force rest d t) as [[d' t'] out]; reflexivity.
Qed.

(** The three counters and the [Failed] lines account for every record. *)
Lemma loop_counts (force : bool) (arts : list article_data) :
  forall (d d' : db) (t t' : tally) (out : list event),
  Command.handle_loop false force arts d t = (d', t', out) ->
  created_count t' + updated_count t' + skipped_count t' + failures out
  = created_count t + updated_count t + skipped_count t + List.length arts.
Proof.
  induction arts as [|a arts IH]; intros d d' t t' out; cbn [Command.handle_loop].
  - intros [= <- <- <-]; cbn [failures List.length]; lia.
  - destruct (Command._process_article d a force) as [d1 [[]|e]];
      match goal with
      | |- context [Command.handle_loop false force arts d1 ?t1] =>
          destruct (Command.handle_loop false force arts d1 t1)
            as [[d2 t2] out2] eqn:E
      end;
      intros [= <- <- <-]; apply IH in E;
      cbn [created_count updated_count skipped_count app failures List.length] in *;
      lia.
Qed.

Lemma ensure_ok (d d' : db) (out : list event) :
  Command._ensure_news_list_page d = (d', out, Ok tt) ->
  news_list_pages d' <> [] /\ news_articles d' = news_articles d
  /\ default_site d = true /\ failures out = 0.
Proof.
  unfold Command._ensure_news_list_page.
  destruct (default_site d); [|discriminate].
  destruct (existsb lp_child_of_root (news_list_pages d)) eqn:X;
    intros [= <- <-]; cbn [news_list_pages news_articles failures]; repeat split.
  - intros N; rewrite N in X; discriminate.
  - destruct (news_list_pages d); discriminate.
Qed.

Lemma ensure_fatal (d : db) :
  default_site d = false ->
  exists out msg, Command._ensure_news_list_page d = (d, out, Raise (CommandError msg)).
Proof.
  intros S; unfold Command._ensure_news_list_page; rewrite S; eauto.
Qed.

Lemma ensure_total (d : db) :
  default_site d = true ->
  exists d' out, Command._ensure_news_list_page d = (d', out, Ok tt).
Proof.
  intros S; unfold Command._ensure_news_list_page; rewrite S.
  destruct (existsb _ _); eauto.
Qed.

Lemma reddit_log_no_failures (today : date) (posts : list (option NewsScraper.post_data)) :
  failures (snd (NewsScraper.reddit_loop today posts)) = 0.
Proof.
  induction posts as [|post posts IH]; cbn [NewsScraper.reddit_loop]; [reflexivity|].
  destruct (NewsScraper.reddit_loop today posts) as [articles log].
  destruct (NewsScraper.reddit_entry today post) as [[a|]|e]; exact IH.
Qed.

Lemma hacker_news_log_no_failures today response n :
  failures (snd (NewsScraper.scrape_hacker_news today response n)) = 0.
Proof. destruct response; reflexivity. Qed.

Lemma reddit_scrape_no_failures today response n :
  failures (snd (NewsScraper.scrape_reddit_programming today response n)) = 0.
Proof. destruct response; [apply reddit_log_no_failures | reflexivity]. Qed.

End HandleFacts.

Module RunFacts.

Lemma scraped_articles_steps (w : world) (o : options) :
  scraped_articles w o = fst (hacker_news_step w o) ++ fst (reddit_step w o).
Proof.
  unfold scraped_articles, hacker_news_step, reddit_step.
  destruct (Command.in_sources (opt_source o) [hackernews; all]);
    destruct (Command.in_sources (opt_source o) [reddit; all]);
    try destruct (NewsScraper.scrape_hacker_news _ _ _);
    try destruct (NewsScraper.scrape_reddit_programming _ _ _); reflexivity.
Qed.

Lemma hacker_news_step_no_failures (w : world) (o : options) :
  failures (snd (hacker_news_step w o)) = 0.
Proof.
  unfold hacker_news_step.
  destruct (Command.in_sources _ _); [|reflexivity].
  pose proof (HandleFacts.hacker_news_log_no_failures (today w)
                (hacker_news_response w) (max_articles o)) as F.
  destruct (NewsScraper.scrape_hacker_news _ _ _) as [l log]; cbn [snd] in *.
  cbn [failures]; rewrite HandleFacts.failures_app, F; reflexivity.
Qed.

Lemma reddit_step_no_failures (w : world) (o : options) :
  failures (snd (reddit_step w o)) = 0.
Proof.
  unfold reddit_step.
  destruct (Command.in_sources _ _); [|reflexivity].
  pose proof (HandleFacts.reddit_scrape_no_failures (today w)
                (reddit_response w) (max_articles o)) as F.
  destruct (NewsScraper.scrape_reddit_programming _ _ _) as [l log]; cbn [snd] in *.
  cbn [failures]; rewrite HandleFacts.failures_app, F; reflexivity.
Qed.

(** [handle] outside the test mode, once the container step is done. *)
Lemma handle_after_ensure (w : world) (o : options) (d d0 : db)
    (out0 : list event) (r : result unit) :
  test o = false ->
  (if dry_run o then (d, [], Ok tt) else Command._ensure_news_list_page d)
  = (d0, out0, r) ->
  Command.handle w o d
  = match r with
    | Raise e =>
        (d0, [Starting; Options (max_articles o) (opt_source o) (dry_run o)] ++ out0,
         Raise e)
    | Ok _ =>
        let out := [Starting; Options (max_articles o) (opt_source o) (dry_run o)]
                   ++ out0 ++ snd (hacker_news_step w o) ++ snd (reddit_step w o) in
        match scraped_articles w o with
        | [] => (d0, out ++ [NoArticlesFound], Ok tt)
        | _ :: _ =>
            let '(d', t, out3) :=
              Command.handle_loop (dry_run o) (force_update o) (scraped_articles w o)
                                  d0 (Tally 0 0 0) in
            (d', out ++ out3
                 ++ [if negb (dry_run o)
                     then ScrapingComplete (created_count t) (updated_count t)
                                           (skipped_count t)
                     else DryRunComplete (List.length (scraped_articles w o))],
             Ok tt)
        end
    end.
Proof.
  intros T E; rewrite scraped_articles_steps.
  unfold Command.handle; rewrite T, E.
  fold (hacker_news_step w o); fold (reddit_step w o).
  destruct r as [u|e]; [|reflexivity].
  destruct (hacker_news_step w o) as [hn out1].
  destruct (reddit_step w o) as [rd out2]; cbn [fst snd].
  destruct (hn ++ rd); reflexivity.
Qed.

(** A run that writes: the container is ensured, the extracted records go
    through the loop, and the summary names the three counters. *)
Lemma handle_live_run (w : world) (o : options) (d d0 : db) (out0 : list event) :
  test o = false -> dry_run o = false ->
  Command._ensure_news_list_page d = (d0, out0, Ok tt) ->
  scraped_articles w o <> [] ->
  exists pre,
    failures pre = 0
    /\ forall d' t out3,
         Command.handle_loop false (force_update o) (scraped_articles w o) d0
                             (Tally 0 0 0) = (d', t, out3) ->
         Command.handle w o d
         = (d', pre ++ out3 ++ [ScrapingComplete (created_count t) (updated_count t)
                                                 (skipped_count t)],
            Ok tt).
Proof.
  intros T D E N.
  exists ([Starting; Options (max_articles o) (opt_source o) (dry_run o)]
          ++ out0 ++ snd (hacker_news_step w o) ++ snd (reddit_step w o)).
  split.
  - apply HandleFacts.ensure_ok in E; destruct E as (_ & _ & _ & F0).
    cbn [app failures]; rewrite !HandleFacts.failures_app, F0.
    now rewrite hacker_news_step_no_failures, reddit_step_no_failures.
  - intros d' t out3 R.
    rewrite (handle_after_ensure w o d d0 out0 (Ok tt) T)
      by (rewrite D; exact E).
    cbv zeta; rewrite D in *; rewrite R.
    destruct (scraped_articles w o); [now elim N | reflexivity].
Qed.

Lemma create_test_articles_fatal_iff (d : db) (dry : bool) :
  (exists e, snd (Command._create_test_articles d dry) = Raise e)
  <-> dry = false /\ default_site d = false.
Proof.
  unfold Command._create_test_articles, Command._ensure_news_list_page.
  destruct dry; cbn [snd].
  - split; [intros [e E]; discriminate | intros [E _]; discriminate].
  - destruct (default_site d).
    + assert (X : forall d0 out0,
                snd (let '(d', created_count, out) :=
                       Command.test_loop Command.test_articles d0 0 in
                     (d', out0 ++ out ++ [TestComplete created_count], Ok tt))
                = Ok tt)
        by (intros d0 out0; destruct (Command.test_loop _ _ _) as [[? ?] ?];
            reflexivity).
      destruct (existsb _ _); rewrite X;
        (split; [intros [e E]; discriminate | intros [_ E]; discriminate]).
    + cbn [snd]; split; [auto | intros _; eexists; reflexivity].
Qed.

(** The only fatal error of a run is a container that cannot be ensured. *)
Lemma handle_fatal_iff (w : world) (o : options) (d : db) :
  (exists e, snd (Command.handle w o d) = Raise e)
  <-> dry_run o = false /\ default_site d = false.
Proof.
  destruct (test o) eqn:T.
  - rewrite <- create_test_articles_fatal_iff.
    unfold Command.handle; rewrite T.
    destruct (Command._create_test_articles d (dry_run o)) as [[d' out'] r].
    reflexivity.
  - destruct (if dry_run o then (d, [], Ok tt) else Command._ensure_news_list_page d)
      as [[d0 out0] r] eqn:E.
    rewrite (handle_after_ensure w o d d0 out0 r T E).
    assert (R : (exists e, r = Raise e) <-> dry_run o = false /\ default_site d = false).
    { destruct (dry_run o).
      - injection E as _ _ <-.
        split; [intros [e X]; discriminate | intros [X _]; discriminate].
      - unfold Command._ensure_news_list_page in E.
        destruct (default_site d).
        + destruct (existsb _ _); injection E as _ _ <-;
            (split; [intros [e X]; discriminate | intros [_ X]; discriminate]).
        + injection E as _ _ <-; split; [auto | intros _; eexists; reflexivity]. }
    rewrite <- R; destruct r as [u|e]; cbn [snd].
    + cbv zeta; destruct (scraped_articles w o);
        [|destruct (Command.handle_loop _ _ _ _ _) as [[? ?] ?]];
        cbn [snd]; split; intros [e X]; discriminate.
    + split; intros _; eexists; reflexivity.
Qed.

End RunFacts.

(** ** Failures: what the run reports *)

(** C4, as stated, fails: no count of the failed records is kept, so the
    counters at the end of a run do not tell how many records failed. *)
Lemma failed_count_counterexample :
  ~ exists failed_of : tally -> nat,
      forall d arts force d' t out,
        Command.handle_loop false force arts d (Tally 0 0 0) = (d', t, out) ->
        failed_of t = failures out.
Proof.
  intros [failed_of H].
  assert (E1 : Command.handle_loop false false [undated] fresh_db (Tally 0 0 0)
               = (fresh_db, Tally 0 0 0,
                  [Failed (Command.title60 undated) (KeyError "publication_date");
                   LogFailedToProcess (ad_title undated) (KeyError "publication_date")]))
    by (vm_compute; reflexivity).
  assert (E2 : Command.handle_loop false false [undated; undated] fresh_db (Tally 0 0 0)
               = (fresh_db, Tally 0 0 0,
                  [Failed (Command.title60 undated) (KeyError "publication_date");
                   LogFailedToProcess (ad_title undated) (KeyError "publication_date");
                   Failed (Command.title60 undated) (KeyError "publication_date");
                   LogFailedToProcess (ad_title undated) (KeyError "publication_date")]))
    by (vm_compute; reflexivity).
  apply H in E1; apply H in E2; cbn [failures] in *; congruence.
Qed.

(** C4, amended.  An exception raised while one record is processed is
    caught in the loop and reported with the title of the record, on the
    output and in the log; it stops neither the loop, which goes on with
    the records that follow, nor the run.  It is counted nowhere: the
    counters created, updated and skipped stay as they are, so that at
    the end they and the [Failed] lines together account for every
    record, and the summary of the run names the three counters only. *)
Theorem failures_reported_not_counted :
  forall (d : db) (force : bool) (a : article_data) (rest : list article_data)
         (t : tally),
    (forall d1 e,
       Command._process_article d a force = (d1, Raise e) ->
       Command.handle_loop false force (a :: rest) d t
       = (let '(d', t', out) := Command.handle_loop false force rest d t in
          (d', t', Failed (Command.title60 a) e
                   :: LogFailedToProcess (ad_title a) e :: out)))
    /\ (forall d' t' out,
          Command.handle_loop false force (a :: rest) d t = (d', t', out) ->
          created_count t' + updated_count t' + skipped_count t' + failures out
          = created_count t + updated_count t + skipped_count t
            + List.length (a :: rest))
    /\ (forall w o d0 out0,
          test o = false -> dry_run o = false ->
          Command._ensure_news_list_page d = (d0, out0, Ok tt) ->
          scraped_articles w o <> [] ->
          exists d' out c u s,
            Command.handle w o d = (d', out ++ [ScrapingComplete c u s], Ok tt)
            /\ c + u + s + failures out = List.length (scraped_articles w o)).
Proof.
  intros d force a rest t; split; [|split].
  - intros d1 e E; now apply HandleFacts.loop_step_failed with (d1 := d1).
  - intros d' t' out E; now apply HandleFacts.loop_counts in E.
  - intros w o d0 out0 T D E N.
    destruct (RunFacts.handle_live_run w o d d0 out0 T D E N) as (pre & F & H).
    destruct (Command.handle_loop false (force_update o) (scraped_articles w o) d0
                                  (Tally 0 0 0)) as [[d' t'] out3] eqn:R.
    exists d', (pre ++ out3), (created_count t'), (updated_count t'),
           (skipped_count t').
    split; [rewrite (H _ _ _ eq_refl), app_assoc; reflexivity|].
    apply HandleFacts.loop_counts in R.
    rewrite HandleFacts.failures_app, F; cbn [created_count updated_count skipped_count] in R.
    lia.
Qed.

Lemma failures_reported_not_counted_witness :
  Command._process_article fresh_db undated false
  = (fresh_db, Raise (KeyError "publication_date"))
  /\ (exists d' out,
        Command.handle_loop false false (undated :: sample_articles) fresh_db
                            (Tally 0 0 0)
        = (d', Tally 2 0 0,
           Failed (Command.title60 undated) (KeyError "publication_date")
           :: LogFailedToProcess (ad_title undated) (KeyError "publication_date")
           :: out))
  /\ test sample_options = false
  /\ dry_run sample_options = false
  /\ Command._ensure_news_list_page fresh_db = (fresh_db, [], Ok tt)
  /\ scraped_articles sample_world sample_options <> []
  /\ exists d' out c u s,
       Command.handle sample_world sample_options fresh_db
       = (d', out ++ [ScrapingComplete c u s], Ok tt)
       /\ c + u + s + failures out
          = List.length (scraped_articles sample_world sample_options).
Proof.
  assert (E : Command._process_article fresh_db undated false
              = (fresh_db, Raise (KeyError "publication_date")))
    by (vm_compute; reflexivity).
  assert (N : scraped_articles sample_world sample_options <> [])
    by (vm_compute; discriminate).
  pose proof (failures_reported_not_counted fresh_db false undated sample_articles
                (Tally 0 0 0)) as (Step & _ & Run).
  split; [exact E|].
  split; [rewrite (Step _ _ E); vm_compute; do 2 eexists; reflexivity|].
  split; [reflexivity|]. split; [reflexivity|]. split; [reflexivity|].
  split; [exact N|].
  exact (Run sample_world sample_options fresh_db [] eq_refl eq_refl eq_refl N).
Defined.

(** ** The missing list page *)

(** C5, as stated, fails: the loop catches the error of a missing list
    page as it catches any other, and goes on to the records that follow. *)
Lemma missing_list_page_counterexample :
  ~ (forall (d : db) (a : article_data) (rest : list article_data) (force : bool)
            (t : tally),
       Models.hash_exists d (Command.content_hash_of a) = false ->
       news_list_pages d = [] ->
       Command.handle_loop false force (a :: rest) d t
       = Command.handle_loop false force [a] d t).
Proof.
  intros H.
  specialize (H no_page_db undated sample_articles false (Tally 0 0 0)
                eq_refl eq_refl).
  vm_compute in H; discriminate.
Qed.

(** C5, amended.  When the CREATE branch is entered and there is no list
    page, [_process_article] raises a [CommandError] and writes nothing;
    the loop catches it as it catches every exception, reports the record
    as failed and goes on with the records that follow.  A run fails as
    a whole only when the list page cannot be ensured at its start; once
    that step has succeeded there is a list page. *)
Theorem missing_list_page_caught :
  forall (d : db) (a : article_data) (rest : list article_data) (force : bool)
         (t : tally),
    Models.hash_exists d (Command.content_hash_of a) = false ->
    news_list_pages d = [] ->
    let e := CommandError "No news list page found. Please run the command again." in
    Command._process_article d a force = (d, Raise e)
    /\ Command.handle_loop false force (a :: rest) d t
       = (let '(d', t', out) := Command.handle_loop false force rest d t in
          (d', t', Failed (Command.title60 a) e
                   :: LogFailedToProcess (ad_title a) e :: out))
    /\ (forall w o d0,
          (exists x, snd (Command.handle w o d0) = Raise x)
          <-> dry_run o = false /\ default_site d0 = false)
    /\ (forall d0 d1 out,
          Command._ensure_news_list_page d0 = (d1, out, Ok tt) ->
          news_list_pages d1 <> []).
Proof.
  intros d a rest force t H P e.
  pose proof (ReconcilerFacts.process_no_list_page d a force H P) as E.
  split; [exact E|]. split; [now apply HandleFacts.loop_step_failed with (d1 := d)|].
  split; [apply RunFacts.handle_fatal_iff|].
  intros d0 d1 out X; now apply HandleFacts.ensure_ok in X.
Qed.

Lemma missing_list_page_caught_witness :
  Models.hash_exists no_page_db (Command.content_hash_of undated) = false
  /\ news_list_pages no_page_db = []
  /\ Command._process_article no_page_db undated false
     = (no_page_db,
        Raise (CommandError "No news list page found. Please run the command again."))
  /\ exists out,
       Command.handle_loop false false (undated :: sample_articles) no_page_db
                           (Tally 0 0 0)
       = (no_page_db, Tally 0 0 0, out)
       /\ failures out = 3.
Proof.
  pose proof (missing_list_page_caught no_page_db undated sample_articles false
                (Tally 0 0 0) eq_refl eq_refl) as (E & L & _).
  split; [reflexivity|]. split; [reflexivity|]. split; [exact E|].
  rewrite L; vm_compute; eexists; split; reflexivity.
Defined.

(** ** The test mode *)

Module TestModeFacts.

(** A record without a date is never created, and writes nothing. *)
Lemma process_undated (d : db) (a : article_data) :
  ad_publication_date a = None ->
  exists r, Command._process_article d a false = (d, r) /\ r <> Ok created.
Proof.
  intros D; unfold Command._process_article; rewrite D.
  destruct (Models.objects_get d _) as [x|[]]; cbn [negb];
    try (eexists; split; [reflexivity | discriminate]).
  destruct (news_list_pages d); eexists; split; try reflexivity; discriminate.
Qed.

Lemma test_loop_undated (arts : list article_data) :
  Forall (fun a => ad_publication_date a = None) arts ->
  forall d c, exists out,
    Command.test_loop arts d c = (d, c, out)
    /\ Forall (fun e => forall t, e <> CreatedTest t) out.
Proof.
  induction 1 as [|a arts D _ IH]; intros d c; cbn [Command.test_loop].
  - exists []; split; [reflexivity | constructor].
  - destruct (process_undated d a D) as (r & -> & N).
    destruct r as [[]|e]; try congruence;
      destruct (IH d c) as (out & -> & F); eexists; (split; [reflexivity|]);
      constructor; auto; discriminate.
Qed.

(** On every storage with its site the test mode creates nothing: each
    canned record is skipped or fails. *)
Lemma test_mode_never_creates (d : db) :
  default_site d = true ->
  exists d0 out0 out,
    Command._ensure_news_list_page d = (d0, out0, Ok tt)
    /\ Command._create_test_articles d false
       = (d0, out0 ++ out ++ [TestComplete 0], Ok tt).
Proof.
  intros S; destruct (HandleFacts.ensure_total d S) as (d0 & out0 & E).
  assert (U : Forall (fun a => ad_publication_date a = None) Command.test_articles)
    by (repeat constructor).
  destruct (test_loop_undated Command.test_articles U d0 0) as (out & L & _).
  exists d0, out0, out; split; [exact E|].
  unfold Command._create_test_articles; rewrite E, L; reflexivity.
Qed.

End TestModeFacts.

(** C6.  What the run in test mode does on a storage without articles:
    each of the three canned records fails on its missing date, none is
    created, and the storage is left without articles. *)
Theorem test_mode_creates_nothing :
  forall (w : world) (n : Z) (src : source) (force : bool),
    Command.handle w (MkOptions n src false force true) fresh_db
    = (fresh_db,
       [Starting; Options n src false; TestMode;
        FailedTest (KeyError "publication_date");
        FailedTest (KeyError "publication_date");
        FailedTest (KeyError "publication_date");
        TestComplete 0],
       Ok tt).
Proof. intros w n src force; vm_compute; reflexivity. Qed.

(** ** Two runs of the command *)

Module TwoRunsFacts.

Lemma hacker_news_dated (today : date) (row : NewsScraper.story_row)
    (a : article_data) :
  NewsScraper.hacker_news_entry today row = Some a -> has_date a.
Proof.
  unfold NewsScraper.hacker_news_entry, has_date.
  destruct (NewsScraper.titleline row) as [[title_link|]|]; try discriminate.
  destruct (PyStr.startswith "item?" _); [|destruct (negb _); [discriminate|]];
    intros [= <-]; discriminate.
Qed.

Lemma reddit_dated (today : date) (post : option NewsScraper.post_data)
    (a : article_data) :
  NewsScraper.reddit_entry today post = Ok (Some a) -> has_date a.
Proof.
  unfold NewsScraper.reddit_entry, has_date; destruct post as [p|]; [|discriminate].
  destruct (PyStr.strip _); [discriminate|].
  destruct (NewsScraper.reddit_source_url p); [|discriminate].
  intros [= <-]; discriminate.
Qed.

(** Both extractors stamp every record with the day. *)
Lemma scraped_dated (w : world) (o : options) : Forall has_date (scraped_articles w o).
Proof.
  unfold scraped_articles; apply Forall_app; split.
  - destruct (Command.in_sources _ _); [|constructor].
    apply Forall_forall; intros a I.
    destruct (hacker_news_response w) as [rows|]; cbn [NewsScraper.scrape_hacker_news fst] in I;
      [|destruct I].
    apply ExtractorFacts.in_somes in I; destruct I as (row & _ & E).
    now apply hacker_news_dated in E.
  - destruct (Command.in_sources _ _); [|constructor].
    apply Forall_forall; intros a I.
    destruct (reddit_response w) as [children|];
      cbn [NewsScraper.scrape_reddit_programming fst] in I; [|destruct I].
    apply ExtractorFacts.in_reddit_loop in I; destruct I as (post & _ & E).
    now apply reddit_dated in E.
Qed.

(** The loop writes neither the list pages nor the site. *)
Lemma loop_keeps_pages (force : bool) (arts : list article_data) :
  forall (d : db) (t : tally) (d' : db) (t' : tally) (out : list event),
  Command.handle_loop false force arts d t = (d', t', out) ->
  news_list_pages d' = news_list_pages d /\ default_site d' = default_site d.
Proof.
  induction arts as [|a arts IH]; intros d t d' t' out; cbn [Command.handle_loop].
  - intros [= <- _ _]; auto.
  - destruct (Command._process_article d a force) as [d1 r] eqn:Pa.
    apply ReconcilerFacts.process_keeps_pages in Pa; destruct Pa as [Pp Ps].
    destruct r as [[]|e];
      match goal with
      | |- context [Command.handle_loop false force arts d1 ?t1] =>
          destruct (Command.handle_loop false force arts d1 t1)
            as [[y ty] oy] eqn:Rl
      end; intros [= <- _ _]; apply IH in Rl; destruct Rl; split; congruence.
Qed.

(** Once there is a list page under the root, the container step finds it. *)
Lemma ensure_again (d d0 : db) (out0 : list event) :
  Command._ensure_news_list_page d = (d0, out0, Ok tt) ->
  forall d1, news_list_pages d1 = news_list_pages d0 ->
             default_site d1 = default_site d0 ->
             Command._ensure_news_list_page d1 = (d1, [], Ok tt).
Proof.
  unfold Command._ensure_news_list_page.
  destruct (default_site d) eqn:S; [|discriminate].
  destruct (existsb lp_child_of_root (news_list_pages d)) eqn:X;
    intros [= <- _] d1 P1 S1; cbn [news_list_pages default_site] in *;
    rewrite S1, P1.
  - rewrite ?S, X; reflexivity.
  - rewrite ?S, existsb_app; cbn [existsb lp_child_of_root].
    now rewrite orb_true_r.
Qed.

End TwoRunsFacts.

(** C1. With [force_update] false a record whose [content_hash] is stored
    is skipped and nothing is written.  Hence two runs of the command on a
    storage with its site: the first creates or skips each of the [N]
    extracted records, one row per record created (it creates all [N] of
    them and skips none when their hashes are new and pairwise distinct);
    the second, over records with the same (title, summary, source_url)
    triples, creates nothing, skips all [N] and leaves the storage as the
    first run left it. *)
Theorem reconcile_idempotent :
  forall (w w' : world) (o : options) (d : db),
    test o = false -> dry_run o = false -> force_update o = false ->
    default_site d = true -> unique_hashes d ->
    scraped_articles w o <> [] ->
    List.map triple (scraped_articles w' o) = List.map triple (scraped_articles w o) ->
    let n := List.length (scraped_articles w o) in
    (forall s a, unique_hashes s ->
                 Models.hash_exists s (Command.content_hash_of a) = true ->
                 Command._process_article s a false = (s, Ok skipped))
    /\ exists d1 out1 out2 c k,
         Command.handle w o d = (d1, out1 ++ [ScrapingComplete c 0 k], Ok tt)
         /\ c + k = n
         /\ List.length (news_articles d1) = List.length (news_articles d) + c
         /\ (NoDup (List.map Command.content_hash_of (scraped_articles w o)) ->
             (forall a, In a (scraped_articles w o) ->
                Models.hash_exists d (Command.content_hash_of a) = false) ->
             c = n /\ k = 0)
         /\ Command.handle w' o d1 = (d1, out2 ++ [ScrapingComplete 0 0 n], Ok tt).
Proof.
  intros w w' o d T D F S U N Tr n.
  split; [intros s a; apply ReconcilerFacts.process_skipped|].
  destruct (HandleFacts.ensure_total d S) as (d0 & out0 & E).
  pose proof (HandleFacts.ensure_ok _ _ _ E) as (P0 & A0 & _ & _).
  assert (U0 : unique_hashes d0) by (unfold unique_hashes; now rewrite A0).
  destruct (two_runs_of_the_loop d0 (scraped_articles w o) (scraped_articles w' o)
              U0 P0 (TwoRunsFacts.scraped_dated w o) Tr)
    as (_ & d1 & t1 & o1 & o2 & R1 & C1 & V1 & L1 & G1 & R2).
  destruct (RunFacts.handle_live_run w o d d0 out0 T D E N) as (pre1 & _ & H1).
  rewrite F in H1; specialize (H1 _ _ _ R1).
  pose proof (TwoRunsFacts.loop_keeps_pages _ _ _ _ _ _ _ R1) as K.
  destruct K as [K1 K2].
  pose proof (TwoRunsFacts.ensure_again _ _ _ E d1 K1 K2) as E1.
  assert (N' : scraped_articles w' o <> []).
  { intros Z; rewrite Z in Tr; destruct (scraped_articles w o); [now elim N | discriminate]. }
  destruct (RunFacts.handle_live_run w' o d1 d1 [] T D E1 N') as (pre2 & _ & H2).
  rewrite F in H2; specialize (H2 _ _ _ R2).
  exists d1, (pre1 ++ o1), (pre2 ++ o2), (created_count t1), (skipped_count t1).
  rewrite V1 in H1; rewrite <- !app_assoc.
  split; [exact H1|]. split; [exact C1|]. split; [rewrite L1, A0; reflexivity|].
  split; [|exact H2].
  intros ND Fr.
  assert (Fr0 : forall a, In a (scraped_articles w o) ->
                          Models.hash_exists d0 (Command.content_hash_of a) = false).
  { intros a I; specialize (Fr a I); unfold Models.hash_exists in *.
    now rewrite A0. }
  rewrite (G1 ND Fr0); cbn [created_count skipped_count]; auto.
Qed.

Lemma reconcile_idempotent_witness :
  test sample_options = false
  /\ dry_run sample_options = false
  /\ force_update sample_options = false
  /\ default_site no_page_db = true
  /\ unique_hashes no_page_db
  /\ scraped_articles sample_world sample_options <> []
  /\ List.map triple (scraped_articles next_day_world sample_options)
     = List.map triple (scraped_articles sample_world sample_options)
  /\ exists d1 out1 out2 c k,
       Command.handle sample_world sample_options no_page_db
       = (d1, out1 ++ [ScrapingComplete c 0 k], Ok tt)
       /\ c + k = List.length (scraped_articles sample_world sample_options)
       /\ Command.handle next_day_world sample_options d1
          = (d1, out2 ++ [ScrapingComplete 0 0
                            (List.length (scraped_articles sample_world sample_options))],
             Ok tt).
Proof.
  assert (U : unique_hashes no_page_db) by constructor.
  assert (N : scraped_articles sample_world sample_options <> [])
    by (vm_compute; discriminate).
  assert (Tr : List.map triple (scraped_articles next_day_world sample_options)
               = List.map triple (scraped_articles sample_world sample_options))
    by (vm_compute; reflexivity).
  repeat (split; [assumption || reflexivity|]).
  destruct (reconcile_idempotent sample_world next_day_world sample_options no_page_db
              eq_refl eq_refl eq_refl eq_refl U N Tr)
    as (_ & d1 & out1 & out2 & c & k & H1 & C & _ & _ & H2).
  exists d1, out1, out2, c, k; auto.
Defined.

(** * Further properties of the code *)

(** ** The decisions of the reconciler *)

Module OutcomeFacts.

Lemma objects_get_hash (d : db) (h : string) (x : NewsArticle) :
  Models.objects_get d h = Ok x -> In x (news_articles d) /\ content_hash x = h.
Proof.
  unfold Models.objects_get.
  destruct (List.filter _ (news_articles d)) as [|y [|z l]] eqn:F; try discriminate.
  intros [= <-].
  assert (I : In y (List.filter (fun r => String.eqb (content_hash r) h)
                                (news_articles d))) by (rewrite F; now left).
  apply filter_In in I; destruct I as [I E]; split; [exact I|].
  now apply String.eqb_eq.
Qed.

(** Under the uniqueness of the hashes, rows with the same hash are the
    same row. *)
Lemma same_hash_same_row (rows : list NewsArticle) (x y : NewsArticle) :
  NoDup (List.map content_hash rows) -> In x rows -> In y rows ->
  content_hash x = content_hash y -> x = y.
Proof.
  induction rows as [|r rows IH]; cbn [List.map]; intros ND Ix Iy E; [destruct Ix|].
  inversion ND as [|? ? NI ND']; subst.
  destruct Ix as [<-|Ix], Iy as [<-|Iy]; auto.
  - elim NI; rewrite E; now apply in_map.
  - elim NI; rewrite <- E; now apply in_map.
Qed.

(** Writing a row back under its hash changes no projection on which the
    new row agrees with the old one. *)
Lemma map_update_agree {B : Type} (f : NewsArticle -> B) (rows : list NewsArticle)
    (x x' : NewsArticle) :
  NoDup (List.map content_hash rows) -> In x rows -> f x' = f x ->
  List.map f (List.map (fun r => if String.eqb (content_hash r) (content_hash x)
                                 then x' else r) rows)
  = List.map f rows.
Proof.
  intros ND Ix E; rewrite map_map; apply map_ext_in; intros r Ir.
  destruct (String.eqb_spec (content_hash r) (content_hash x)) as [H|H];
    [|reflexivity].
  now rewrite (same_hash_same_row rows r x ND Ir Ix H).
Qed.

End OutcomeFacts.

(** The decision table of [_process_article] on a storage whose
    hashes are unique.  Stored and not forced: skipped, nothing written.
    Stored and forced: the row is rewritten when the record has a date,
    else a [KeyError] and nothing written.  Not stored: a [CommandError]
    without a list page; with one, a [KeyError] when the record has no
    date, else one row is appended. *)
Lemma decision_table :
  forall (d : db) (a : article_data) (force : bool),
    unique_hashes d ->
    let h := Command.content_hash_of a in
    let run := Command._process_article d a force in
    match Models.hash_exists d h, force, ad_publication_date a, news_list_pages d with
    | true, false, _, _ => run = (d, Ok skipped)
    | true, true, Some day, _ =>
        exists x, Models.objects_get d h = Ok x
                  /\ run = (Models.update_row d h (updated_row x a day), Ok updated)
    | true, true, None, _ => run = (d, Raise (KeyError "publication_date"))
    | false, _, _, [] =>
        run = (d, Raise (CommandError
                 "No news list page found. Please run the command again."))
    | false, _, None, _ :: _ => run = (d, Raise (KeyError "publication_date"))
    | false, _, Some day, _ :: _ =>
        run = (set_articles d (news_articles d ++ [new_row d a day]), Ok created)
    end.
Proof.
  intros d a force U h run.
  destruct (Models.hash_exists d h) eqn:H.
  - destruct (ModelsFacts.objects_get_present d h U H) as (x & G & _ & Hx).
    destruct force.
    + destruct (ad_publication_date a) as [day|] eqn:D.
      * exists x; split; [exact G|].
        apply (SaveFacts.process_updated d a x day G Hx D).
      * unfold run, Command._process_article; fold h; rewrite G, D; reflexivity.
    + apply (ReconcilerFacts.process_skipped d a U H).
  - destruct (news_list_pages d) as [|p ps] eqn:P.
    + destruct force, (ad_publication_date a);
        apply (ReconcilerFacts.process_no_list_page d a _ H P).
    + destruct (ad_publication_date a) as [day|] eqn:D.
      * assert (R : run = (set_articles d (news_articles d ++ [new_row d a day]),
                           Ok created)).
        { apply (ReconcilerFacts.process_created d a force day H); [|exact D].
          rewrite P; discriminate. }
        destruct force; exact R.
      * assert (R : run = (d, Raise (KeyError "publication_date"))).
        { unfold run, Command._process_article; fold h.
          rewrite (ModelsFacts.objects_get_absent d h H), P, D; reflexivity. }
        destruct force; exact R.
Qed.

(** X1. The decision table of [_process_article] on a storage whose
    hashes are unique.  Stored and not forced: skipped, nothing written.
    Stored and forced: the row is rewritten when the record has a date,
    else a [KeyError] and nothing written.  Not stored: a [CommandError]
    without a list page; with one, a [KeyError] when the record has no
    date, else one row is appended. *)
Theorem reconciler_decisions :
  forall (d : db) (a : article_data) (force : bool),
    unique_hashes d ->
    let h := Command.content_hash_of a in
    let run := Command._process_article d a force in
    match Models.hash_exists d h, force, ad_publication_date a, news_list_pages d with
    | true, false, _, _ => run = (d, Ok skipped)
    | true, true, Some day, _ =>
        exists x, Models.objects_get d h = Ok x
                  /\ run = (Models.update_row d h (updated_row x a day), Ok updated)
    | true, true, None, _ => run = (d, Raise (KeyError "publication_date"))
    | false, _, _, [] =>
        run = (d, Raise (CommandError
                 "No news list page found. Please run the command again."))
    | false, _, None, _ :: _ => run = (d, Raise (KeyError "publication_date"))
    | false, _, Some day, _ :: _ =>
        run = (set_articles d (news_articles d ++ [new_row d a day]), Ok created)
    end.
Proof. exact decision_table. Qed.

Lemma reconciler_decisions_witness :
  unique_hashes stored_db
  /\ Models.hash_exists stored_db (Command.content_hash_of retitled) = true
  /\ Command._process_article stored_db retitled false = (stored_db, Ok skipped)
  /\ Models.hash_exists stored_db (Command.content_hash_of undated) = false
  /\ Command._process_article stored_db undated true
     = (stored_db, Raise (KeyError "publication_date")).
Proof.
  assert (U : unique_hashes stored_db) by (vm_compute; repeat constructor; simpl; tauto).
  assert (H1 : Models.hash_exists stored_db (Command.content_hash_of retitled) = true)
    by (vm_compute; reflexivity).
  assert (H2 : Models.hash_exists stored_db (Command.content_hash_of undated) = false)
    by (vm_compute; reflexivity).
  split; [exact U|]. split; [exact H1|].
  pose proof (reconciler_decisions stored_db retitled false U) as R1.
  cbv zeta in R1; rewrite H1 in R1.
  split; [exact R1|]. split; [exact H2|].
  pose proof (reconciler_decisions stored_db undated true U) as R2.
  cbv zeta in R2; rewrite H2 in R2.
  exact R2.
Defined.

(** ** What [_process_article] keeps *)

Module InvariantFacts.

Lemma unique_slugs_appended (d : db) (r : NewsArticle) :
  unique_slugs d -> Models.slug_exists d (slug r) = false ->
  unique_slugs (set_articles d (news_articles d ++ [r])).
Proof.
  unfold unique_slugs; cbn [set_articles news_articles]; intros U H.
  rewrite map_app; apply NoDup_app; auto.
  - repeat constructor; simpl; tauto.
  - intros s I [<-|[]]. apply ModelsFacts.slug_exists_In in I; congruence.
Qed.

(** One call: the hashes and the slugs stay unique, and the keys of the
    stored rows stay what they are, one key being added exactly when the
    record is created. *)
Lemma process_keeps (d d' : db) (a : article_data) (force : bool)
    (r : result outcome) :
  unique_hashes d -> unique_slugs d ->
  Command._process_article d a force = (d', r) ->
  unique_hashes d' /\ unique_slugs d'
  /\ List.map row_key (news_articles d')
     = List.map row_key (news_articles d)
       ++ match r with
          | Ok created => [(Command.content_hash_of a,
                            Command._create_slug d (ad_title a), ad_source_url a)]
          | _ => []
          end.
Proof.
  intros U V E; pose proof (decision_table d a force U) as T; cbv zeta in T.
  assert (Same : forall x, (d', r) = (d, x) -> x <> Ok created ->
            unique_hashes d' /\ unique_slugs d'
            /\ List.map row_key (news_articles d')
               = List.map row_key (news_articles d)
                 ++ match r with
                    | Ok created => [(Command.content_hash_of a,
                                      Command._create_slug d (ad_title a),
                                      ad_source_url a)]
                    | _ => []
                    end).
  { intros x [= -> ->] N; repeat split; auto.
    destruct x as [[]|e]; try congruence; now rewrite app_nil_r. }
  rewrite E in T.
  destruct (Models.hash_exists d (Command.content_hash_of a)) eqn:H, force,
           (ad_publication_date a) as [day|], (news_list_pages d) as [|p ps];
    try (apply (Same _ T); discriminate);
    try (destruct T as (x & G & [= -> ->]);
         apply OutcomeFacts.objects_get_hash in G; destruct G as [Ix Hx];
         unfold unique_hashes, unique_slugs, Models.update_row;
         cbn [set_articles news_articles]; rewrite <- Hx;
         rewrite !OutcomeFacts.map_update_agree by (auto; reflexivity);
         rewrite app_nil_r; auto);
    injection T as -> ->;
    (split; [apply LoopFacts.unique_appended; auto|]);
    (split; [apply unique_slugs_appended; auto;
             apply SlugifyFacts.create_slug_free|]);
    cbn [set_articles news_articles]; now rewrite map_app.
Qed.

End InvariantFacts.

(** X2. One call of [_process_article] on a storage with unique hashes and
    unique slugs leaves both unique.  It removes no row and changes the
    hash, the slug and the URL of no stored row; it adds one row, with the
    hash, a fresh slug and the URL of the record, exactly when its outcome
    is [created]. *)
Theorem process_article_keeps_storage :
  forall (d d' : db) (a : article_data) (force : bool) (r : result outcome),
    unique_hashes d -> unique_slugs d ->
    Command._process_article d a force = (d', r) ->
    unique_hashes d' /\ unique_slugs d'
    /\ List.map row_key (news_articles d')
       = List.map row_key (news_articles d)
         ++ match r with
            | Ok created => [(Command.content_hash_of a,
                              Command._create_slug d (ad_title a), ad_source_url a)]
            | _ => []
            end.
Proof. exact InvariantFacts.process_keeps. Qed.

Lemma process_article_keeps_storage_witness :
  unique_hashes stored_db /\ unique_slugs stored_db
  /\ exists d',
       Command._process_article stored_db retitled true = (d', Ok updated)
       /\ unique_hashes d' /\ unique_slugs d'
       /\ List.map row_key (news_articles d')
          = List.map row_key (news_articles stored_db).
Proof.
  assert (U : unique_hashes stored_db) by (vm_compute; repeat constructor; simpl; tauto).
  assert (V : unique_slugs stored_db) by (vm_compute; repeat constructor; simpl; tauto).
  split; [exact U|]. split; [exact V|].
  destruct (Command._process_article stored_db retitled true) as [d' r] eqn:E.
  assert (R : r = Ok updated)
    by (apply (f_equal snd) in E; cbn [snd] in E; rewrite <- E; vm_compute;
        reflexivity).
  subst r; exists d'; split; [reflexivity|].
  pose proof (process_article_keeps_storage stored_db d' retitled true (Ok updated)
                U V E) as (U' & V' & K).
  rewrite app_nil_r in K; auto.
Defined.

(** ** What a whole run keeps *)

Module RunInvariantFacts.

Lemma ensure_articles (d d0 : db) (out : list event) (r : result unit) :
  Command._ensure_news_list_page d = (d0, out, r) ->
  news_articles d0 = news_articles d.
Proof.
  unfold Command._ensure_news_list_page.
  destruct (default_site d); [destruct (existsb _ _)|]; intros [= <- _ _]; reflexivity.
Qed.

(** The loop in a dry run writes nothing and counts nothing. *)
Lemma dry_loop (force : bool) (arts : list article_data) (d : db) (t : tally) :
  Command.handle_loop true force arts d t
  = (d, t, List.map (fun a => WouldCreate (Command.title60 a)) arts).
Proof.
  induction arts as [|a arts IH]; cbn [Command.handle_loop List.map];
    [reflexivity | now rewrite IH].
Qed.

Lemma loop_keeps (force : bool) (arts : list article_data) :
  forall (d d' : db) (t t' : tally) (out : list event),
  unique_hashes d -> unique_slugs d ->
  Command.handle_loop false force arts d t = (d', t', out) ->
  unique_hashes d' /\ unique_slugs d'
  /\ exists added,
       List.map row_key (news_articles d') = List.map row_key (news_articles d) ++ added.
Proof.
  induction arts as [|a arts IH]; intros d d' t t' out U V; cbn [Command.handle_loop].
  - intros [= <- _ _]; repeat split; auto; exists []; now rewrite app_nil_r.
  - destruct (Command._process_article d a force) as [d1 r] eqn:P.
    destruct (InvariantFacts.process_keeps d d1 a force r U V P) as (U1 & V1 & K1).
    destruct r as [[]|e];
      match goal with
      | |- context [Command.handle_loop false force arts d1 ?t1] =>
          destruct (Command.handle_loop false force arts d1 t1)
            as [[d2 t2] out2] eqn:L
      end; intros [= <- _ _];
      destruct (IH _ _ _ _ _ U1 V1 L) as (U2 & V2 & added & K2);
      repeat split; auto; rewrite K2, K1, <- app_assoc; eauto.
Qed.

Lemma test_loop_keeps (d d' : db) (c c' : nat) (out : list event) :
  Command.test_loop Command.test_articles d c = (d', c', out) -> d' = d.
Proof.
  assert (U : Forall (fun a => ad_publication_date a = None) Command.test_articles)
    by (repeat constructor).
  destruct (TestModeFacts.test_loop_undated Command.test_articles U d c) as (o & -> & _).
  now intros [= <- _ _].
Qed.

(** A whole run, in any mode. *)
Lemma handle_keeps (w : world) (o : options) (d : db) :
  unique_hashes d -> unique_slugs d ->
  unique_hashes (fst (fst (Command.handle w o d)))
  /\ unique_slugs (fst (fst (Command.handle w o d)))
  /\ exists added,
       List.map row_key (run_articles w o d)
       = List.map row_key (news_articles d) ++ added.
Proof.
  intros U V; unfold run_articles.
  assert (Same : forall d0, news_articles d0 = news_articles d ->
            unique_hashes d0 /\ unique_slugs d0
            /\ exists added,
                 List.map row_key (news_articles d0)
                 = List.map row_key (news_articles d) ++ added).
  { intros d0 A; unfold unique_hashes, unique_slugs; rewrite A.
    repeat split; auto; exists []; now rewrite app_nil_r. }
  destruct (test o) eqn:T.
  - unfold Command.handle, Command._create_test_articles; rewrite T.
    destruct (dry_run o); [apply Same; reflexivity|].
    destruct (Command._ensure_news_list_page d) as [[d0 out0] r] eqn:E.
    apply ensure_articles in E.
    destruct r as [u|e]; [|apply Same; exact E].
    destruct (Command.test_loop Command.test_articles d0 0) as [[d1 c1] out1] eqn:L.
    apply test_loop_keeps in L; subst d1; apply Same; exact E.
  - destruct (if dry_run o then (d, [], Ok tt) else Command._ensure_news_list_page d)
      as [[d0 out0] r] eqn:E.
    assert (A : news_articles d0 = news_articles d).
    { destruct (dry_run o); [now injection E as <- _ _ | now apply ensure_articles in E]. }
    rewrite (RunFacts.handle_after_ensure w o d d0 out0 r T E).
    destruct r as [u|e]; [|apply Same; exact A].
    cbv zeta; destruct (scraped_articles w o) as [|a arts] eqn:S; [apply Same; exact A|].
    destruct (dry_run o).
    + rewrite dry_loop; apply Same; exact A.
    + destruct (Command.handle_loop false (force_update o) (a :: arts) d0 (Tally 0 0 0))
        as [[d1 t1] out1] eqn:L; cbn [fst].
      destruct (Same d0 A) as (U0 & V0 & _).
      destruct (loop_keeps _ _ _ _ _ _ _ U0 V0 L) as (U1 & V1 & added & K).
      repeat split; auto; exists added.
      rewrite K; unfold row_key; now rewrite A.
Qed.

(** A dry run: the storage is returned as it is, and nothing is raised. *)
Lemma handle_dry (w : world) (o : options) (d : db) :
  dry_run o = true ->
  exists out,
    Command.handle w o d = (d, out, Ok tt)
    /\ (test o = false -> scraped_articles w o <> [] ->
        exists pre,
          out = pre ++ List.map (fun a => WouldCreate (Command.title60 a))
                                (scraped_articles w o)
                    ++ [DryRunComplete (List.length (scraped_articles w o))]).
Proof.
  intros D; destruct (test o) eqn:T.
  - unfold Command.handle, Command._create_test_articles; rewrite T, D.
    eexists; split; [reflexivity | discriminate].
  - rewrite (RunFacts.handle_after_ensure w o d d [] (Ok tt) T) by (now rewrite D).
    cbv zeta; rewrite D, dry_loop; cbn [negb].
    destruct (scraped_articles w o) as [|a arts] eqn:S.
    + eexists; split; [reflexivity | intros _ N; now elim N].
    + eexists; split; [reflexivity | intros _ _; eexists; reflexivity].
Qed.

End RunInvariantFacts.

(** X3. A whole run of the command, in any mode and whatever it reads,
    on a storage with unique hashes and unique slugs leaves both unique,
    removes no article and changes the hash, the slug and the URL of no
    stored article: the keys of the stored articles are a prefix of the
    keys afterwards. *)
Theorem run_keeps_storage :
  forall (w : world) (o : options) (d : db),
    unique_hashes d -> unique_slugs d ->
    unique_hashes (fst (fst (Command.handle w o d)))
    /\ unique_slugs (fst (fst (Command.handle w o d)))
    /\ exists added,
         List.map row_key (run_articles w o d)
         = List.map row_key (news_articles d) ++ added.
Proof. exact RunInvariantFacts.handle_keeps. Qed.

Lemma run_keeps_storage_witness :
  unique_hashes stored_db /\ unique_slugs stored_db
  /\ unique_hashes (fst (fst (Command.handle sample_world sample_options stored_db)))
  /\ exists added,
       List.map row_key (run_articles sample_world sample_options stored_db)
       = List.map row_key (news_articles stored_db) ++ added.
Proof.
  assert (U : unique_hashes stored_db) by (vm_compute; repeat constructor; simpl; tauto).
  assert (V : unique_slugs stored_db) by (vm_compute; repeat constructor; simpl; tauto).
  pose proof (run_keeps_storage sample_world sample_options stored_db U V)
    as (U' & _ & K).
  auto.
Defined.

(** X4. A dry run writes nothing and raises nothing, whatever the other
    options and whatever the storage, which need not even have a site.
    Outside the test mode it prints one would-create line per extracted
    record, in order, and then their number. *)
Theorem dry_run_writes_nothing :
  forall (w : world) (o : options) (d : db),
    dry_run o = true ->
    exists out,
      Command.handle w o d = (d, out, Ok tt)
      /\ (test o = false -> scraped_articles w o <> [] ->
          exists pre,
            out = pre ++ List.map (fun a => WouldCreate (Command.title60 a))
                                  (scraped_articles w o)
                      ++ [DryRunComplete (List.length (scraped_articles w o))]).
Proof. exact RunInvariantFacts.handle_dry. Qed.

Lemma dry_run_writes_nothing_witness :
  dry_run (MkOptions 5%Z all true true false) = true
  /\ exists out,
       Command.handle sample_world (MkOptions 5%Z all true true false)
                      (Db false [] []) = (Db false [] [], out, Ok tt).
Proof.
  split; [reflexivity|].
  destruct (dry_run_writes_nothing sample_world (MkOptions 5%Z all true true false)
              (Db false [] []) eq_refl) as (out & H & _).
  exists out; exact H.
Defined.

(** ** Forced updates and lookups *)

Module UpdateFacts.

Lemma hash_exists_same (d d' : db) (h : string) :
  List.map row_key (news_articles d') = List.map row_key (news_articles d) ->
  Models.hash_exists d' h = Models.hash_exists d h.
Proof.
  intros K.
  assert (E : List.map content_hash (news_articles d')
              = List.map content_hash (news_articles d)).
  { apply (f_equal (List.map (fun k => fst (fst k)))) in K.
    rewrite !map_map in K; exact K. }
  destruct (Models.hash_exists d h) eqn:H.
  - apply ModelsFacts.hash_exists_In; rewrite E; now apply ModelsFacts.hash_exists_In.
  - destruct (Models.hash_exists d' h) eqn:H'; [|reflexivity].
    apply ModelsFacts.hash_exists_In in H'; rewrite E in H'.
    apply ModelsFacts.hash_exists_In in H'; congruence.
Qed.

(** The forced update of a stored, dated record. *)
Lemma forced_step (d : db) (a : article_data) :
  unique_hashes d -> has_date a ->
  Models.hash_exists d (Command.content_hash_of a) = true ->
  exists d1,
    Command._process_article d a true = (d1, Ok updated)
    /\ unique_hashes d1
    /\ List.map row_key (news_articles d1) = List.map row_key (news_articles d).
Proof.
  intros U D H; pose proof (decision_table d a true U) as T; cbv zeta in T.
  rewrite H in T; destruct (ad_publication_date a) as [day|] eqn:Dy; [|now elim D].
  destruct T as (x & G & T); eexists; split; [exact T|].
  apply OutcomeFacts.objects_get_hash in G; destruct G as [Ix Hx].
  unfold unique_hashes, Models.update_row; cbn [set_articles news_articles].
  rewrite <- Hx, !OutcomeFacts.map_update_agree by (auto; reflexivity); auto.
Qed.

Lemma loop_all_updated (arts : list article_data) :
  forall (d : db) (t : tally),
  unique_hashes d -> Forall has_date arts ->
  (forall a, In a arts -> Models.hash_exists d (Command.content_hash_of a) = true) ->
  exists d' out,
    Command.handle_loop false true arts d t
    = (d', Tally (created_count t) (updated_count t + List.length arts)
                 (skipped_count t), out)
    /\ failures out = 0
    /\ List.map row_key (news_articles d') = List.map row_key (news_articles d).
Proof.
  induction arts as [|a arts IH]; intros d t U D H; cbn [Command.handle_loop].
  - exists d, []; destruct t; cbn [created_count updated_count skipped_count List.length].
    rewrite Nat.add_0_r; auto.
  - inversion D as [|? ? Da Drest]; subst.
    destruct (forced_step d a U Da (H a (or_introl eq_refl))) as (d1 & -> & U1 & K1).
    destruct (IH d1 (Tally (created_count t) (updated_count t + 1) (skipped_count t))
                 U1 Drest) as (d' & out & -> & F & K).
    { intros b I; rewrite (hash_exists_same d d1 _ K1); apply H; now right. }
    exists d', (Updated (Command.title60 a) :: out).
    cbn [created_count updated_count skipped_count List.length app failures].
    split; [do 3 f_equal; lia|]. split; [exact F | now rewrite K, K1].
Qed.

(** The row stored for a record is found under the hash of the record. *)
Lemma created_found (d d' : db) (a : article_data) (force : bool) :
  unique_hashes d ->
  Command._process_article d a force = (d', Ok created) ->
  exists day,
    ad_publication_date a = Some day
    /\ Models.objects_get d' (Command.content_hash_of a) = Ok (new_row d a day)
    /\ Command._process_article d' a false = (d', Ok skipped).
Proof.
  intros U E; pose proof (decision_table d a force U) as T; cbv zeta in T.
  rewrite E in T.
  destruct (Models.hash_exists d (Command.content_hash_of a)) eqn:H, force,
           (ad_publication_date a) as [day|], (news_list_pages d) as [|p ps];
    try discriminate; try (destruct T as (x & _ & T); discriminate);
    injection T as ->; exists day; (split; [reflexivity|]);
    assert (U' : unique_hashes (set_articles d (news_articles d ++ [new_row d a day])))
      by (apply LoopFacts.unique_appended; auto);
    assert (H' : Models.hash_exists
                   (set_articles d (news_articles d ++ [new_row d a day]))
                   (Command.content_hash_of a) = true)
      by (rewrite LoopFacts.hash_exists_appended;
          change (content_hash (new_row d a day)) with (Command.content_hash_of a);
          now rewrite String.eqb_refl, orb_true_r);
    (split; [|now apply ReconcilerFacts.process_skipped]);
    unfold Models.objects_get; cbn [set_articles news_articles];
    rewrite filter_app, ModelsFacts.filter_absent
      by (rewrite <- ModelsFacts.hash_exists_In; congruence);
    cbn [List.filter app];
    change (content_hash (new_row d a day)) with (Command.content_hash_of a);
    now rewrite String.eqb_refl.
Qed.

(** The row rewritten by a forced update is found under the same hash,
    with the four fields of the record. *)
Lemma updated_found (d d' : db) (a : article_data) (force : bool) :
  unique_hashes d ->
  Command._process_article d a force = (d', Ok updated) ->
  exists x day,
    ad_publication_date a = Some day
    /\ Models.objects_get d (Command.content_hash_of a) = Ok x
    /\ d' = Models.update_row d (Command.content_hash_of a) (updated_row x a day)
    /\ Models.objects_get d' (Command.content_hash_of a) = Ok (updated_row x a day).
Proof.
  intros U E; pose proof (decision_table d a force U) as T; cbv zeta in T.
  rewrite E in T.
  destruct (Models.hash_exists d (Command.content_hash_of a)) eqn:H, force,
           (ad_publication_date a) as [day|], (news_list_pages d) as [|p ps];
    try discriminate;
    destruct T as (x & G & [= ->]); exists x, day;
    (split; [reflexivity|]); (split; [exact G|]); (split; [reflexivity|]);
    pose proof (OutcomeFacts.objects_get_hash _ _ _ G) as [Ix Hx];
    set (d1 := Models.update_row d (Command.content_hash_of a) (updated_row x a day));
    assert (K : List.map content_hash (news_articles d1)
                = List.map content_hash (news_articles d))
      by (unfold d1, Models.update_row; cbn [set_articles news_articles];
          rewrite <- Hx; apply OutcomeFacts.map_update_agree; auto);
    assert (U1 : unique_hashes d1) by (unfold unique_hashes; now rewrite K);
    assert (H1 : Models.hash_exists d1 (Command.content_hash_of a) = true)
      by (apply ModelsFacts.hash_exists_In; rewrite K;
          now apply ModelsFacts.hash_exists_In);
    destruct (ModelsFacts.objects_get_present d1 _ U1 H1) as (y & Gy & Iy & Hy);
    rewrite Gy; f_equal;
    (apply (OutcomeFacts.same_hash_same_row (news_articles d1) y
              (updated_row x a day) U1 Iy);
     [ unfold d1, Models.update_row; cbn [set_articles news_articles];
       apply in_map_iff; exists x; split; [|exact Ix];
       now rewrite Hx, String.eqb_refl
     | rewrite Hy; cbn [updated_row set_live set_scraped_fields content_hash];
       now rewrite Hx ]).
Qed.

End UpdateFacts.

Module RerunFacts.

Lemma forced_rerun (w : world) (o : options) (d : db) :
  test o = false -> dry_run o = false -> force_update o = true ->
  default_site d = true -> unique_hashes d ->
  scraped_articles w o <> [] ->
  (forall a, In a (scraped_articles w o) ->
             Models.hash_exists d (Command.content_hash_of a) = true) ->
  exists d' out,
    Command.handle w o d
    = (d', out ++ [ScrapingComplete 0 (List.length (scraped_articles w o)) 0], Ok tt)
    /\ failures out = 0
    /\ List.map row_key (news_articles d') = List.map row_key (news_articles d).
Proof.
  intros T D F S U N H.
  destruct (HandleFacts.ensure_total d S) as (d0 & out0 & E).
  pose proof (HandleFacts.ensure_ok _ _ _ E) as (_ & A0 & _ & _).
  assert (U0 : unique_hashes d0) by (unfold unique_hashes; now rewrite A0).
  assert (H0 : forall a, In a (scraped_articles w o) ->
                         Models.hash_exists d0 (Command.content_hash_of a) = true).
  { intros a I; specialize (H a I); unfold Models.hash_exists in *; now rewrite A0. }
  destruct (UpdateFacts.loop_all_updated (scraped_articles w o) d0 (Tally 0 0 0) U0
              (TwoRunsFacts.scraped_dated w o) H0) as (d' & out3 & L & F3 & K).
  destruct (RunFacts.handle_live_run w o d d0 out0 T D E N) as (pre & Fp & R).
  rewrite F in R; specialize (R _ _ _ L).
  cbn [created_count updated_count skipped_count] in R.
  exists d', (pre ++ out3); split; [now rewrite <- app_assoc|].
  split; [now rewrite HandleFacts.failures_app, Fp, F3|].
  rewrite K; unfold row_key; now rewrite A0.
Qed.

Lemma others_untouched (rows : list NewsArticle) (h : string) (x' r : NewsArticle) :
  content_hash x' = h -> content_hash r <> h ->
  In r (List.map (fun y => if String.eqb (content_hash y) h then x' else y) rows)
  <-> In r rows.
Proof.
  intros Hx N; rewrite in_map_iff; split.
  - intros (y & E & I).
    destruct (String.eqb_spec (content_hash y) h); subst; [now elim N | exact I].
  - intros I; exists r; split; [|exact I].
    destruct (String.eqb_spec (content_hash r) h); [now elim N | reflexivity].
Qed.

End RerunFacts.

(** X5. A run that forces the update, over records all of whose hashes are
    stored, reports every one of them as updated, none as created or
    skipped, and no failure; it adds no row and leaves the hash, the slug
    and the URL of every row as they were. *)
Theorem forced_rerun_updates_all :
  forall (w : world) (o : options) (d : db),
    test o = false -> dry_run o = false -> force_update o = true ->
    default_site d = true -> unique_hashes d ->
    scraped_articles w o <> [] ->
    (forall a, In a (scraped_articles w o) ->
               Models.hash_exists d (Command.content_hash_of a) = true) ->
    exists d' out,
      Command.handle w o d
      = (d', out ++ [ScrapingComplete 0 (List.length (scraped_articles w o)) 0], Ok tt)
      /\ failures out = 0
      /\ List.map row_key (news_articles d') = List.map row_key (news_articles d).
Proof. exact RerunFacts.forced_rerun. Qed.

Lemma forced_rerun_updates_all_witness :
  default_site after_first_run = true
  /\ unique_hashes after_first_run
  /\ scraped_articles next_day_world forcing_options <> []
  /\ (forall a, In a (scraped_articles next_day_world forcing_options) ->
                Models.hash_exists after_first_run (Command.content_hash_of a) = true)
  /\ exists d' out,
       Command.handle next_day_world forcing_options after_first_run
       = (d', out ++ [ScrapingComplete 0
                        (List.length (scraped_articles next_day_world forcing_options)) 0],
          Ok tt)
       /\ List.map row_key (news_articles d')
          = List.map row_key (news_articles after_first_run).
Proof.
  assert (S : default_site after_first_run = true) by (vm_compute; reflexivity).
  assert (U : unique_hashes after_first_run)
    by (vm_compute; repeat constructor; simpl; intuition discriminate).
  assert (N : scraped_articles next_day_world forcing_options <> [])
    by (vm_compute; discriminate).
  assert (H : forall a, In a (scraped_articles next_day_world forcing_options) ->
                Models.hash_exists after_first_run (Command.content_hash_of a) = true).
  { intros a I; vm_compute in I; destruct I as [<-|[<-|[]]]; vm_compute; reflexivity. }
  split; [exact S|]. split; [exact U|]. split; [exact N|]. split; [exact H|].
  destruct (forced_rerun_updates_all next_day_world forcing_options after_first_run
              eq_refl eq_refl eq_refl S U N H) as (d' & out & R & _ & K).
  exists d', out; auto.
Defined.

(** X6. Store and look up: when [_process_article] reports a record as
    created, the row found afterwards under the hash of the record has
    the five fields of the record, that hash, the slug that [_create_slug]
    gave and is live; its hash is the digest of its own fields; and the
    same record, processed again without forcing, is skipped. *)
Theorem created_record_is_found :
  forall (d d' : db) (a : article_data) (force : bool),
    unique_hashes d ->
    Command._process_article d a force = (d', Ok created) ->
    exists row,
      Models.objects_get d' (Command.content_hash_of a) = Ok row
      /\ title row = ad_title a /\ summary row = ad_summary a
      /\ source_url row = ad_source_url a /\ source_name row = ad_source_name a
      /\ Some (publication_date row) = ad_publication_date a
      /\ content_hash row = Command.content_hash_of a
      /\ slug row = Command._create_slug d (ad_title a)
      /\ live row = true
      /\ consistent row
      /\ Command._process_article d' a false = (d', Ok skipped).
Proof.
  intros d d' a force U E.
  destruct (UpdateFacts.created_found d d' a force U E) as (day & D & G & S).
  exists (new_row d a day); rewrite D; repeat split; auto.
Qed.

Lemma created_record_is_found_witness :
  unique_hashes fresh_db
  /\ exists d' row,
       Command._process_article fresh_db retitled false = (d', Ok created)
       /\ Models.objects_get d' (Command.content_hash_of retitled) = Ok row
       /\ title row = ad_title retitled
       /\ Command._process_article d' retitled false = (d', Ok skipped).
Proof.
  assert (U : unique_hashes fresh_db) by constructor.
  split; [exact U|].
  destruct (Command._process_article fresh_db retitled false) as [d' r] eqn:E.
  assert (R : r = Ok created)
    by (apply (f_equal snd) in E; cbn [snd] in E; rewrite <- E; vm_compute;
        reflexivity).
  subst r.
  destruct (created_record_is_found fresh_db d' retitled false U E)
    as (row & G & T & _ & _ & _ & _ & _ & _ & _ & _ & S).
  exists d', row; auto.
Defined.

(** X7. Update and look up: when [_process_article] reports a record as
    updated, the row found afterwards under the hash of the record has the
    title, the summary, the date and the source name of the record and is
    live, and keeps the URL, the slug and the hash it had; its hash still
    is the digest of its own fields when the record has the URL of the
    row.  The rows of every other hash are left as they were. *)
Theorem updated_record_is_found :
  forall (d d' : db) (a : article_data) (force : bool),
    unique_hashes d ->
    Command._process_article d a force = (d', Ok updated) ->
    exists x row,
      Models.objects_get d (Command.content_hash_of a) = Ok x
      /\ Models.objects_get d' (Command.content_hash_of a) = Ok row
      /\ title row = ad_title a /\ summary row = ad_summary a
      /\ source_name row = ad_source_name a
      /\ Some (publication_date row) = ad_publication_date a
      /\ live row = true
      /\ row_key row = row_key x
      /\ (ad_source_url a = source_url x -> consistent row)
      /\ (forall r, content_hash r <> Command.content_hash_of a ->
                    (In r (news_articles d') <-> In r (news_articles d))).
Proof.
  intros d d' a force U E.
  destruct (UpdateFacts.updated_found d d' a force U E)
    as (x & day & D & G & -> & G').
  exists x, (updated_row x a day); rewrite D.
  pose proof (OutcomeFacts.objects_get_hash _ _ _ G) as [Ix Hx].
  split; [exact G|]. split; [exact G'|].
  do 6 (split; [reflexivity|]).
  split.
  - intros Eu; unfold consistent.
    cbn [updated_row set_live set_scraped_fields content_hash title summary source_url].
    rewrite Hx, <- Eu; reflexivity.
  - intros r N; unfold Models.update_row; cbn [set_articles news_articles].
    apply RerunFacts.others_untouched; [exact Hx | exact N].
Qed.

Lemma updated_record_is_found_witness :
  unique_hashes stored_db
  /\ (exists d' x row,
        Command._process_article stored_db retitled true = (d', Ok updated)
        /\ Models.objects_get stored_db (Command.content_hash_of retitled) = Ok x
        /\ Models.objects_get d' (Command.content_hash_of retitled) = Ok row
        /\ source_name row = "HN"%string
        /\ row_key row = row_key x).
Proof.
  assert (U : unique_hashes stored_db) by (vm_compute; repeat constructor; simpl; tauto).
  split; [exact U|].
  destruct (Command._process_article stored_db retitled true) as [d' r] eqn:E.
  assert (R : r = Ok updated)
    by (apply (f_equal snd) in E; cbn [snd] in E; rewrite <- E; vm_compute;
        reflexivity).
  subst r.
  destruct (updated_record_is_found stored_db d' retitled true U E)
    as (x & row & G & G' & _ & _ & Sn & _ & _ & K & _).
  exists d', x, row.
  split; [reflexivity|]. split; [exact G|]. split; [exact G'|].
  split; [exact Sn | exact K].
Defined.

(** A forced update under a hash that two splits of the same text share
    leaves a row whose hash is not the digest of its own fields. *)
Example forced_update_can_unsettle_the_hash :
  let d := fst (Command._process_article fresh_db
                  (ArticleData "a" "b" "c" "n" (Some 1%Z)) false) in
  let d' := fst (Command._process_article d
                   (ArticleData "a" "" "bc" "n" (Some 2%Z)) true) in
  exists row, news_articles d' = [row] /\ ~ consistent row.
Proof.
  intros d d'.
  exists (hd (MkNewsArticle "" "" "" "" 0%Z "" "" false false) (news_articles d')).
  split; [vm_compute; reflexivity|].
  unfold consistent; vm_compute; discriminate.
Qed.

(** ** More on the extractors *)

Module ScraperFacts.

Local Open Scope string_scope.

Lemma length_somes {A : Type} (l : list (option A)) :
  List.length (NewsScraper.somes l) <= List.length l.
Proof.
  induction l as [|[a|] l IH]; cbn [NewsScraper.somes List.length]; lia.
Qed.

Lemma somes_app {A : Type} (l m : list (option A)) :
  NewsScraper.somes (l ++ m) = (NewsScraper.somes l ++ NewsScraper.somes m)%list.
Proof.
  induction l as [|[a|] l IH]; cbn [NewsScraper.somes app]; [reflexivity| |exact IH].
  now rewrite IH.
Qed.

Lemma length_reddit_loop (today : date) (posts : list (option NewsScraper.post_data)) :
  List.length (fst (NewsScraper.reddit_loop today posts)) <= List.length posts.
Proof.
  induction posts as [|post posts IH]; cbn [NewsScraper.reddit_loop]; [reflexivity|].
  destruct (NewsScraper.reddit_loop today posts) as [articles log].
  destruct (NewsScraper.reddit_entry today post) as [[a|]|e];
    cbn [fst List.length] in *; lia.
Qed.

Lemma reddit_loop_app (today : date) (l m : list (option NewsScraper.post_data)) :
  fst (NewsScraper.reddit_loop today (l ++ m))
  = (fst (NewsScraper.reddit_loop today l) ++ fst (NewsScraper.reddit_loop today m))%list.
Proof.
  induction l as [|post l IH]; cbn [NewsScraper.reddit_loop app]; [reflexivity|].
  destruct (NewsScraper.reddit_loop today (l ++ m)) as [x lx].
  destruct (NewsScraper.reddit_loop today l) as [y ly].
  cbn [fst] in IH; subst x.
  destruct (NewsScraper.reddit_entry today post) as [[a|]|e]; reflexivity.
Qed.

Lemma length_py_prefix {A : Type} (n : Z) (l : list A) :
  (0 <= n)%Z -> List.length (NewsScraper.py_prefix n l) <= Z.to_nat n.
Proof.
  intros N; unfold NewsScraper.py_prefix.
  destruct (Z.leb_spec 0 n); [apply firstn_le_length | lia].
Qed.

Lemma py_prefix_all {A : Type} (n : Z) (l : list A) :
  (Z.of_nat (List.length l) <= n)%Z -> NewsScraper.py_prefix n l = l.
Proof.
  intros N; unfold NewsScraper.py_prefix.
  destruct (Z.leb_spec 0 n); [apply firstn_all2; lia | lia].
Qed.

(** What an entry of the front page yields, and when it yields nothing. *)
Lemma hacker_news_entry_fields (today : date) (row : NewsScraper.story_row)
    (a : article_data) :
  NewsScraper.hacker_news_entry today row = Some a ->
  exists title_link,
    NewsScraper.titleline row = Some (Some title_link)
    /\ ad_title a = NewsScraper.get_text_strip title_link
    /\ ad_source_name a = "Hacker News"
    /\ ad_publication_date a = Some today
    /\ let link := NewsScraper.get (NewsScraper.a_href title_link) "" in
       (PyStr.startswith "item?" link = true
        /\ ad_source_url a = "https://news.ycombinator.com/" ++ link)
       \/ (PyStr.startswith "item?" link = false
           /\ PyStr.startswith "http" link = true
           /\ ad_source_url a = link).
Proof.
  unfold NewsScraper.hacker_news_entry.
  destruct (NewsScraper.titleline row) as [[title_link|]|]; try discriminate.
  fold (NewsScraper.get (NewsScraper.a_href title_link) "").
  destruct (PyStr.startswith "item?" _) eqn:I.
  - intros [= <-]; exists title_link; repeat split; auto.
  - destruct (PyStr.startswith "http" _) eqn:H; cbn [negb]; [|discriminate].
    intros [= <-]; exists title_link; repeat split; auto.
Qed.

(** [strip] leaves no white space at either end. *)
Lemma lstrip_head (p : ascii -> bool) (s : string) :
  match PyStr.lstrip p s with
  | EmptyString => True
  | String c _ => p c = false
  end.
Proof.
  induction s as [|c s IH]; cbn [PyStr.lstrip]; [exact I|].
  destruct (p c) eqn:P; [exact IH | exact P].
Qed.

Lemma rstrip_idem (p : ascii -> bool) (s : string) :
  PyStr.rstrip p (PyStr.rstrip p s) = PyStr.rstrip p s.
Proof.
  induction s as [|c s IH]; cbn [PyStr.rstrip]; [reflexivity|].
  destruct (PyStr.rstrip p s) as [|c' s'] eqn:R.
  - destruct (p c) eqn:P; cbn [PyStr.rstrip]; [reflexivity | now rewrite P].
  - cbn [PyStr.rstrip]; cbn [PyStr.rstrip] in IH.
    destruct (match PyStr.rstrip p s' with
              | EmptyString => if p c' then EmptyString else String c' EmptyString
              | String a s0 => String c' (String a s0)
              end) eqn:M; [discriminate | now rewrite IH].
Qed.

Lemma rstrip_keeps_head (p : ascii -> bool) (c : ascii) (s : string) :
  p c = false -> exists t, PyStr.rstrip p (String c s) = String c t.
Proof.
  intros P; cbn [PyStr.rstrip].
  destruct (PyStr.rstrip p s); [rewrite P|]; eauto.
Qed.

Lemma strip_with_idem (p : ascii -> bool) (s : string) :
  PyStr.strip_with p (PyStr.strip_with p s) = PyStr.strip_with p s.
Proof.
  unfold PyStr.strip_with.
  pose proof (lstrip_head p s) as H.
  destruct (PyStr.lstrip p s) as [|c t]; [reflexivity|].
  destruct (rstrip_keeps_head p c t H) as (u & E); rewrite E.
  cbn [PyStr.lstrip]; rewrite H, <- E; apply rstrip_idem.
Qed.

End ScraperFacts.

Module ScrapedFacts.

Local Open Scope string_scope.

Lemma reddit_entry_stamp (today : date) (post : option NewsScraper.post_data)
    (a : article_data) :
  NewsScraper.reddit_entry today post = Ok (Some a) ->
  ad_source_name a = "Reddit Programming" /\ ad_publication_date a = Some today.
Proof.
  unfold NewsScraper.reddit_entry; destruct post as [p|]; [|discriminate].
  destruct (PyStr.strip _); [discriminate|].
  destruct (NewsScraper.reddit_source_url p); [|discriminate].
  intros [= <-]; auto.
Qed.

Lemma in_hacker_news (today : date) (response : option (list NewsScraper.story_row))
    (n : Z) (a : article_data) :
  In a (fst (NewsScraper.scrape_hacker_news today response n)) ->
  exists rows row, response = Some rows /\ In row rows
                   /\ NewsScraper.hacker_news_entry today row = Some a.
Proof.
  destruct response as [rows|]; cbn [NewsScraper.scrape_hacker_news fst]; [|intros []].
  intros I; apply ExtractorFacts.in_somes in I; destruct I as (row & Ir & E).
  apply ExtractorFacts.in_py_prefix in Ir; eauto.
Qed.

Lemma in_reddit (today : date) (response : option (list (option NewsScraper.post_data)))
    (n : Z) (a : article_data) :
  In a (fst (NewsScraper.scrape_reddit_programming today response n)) ->
  exists children post, response = Some children /\ In post children
                        /\ NewsScraper.reddit_entry today post = Ok (Some a).
Proof.
  destruct response as [children|]; cbn [NewsScraper.scrape_reddit_programming fst];
    [|intros []].
  intros I; apply ExtractorFacts.in_reddit_loop in I; destruct I as (post & Ip & E).
  apply ExtractorFacts.in_py_prefix in Ip; eauto.
Qed.

Lemma truncate200_length (s : string) : String.length (truncate200 s) <= 203.
Proof.
  unfold truncate200; destruct (Nat.ltb_spec 200 (String.length s)); [|lia].
  rewrite PyStrFacts.length_app; pose proof (PyStrFacts.length_take 200 s).
  cbn [String.length]; lia.
Qed.

(** The records of a run come from the selected sources. *)
Lemma in_scraped (w : world) (o : options) (a : article_data) :
  In a (scraped_articles w o) ->
  (Command.in_sources (opt_source o) [hackernews; all] = true
   /\ In a (fst (NewsScraper.scrape_hacker_news (today w) (hacker_news_response w)
                                                (max_articles o))))
  \/ (Command.in_sources (opt_source o) [reddit; all] = true
      /\ In a (fst (NewsScraper.scrape_reddit_programming (today w) (reddit_response w)
                                                          (max_articles o)))).
Proof.
  unfold scraped_articles; intros I; apply in_app_or in I; destruct I as [I|I].
  - left; destruct (Command.in_sources _ _); [auto | destruct I].
  - right; destruct (Command.in_sources _ _); [auto | destruct I].
Qed.

End ScrapedFacts.

(** X8. Every record that the aggregator extractor returns has an absolute
    link: the link of the story when that starts with [http], and the
    address of the site followed by the link when that is a relative item
    reference; a story with any other link is not returned.  The record
    carries the stripped text of the link as title, the fixed source name
    and the day of the run. *)
Theorem hacker_news_links_absolute :
  forall (today : date) (response : option (list NewsScraper.story_row)) (n : Z)
         (a : article_data),
    In a (fst (NewsScraper.scrape_hacker_news today response n)) ->
    PyStr.startswith "http" (ad_source_url a) = true
    /\ ad_source_name a = "Hacker News"%string
    /\ ad_publication_date a = Some today
    /\ exists rows row title_link,
         response = Some rows /\ In row rows
         /\ NewsScraper.titleline row = Some (Some title_link)
         /\ ad_title a = NewsScraper.get_text_strip title_link
         /\ let link := NewsScraper.get (NewsScraper.a_href title_link) "" in
            ad_source_url a
            = if PyStr.startswith "item?" link
              then ("https://news.ycombinator.com/" ++ link)%string else link.
Proof.
  intros today response n a I.
  apply ScrapedFacts.in_hacker_news in I; destruct I as (rows & row & -> & Ir & E).
  apply ScraperFacts.hacker_news_entry_fields in E.
  destruct E as (title_link & Tl & Ti & Na & Da & L); cbv zeta in L.
  assert (H : PyStr.startswith "http" (ad_source_url a) = true
              /\ ad_source_url a
                 = if PyStr.startswith "item?"
                        (NewsScraper.get (NewsScraper.a_href title_link) "")
                   then ("https://news.ycombinator.com/"
                         ++ NewsScraper.get (NewsScraper.a_href title_link) "")%string
                   else NewsScraper.get (NewsScraper.a_href title_link) "").
  { destruct L as [[I U]|[I [H U]]]; rewrite I, U; auto. }
  destruct H as [H U]; repeat split; auto.
  exists rows, row, title_link; auto.
Qed.

Lemma hacker_news_links_absolute_witness :
  let a := ArticleData "Show HN: a tiny parser"
             "Latest story from Hacker News: Show HN: a tiny parser"
             "https://news.ycombinator.com/item?id=42" "Hacker News" (Some 20000%Z) in
  In a (fst (NewsScraper.scrape_hacker_news 20000%Z (Some sample_rows) 5%Z))
  /\ PyStr.startswith "http" (ad_source_url a) = true.
Proof.
  intros a.
  assert (I : In a (fst (NewsScraper.scrape_hacker_news 20000%Z (Some sample_rows) 5%Z)))
    by (vm_compute; auto).
  split; [exact I|].
  exact (proj1 (hacker_news_links_absolute 20000%Z (Some sample_rows) 5%Z a I)).
Defined.

(** X9. With a cap that is not negative neither extractor returns more
    records than the cap, so a run processes at most the cap for one
    source and twice the cap for both; a cap of zero gives no record. *)
Theorem extractors_respect_the_cap :
  forall (w : world) (o : options),
    (0 <= max_articles o)%Z ->
    List.length (fst (NewsScraper.scrape_hacker_news (today w) (hacker_news_response w)
                                                     (max_articles o)))
    <= Z.to_nat (max_articles o)
    /\ List.length (fst (NewsScraper.scrape_reddit_programming (today w)
                           (reddit_response w) (max_articles o)))
       <= Z.to_nat (max_articles o)
    /\ List.length (scraped_articles w o) <= 2 * Z.to_nat (max_articles o)
    /\ (opt_source o <> all ->
        List.length (scraped_articles w o) <= Z.to_nat (max_articles o)).
Proof.
  intros w o N.
  assert (H : List.length (fst (NewsScraper.scrape_hacker_news (today w)
                (hacker_news_response w) (max_articles o))) <= Z.to_nat (max_articles o)).
  { destruct (hacker_news_response w) as [rows|];
      cbn [NewsScraper.scrape_hacker_news fst List.length]; [|lia].
    pose proof (ScraperFacts.length_somes
                  (List.map (NewsScraper.hacker_news_entry (today w))
                            (NewsScraper.py_prefix (max_articles o) rows))) as L.
    rewrite length_map in L.
    pose proof (ScraperFacts.length_py_prefix (max_articles o) rows N); lia. }
  assert (R : List.length (fst (NewsScraper.scrape_reddit_programming (today w)
                (reddit_response w) (max_articles o))) <= Z.to_nat (max_articles o)).
  { destruct (reddit_response w) as [children|];
      cbn [NewsScraper.scrape_reddit_programming fst List.length]; [|lia].
    pose proof (ScraperFacts.length_reddit_loop (today w)
                  (NewsScraper.py_prefix (max_articles o) children)) as L.
    pose proof (ScraperFacts.length_py_prefix (max_articles o) children N); lia. }
  split; [exact H|]. split; [exact R|].
  unfold scraped_articles; rewrite length_app.
  destruct (opt_source o); cbn [Command.in_sources existsb orb List.length];
    (split; [lia | intros X; try lia; now elim X]).
Qed.

Lemma extractors_respect_the_cap_witness :
  (0 <= max_articles (MkOptions 1%Z all false false false))%Z
  /\ List.length (scraped_articles
                    (World (Some (sample_rows ++ sample_rows))
                           (Some [Some sample_post; Some sample_post]) 20000%Z)
                    (MkOptions 1%Z all false false false))
     <= 2 * Z.to_nat 1.
Proof.
  assert (N : (0 <= max_articles (MkOptions 1%Z all false false false))%Z)
    by (cbn; lia).
  split; [exact N|].
  exact (proj1 (proj2 (proj2 (extractors_respect_the_cap
           (World (Some (sample_rows ++ sample_rows))
                  (Some [Some sample_post; Some sample_post]) 20000%Z)
           (MkOptions 1%Z all false false false) N)))).
Defined.

(** X10. Failures stay where they are.  When the cap covers the whole
    page, an entry that yields nothing (a story without title cell or
    link, or with a link that is neither absolute nor an item; a post
    without data, with an empty title or without the permalink it needs)
    is left out and the entries before and after it are extracted as if
    it were not there.  A source whose request fails contributes no
    record, and the records of the other source are those it gives. *)
Theorem extraction_isolates_failures :
  forall (day : date) (n : Z),
    (forall rows1 bad rows2,
       (Z.of_nat (List.length (rows1 ++ bad :: rows2)) <= n)%Z ->
       NewsScraper.hacker_news_entry day bad = None ->
       fst (NewsScraper.scrape_hacker_news day (Some (rows1 ++ bad :: rows2)) n)
       = fst (NewsScraper.scrape_hacker_news day (Some rows1) n)
         ++ fst (NewsScraper.scrape_hacker_news day (Some rows2) n))
    /\ (forall posts1 bad posts2,
          (Z.of_nat (List.length (posts1 ++ bad :: posts2)) <= n)%Z ->
          (forall a, NewsScraper.reddit_entry day bad <> Ok (Some a)) ->
          fst (NewsScraper.scrape_reddit_programming day
                 (Some (posts1 ++ bad :: posts2)) n)
          = fst (NewsScraper.scrape_reddit_programming day (Some posts1) n)
            ++ fst (NewsScraper.scrape_reddit_programming day (Some posts2) n))
    /\ (forall w o,
          hacker_news_response w = None -> opt_source o = all ->
          scraped_articles w o
          = fst (NewsScraper.scrape_reddit_programming (today w)
                   (reddit_response w) (max_articles o)))
    /\ (forall w o,
          reddit_response w = None -> opt_source o = all ->
          scraped_articles w o
          = fst (NewsScraper.scrape_hacker_news (today w)
                   (hacker_news_response w) (max_articles o))).
Proof.
  intros day n; split; [|split; [|split]].
  - intros rows1 bad rows2 L E.
    pose proof L as L0; rewrite length_app in L; cbn [List.length] in L.
    cbn [NewsScraper.scrape_hacker_news fst].
    rewrite !ScraperFacts.py_prefix_all by lia.
    rewrite map_app, ScraperFacts.somes_app; cbn [List.map NewsScraper.somes].
    now rewrite E.
  - intros posts1 bad posts2 L E.
    pose proof L as L0; rewrite length_app in L; cbn [List.length] in L.
    cbn [NewsScraper.scrape_reddit_programming].
    rewrite !ScraperFacts.py_prefix_all by lia.
    rewrite ScraperFacts.reddit_loop_app; f_equal.
    cbn [NewsScraper.reddit_loop].
    destruct (NewsScraper.reddit_loop day posts2) as [articles log].
    destruct (NewsScraper.reddit_entry day bad) as [[a|]|e]; [|reflexivity..].
    now elim (E a).
  - intros w o H S; unfold scraped_articles; rewrite H, S; reflexivity.
  - intros w o H S; unfold scraped_articles; rewrite H, S.
    cbn [Command.in_sources existsb orb NewsScraper.scrape_reddit_programming fst].
    now rewrite app_nil_r.
Qed.

Lemma extraction_isolates_failures_witness :
  let good := hd (NewsScraper.StoryRow None) sample_rows in
  let bad := NewsScraper.StoryRow (Some None) in
  (Z.of_nat (List.length ([good] ++ bad :: [good])) <= 5)%Z
  /\ NewsScraper.hacker_news_entry 20000%Z bad = None
  /\ fst (NewsScraper.scrape_hacker_news 20000%Z (Some ([good] ++ bad :: [good])) 5%Z)
     = fst (NewsScraper.scrape_hacker_news 20000%Z (Some [good]) 5%Z)
       ++ fst (NewsScraper.scrape_hacker_news 20000%Z (Some [good]) 5%Z)
  /\ (forall a, NewsScraper.reddit_entry 20000%Z None <> Ok (Some a))
  /\ fst (NewsScraper.scrape_reddit_programming 20000%Z
            (Some ([] ++ None :: [Some sample_post])) 5%Z)
     = fst (NewsScraper.scrape_reddit_programming 20000%Z (Some []) 5%Z)
       ++ fst (NewsScraper.scrape_reddit_programming 20000%Z
                 (Some [Some sample_post]) 5%Z).
Proof.
  intros good bad.
  pose proof (extraction_isolates_failures 20000%Z 5%Z) as (HN & RD & _).
  assert (L : (Z.of_nat (List.length ([good] ++ bad :: [good])) <= 5)%Z)
    by (cbn; lia).
  assert (L' : (Z.of_nat (List.length (@nil (option NewsScraper.post_data)
                                        ++ None :: [Some sample_post])) <= 5)%Z)
    by (cbn; lia).
  assert (E : forall a, NewsScraper.reddit_entry 20000%Z None <> Ok (Some a))
    by (intros a; discriminate).
  split; [exact L|]. split; [reflexivity|].
  split; [exact (HN [good] bad [good] L eq_refl)|].
  split; [exact E|].
  exact (RD [] None [Some sample_post] L' E).
Defined.

(** X11. Every record that the forum extractor returns has a title that
    is not empty and has no white space at either end (the title of the
    post, stripped; a post whose title is empty or all white space is not
    returned), the fixed source name and the day of the run. *)
Theorem reddit_titles_stripped :
  forall (day : date) (response : option (list (option NewsScraper.post_data)))
         (n : Z) (a : article_data),
    In a (fst (NewsScraper.scrape_reddit_programming day response n)) ->
    ad_title a <> ""%string
    /\ PyStr.strip (ad_title a) = ad_title a
    /\ ad_source_name a = "Reddit Programming"%string
    /\ ad_publication_date a = Some day
    /\ exists children p,
         response = Some children /\ In (Some p) children
         /\ ad_title a = PyStr.strip (NewsScraper.get (NewsScraper.pd_title p) "").
Proof.
  intros day response n a I.
  apply ScrapedFacts.in_reddit in I; destruct I as (children & post & -> & Ip & E).
  pose proof (ScrapedFacts.reddit_entry_stamp _ _ _ E) as [Na Da].
  apply ExtractorFacts.reddit_entry_fields in E.
  destruct E as (p & -> & T & N & _ & _).
  split; [exact N|]. split; [|split; [exact Na|split; [exact Da|]]].
  - rewrite T; apply ScraperFacts.strip_with_idem.
  - exists children, p; auto.
Qed.

Lemma reddit_titles_stripped_witness :
  let a := ArticleData "Why tests matter" (replicate 200 "x" ++ "...")
             "https://example.org/tests" "Reddit Programming" (Some 20000%Z) in
  In a (fst (NewsScraper.scrape_reddit_programming 20000%Z
               (Some [None; Some sample_post]) 5%Z))
  /\ PyStr.strip (ad_title a) = ad_title a.
Proof.
  intros a.
  assert (I : In a (fst (NewsScraper.scrape_reddit_programming 20000%Z
                           (Some [None; Some sample_post]) 5%Z)))
    by (vm_compute; auto).
  split; [exact I|].
  exact (proj1 (proj2 (reddit_titles_stripped 20000%Z _ 5%Z a I))).
Defined.

(** X12. The records of a run come from the selected source only: with
    the source [hackernews] all carry the name of the aggregator, with
    [reddit] all the name of the forum, with [all] one of the two; and
    every one carries the day of the run and a summary of at most 203
    characters, within the 500 of the column. *)
Theorem scraped_records_well_formed :
  forall (w : world) (o : options) (a : article_data),
    In a (scraped_articles w o) ->
    match opt_source o with
    | hackernews => ad_source_name a = "Hacker News"%string
    | reddit => ad_source_name a = "Reddit Programming"%string
    | all => ad_source_name a = "Hacker News"%string
             \/ ad_source_name a = "Reddit Programming"%string
    end
    /\ ad_publication_date a = Some (today w)
    /\ String.length (ad_summary a) <= 203.
Proof.
  intros w o a I; apply ScrapedFacts.in_scraped in I; destruct I as [[S I]|[S I]].
  - apply ScrapedFacts.in_hacker_news in I; destruct I as (rows & row & _ & _ & E).
    pose proof (ExtractorFacts.hacker_news_entry_summary _ _ _ E) as Su.
    apply ScraperFacts.hacker_news_entry_fields in E.
    destruct E as (tl & _ & _ & Na & Da & _).
    split; [destruct (opt_source o); auto; discriminate|].
    split; [exact Da|]. rewrite Su; apply ScrapedFacts.truncate200_length.
  - apply ScrapedFacts.in_reddit in I; destruct I as (children & post & _ & _ & E).
    pose proof (ScrapedFacts.reddit_entry_stamp _ _ _ E) as [Na Da].
    apply ExtractorFacts.reddit_entry_fields in E.
    destruct E as (p & _ & _ & _ & Su & _).
    split; [destruct (opt_source o); auto; discriminate|].
    split; [exact Da|].
    rewrite Su, ExtractorFacts.reddit_summary_truncated.
    apply ScrapedFacts.truncate200_length.
Qed.

Lemma scraped_records_well_formed_witness :
  let a := ArticleData "Why tests matter" (replicate 200 "x" ++ "...")
             "https://example.org/tests" "Reddit Programming" (Some 20000%Z) in
  In a (scraped_articles sample_world (MkOptions 5%Z reddit false false false))
  /\ ad_source_name a = "Reddit Programming"%string
  /\ String.length (ad_summary a) <= 203.
Proof.
  intros a.
  assert (I : In a (scraped_articles sample_world
                      (MkOptions 5%Z reddit false false false)))
    by (vm_compute; auto).
  split; [exact I|].
  pose proof (scraped_records_well_formed sample_world
                (MkOptions 5%Z reddit false false false) a I) as (N & _ & L).
  split; [exact N | exact L].
Defined.

(** ** The list page *)

(** X13. [_ensure_news_list_page] fails exactly when there is no default
    site, and then writes nothing.  Otherwise it leaves a list page under
    the root and touches no article: it writes nothing at all when such a
    page exists, and appends the one page [news] when none does; run
    again on its own result it finds the page and writes nothing, so no
    second page is ever created. *)
Theorem ensure_news_list_page_once :
  forall d : db,
    (default_site d = false ->
     exists out msg,
       Command._ensure_news_list_page d = (d, out, Raise (CommandError msg)))
    /\ (default_site d = true ->
        exists d' out,
          Command._ensure_news_list_page d = (d', out, Ok tt)
          /\ existsb lp_child_of_root (news_list_pages d') = true
          /\ news_articles d' = news_articles d
          /\ (existsb lp_child_of_root (news_list_pages d) = true ->
              d' = d /\ out = [])
          /\ (existsb lp_child_of_root (news_list_pages d) = false ->
              exists page,
                news_list_pages d' = news_list_pages d ++ [page]
                /\ lp_slug page = "news"%string /\ lp_child_of_root page = true
                /\ out = [CreatedNewsListPage])
          /\ Command._ensure_news_list_page d' = (d', [], Ok tt)).
Proof.
  intros d; split; [apply HandleFacts.ensure_fatal|].
  intros S; destruct (HandleFacts.ensure_total d S) as (d' & out & E).
  exists d', out; split; [exact E|].
  pose proof (TwoRunsFacts.ensure_again d d' out E d' eq_refl eq_refl) as Again.
  pose proof (RunInvariantFacts.ensure_articles _ _ _ _ E) as A.
  unfold Command._ensure_news_list_page in E; rewrite S in E.
  destruct (existsb lp_child_of_root (news_list_pages d)) eqn:X;
    injection E as <- <-; cbn [news_list_pages].
  - rewrite X; repeat split; auto; discriminate.
  - rewrite existsb_app; cbn [existsb lp_child_of_root]; rewrite orb_true_r.
    repeat split; auto; try discriminate.
    intros _; eexists; repeat split.
Qed.

Lemma ensure_news_list_page_once_witness :
  default_site no_page_db = true
  /\ exists d' out,
       Command._ensure_news_list_page no_page_db = (d', out, Ok tt)
       /\ Command._ensure_news_list_page d' = (d', [], Ok tt).
Proof.
  split; [reflexivity|].
  destruct (proj2 (ensure_news_list_page_once no_page_db) eq_refl)
    as (d' & out & E & _ & _ & _ & _ & Again).
  exists d', out; auto.
Defined.

(** ** The characters of a slug *)

Module SlugCharFacts.

Local Open Scope string_scope.

Lemma forallb_filter (p : ascii -> bool) (s : string) :
  PyStr.forallb p (PyStr.filter p s) = true.
Proof.
  induction s as [|c s IH]; cbn [PyStr.filter]; [reflexivity|].
  destruct (p c) eqn:P; cbn [PyStr.forallb]; [now rewrite P | exact IH].
Qed.

Lemma forallb_collapse (in_run : bool) (s : string) :
  PyStr.forallb spec_slug_char s = true ->
  PyStr.forallb url_safe_char (PyStr.collapse_spaces in_run s) = true.
Proof.
  revert in_run; induction s as [|c s IH]; intros in_run; cbn [PyStr.forallb
    PyStr.collapse_spaces]; [reflexivity|].
  intros H; apply andb_true_iff in H; destruct H as [Hc Hs].
  destruct (PyStr.isspace c) eqn:Sp.
  - destruct in_run; cbn [PyStr.forallb]; auto.
    rewrite IH by exact Hs; reflexivity.
  - cbn [PyStr.forallb]; rewrite IH by exact Hs.
    unfold spec_slug_char in Hc; unfold url_safe_char.
    rewrite Sp, orb_false_r in Hc; now rewrite Hc.
Qed.

Lemma forallb_lstrip (q p : ascii -> bool) (s : string) :
  PyStr.forallb q s = true -> PyStr.forallb q (PyStr.lstrip p s) = true.
Proof.
  induction s as [|c s IH]; cbn [PyStr.lstrip]; [auto|].
  intros H; destruct (p c); [|exact H].
  cbn [PyStr.forallb] in H; apply andb_true_iff in H; now apply IH.
Qed.

Lemma forallb_rstrip (q p : ascii -> bool) (s : string) :
  PyStr.forallb q s = true -> PyStr.forallb q (PyStr.rstrip p s) = true.
Proof.
  induction s as [|c s IH]; cbn [PyStr.rstrip PyStr.forallb]; [auto|].
  intros H; apply andb_true_iff in H; destruct H as [Hc Hs].
  specialize (IH Hs).
  destruct (PyStr.rstrip p s) as [|c' r].
  - destruct (p c); cbn [PyStr.forallb]; [reflexivity | now rewrite Hc].
  - cbn [PyStr.forallb] in *; now rewrite Hc, IH.
Qed.

Lemma forallb_take (q : ascii -> bool) (n : nat) (s : string) :
  PyStr.forallb q s = true -> PyStr.forallb q (PyStr.take n s) = true.
Proof.
  revert s; induction n as [|n IH]; intros [|c s]; cbn [PyStr.take PyStr.forallb];
    auto.
  intros H; apply andb_true_iff in H; destruct H as [Hc Hs].
  now rewrite Hc, IH.
Qed.

Lemma base_slug_url_safe (title : string) :
  PyStr.forallb url_safe_char (Command.base_slug_of title) = true.
Proof.
  unfold Command.base_slug_of, PyStr.strip_with.
  apply forallb_take, forallb_rstrip, forallb_lstrip, forallb_collapse.
  rewrite SlugifyFacts.filter_lower; apply forallb_filter.
Qed.

(** [str(n)] is made of digits. *)
Lemma of_N_digits (n : N) : PyStr.forallb PyStr.is_digit (PyStr.of_N n) = true.
Proof.
  unfold PyStr.of_N; induction (N.to_uint n) as [|u IH|u IH|u IH|u IH|u IH|u IH
    |u IH|u IH|u IH|u IH]; cbn [NilEmpty.string_of_uint PyStr.forallb];
    [reflexivity | rewrite IH; reflexivity ..].
Qed.

Lemma digits_url_safe (s : string) :
  PyStr.forallb PyStr.is_digit s = true -> PyStr.forallb url_safe_char s = true.
Proof.
  induction s as [|c s IH]; cbn [PyStr.forallb]; [auto|].
  intros H; apply andb_true_iff in H; destruct H as [Hc Hs].
  unfold url_safe_char at 1; rewrite Hc, orb_true_r, IH by exact Hs; reflexivity.
Qed.

Lemma slug_loop_url_safe (d : db) (base_slug : string) (fuel : nat) :
  PyStr.forallb url_safe_char base_slug = true ->
  forall slug counter,
    PyStr.forallb url_safe_char slug = true ->
    PyStr.forallb url_safe_char
      (Command.slug_loop fuel d base_slug slug counter) = true.
Proof.
  intros B; induction fuel as [|fuel IH]; intros slug counter H;
    cbn [Command.slug_loop]; destruct (Models.slug_exists d slug); auto.
  apply IH; rewrite !PyStrFacts.forallb_app, B.
  cbn [PyStr.forallb]; rewrite digits_url_safe by apply of_N_digits; reflexivity.
Qed.

(** The base slug does not begin with a hyphen. *)
Lemma base_slug_head (title : string) :
  match Command.base_slug_of title with
  | EmptyString => True
  | String c _ => PyStr.is_hyphen c = false
  end.
Proof.
  unfold Command.base_slug_of, PyStr.strip_with.
  set (s := PyStr.collapse_spaces false _).
  pose proof (ScraperFacts.lstrip_head PyStr.is_hyphen s) as H.
  destruct (PyStr.lstrip PyStr.is_hyphen s) as [|c t]; [exact I|].
  destruct (ScraperFacts.rstrip_keeps_head PyStr.is_hyphen c t H) as (u & ->).
  exact H.
Qed.

End SlugCharFacts.

(** X14. A slug is safe in a URL: whatever the title and whatever is
    stored, every character of the slug that [_create_slug] returns is a
    lower-case letter, a digit or a hyphen; and unless the title leaves
    nothing at all after cleaning, the slug begins with a letter or a
    digit, not with a hyphen. *)
Theorem create_slug_url_safe :
  forall (d : db) (title : string),
    PyStr.forallb url_safe_char (Command._create_slug d title) = true
    /\ match Command.base_slug_of title with
       | EmptyString => True
       | String c _ =>
           PyStr.is_hyphen c = false
           /\ exists rest, Command._create_slug d title = String c rest
       end.
Proof.
  intros d title; split.
  - unfold Command._create_slug.
    apply SlugCharFacts.slug_loop_url_safe; apply SlugCharFacts.base_slug_url_safe.
  - pose proof (SlugifyFacts.create_slug_free d title) as F.
    unfold Command._create_slug in *.
    pose proof (SlugCharFacts.base_slug_head title) as H.
    destruct (SlugFacts.slug_loop_first d (Command.base_slug_of title) _
                (Command.base_slug_of title) 1 F) as [[_ ->]|[_ (k & _ & -> & _)]];
      destruct (Command.base_slug_of title) as [|c t]; try exact I;
      (split; [exact H|]); eexists; reflexivity.
Qed.

(** ** The short summary of a record *)

Module ShortSummaryFacts.

Local Open Scope string_scope.

Lemma take_take_app (n : nat) (s t : string) :
  n <= String.length s -> PyStr.take n (PyStr.take n s ++ t) = PyStr.take n s.
Proof.
  revert s; induction n as [|n IH]; intros [|c s]; cbn [PyStr.take String.length
    append]; intros H; try lia; try (destruct t; reflexivity).
  f_equal; apply IH; lia.
Qed.

Lemma short_summary_cases (self : NewsArticle) :
  (String.length (summary self) <= 150
   /\ Models.short_summary self = summary self)
  \/ (150 < String.length (summary self)
      /\ Models.short_summary self = PyStr.take 150 (summary self) ++ "..."
      /\ String.length (Models.short_summary self) = 153).
Proof.
  unfold Models.short_summary.
  destruct (Nat.ltb_spec 150 (String.length (summary self))) as [L|L];
    [right | left; auto].
  repeat split; auto.
  rewrite PyStrFacts.length_app, PyStrFacts.length_take_exact by lia; reflexivity.
Qed.

End ShortSummaryFacts.

(** X15. The short summary of a record is never longer than 153
    characters.  It is the summary itself when that has at most 150
    characters, and otherwise the first 150 characters and three dots;
    either way it agrees with the summary on the first 150 characters. *)
Theorem short_summary_bounded :
  forall self : NewsArticle,
    String.length (Models.short_summary self) <= 153
    /\ (String.length (summary self) <= 150 ->
        Models.short_summary self = summary self)
    /\ (150 < String.length (summary self) ->
        Models.short_summary self = (PyStr.take 150 (summary self) ++ "...")%string
        /\ String.length (Models.short_summary self) = 153)
    /\ PyStr.take 150 (Models.short_summary self) = PyStr.take 150 (summary self).
Proof.
  intros self.
  destruct (ShortSummaryFacts.short_summary_cases self) as [[L E]|[L [E N]]];
    rewrite E; repeat split; try lia; auto.
  - rewrite <- E; lia.
  - rewrite <- E; exact N.
  - apply ShortSummaryFacts.take_take_app; lia.
Qed.

Lemma short_summary_bounded_witness :
  String.length (summary stored_row) <= 150
  /\ Models.short_summary stored_row = summary stored_row.
Proof.
  assert (L : String.length (summary stored_row) <= 150) by (vm_compute; lia).
  split; [exact L|].
  exact (proj1 (proj2 (short_summary_bounded stored_row)) L).
Defined.

(** ** The template filter *)

Module TruncateWordsFacts.

Local Open Scope string_scope.

Lemma app_empty (s : string) : s ++ "" = s.
Proof. induction s as [|c s IH]; cbn [append]; [reflexivity | now rewrite IH]. Qed.

(** A word in front of the end of the text, or of white space, is the
    first word of the text. *)
Lemma split_word (w t : string) :
  is_word w ->
  match t with EmptyString => True | String c _ => PyStr.isspace c = true end ->
  PyStr.split (w ++ t) = w :: PyStr.split t.
Proof.
  intros [N W] T; induction w as [|c w IH]; [congruence|].
  cbn [PyStr.forallb] in W; apply andb_true_iff in W; destruct W as [Wc Ww].
  apply negb_true_iff in Wc.
  destruct w as [|c2 w].
  - cbn [append PyStr.split]; rewrite Wc.
    destruct t as [|c' r]; [reflexivity|]; now rewrite T.
  - assert (W2 : PyStr.isspace c2 = false)
      by (cbn [PyStr.forallb] in Ww; apply andb_true_iff in Ww;
          now apply negb_true_iff).
    change ((String c (String c2 w)) ++ t) with (String c (String c2 w ++ t)).
    change (String c2 w ++ t) with (String c2 (w ++ t)) at 1.
    change (PyStr.split (String c (String c2 (w ++ t))))
      with (if PyStr.isspace c then PyStr.split (String c2 (w ++ t))
            else if PyStr.isspace c2
                 then String c "" :: PyStr.split (String c2 (w ++ t))
                 else match PyStr.split (String c2 (w ++ t)) with
                      | w0 :: ws => String c w0 :: ws
                      | [] => [String c ""]
                      end).
    rewrite Wc, W2.
    change (String c2 (w ++ t)) with (String c2 w ++ t).
    rewrite IH by (try discriminate; exact Ww); reflexivity.
Qed.

Lemma join_cons (sep w : string) (l : list string) :
  l <> [] -> PyStr.join sep (w :: l) = w ++ sep ++ PyStr.join sep l.
Proof. destruct l; [congruence | reflexivity]. Qed.

(** Splitting undoes joining with one space. *)
Lemma split_join (ws : list string) :
  Forall is_word ws -> PyStr.split (PyStr.join " " ws) = ws.
Proof.
  induction 1 as [|w ws W _ IH]; [reflexivity|].
  destruct ws as [|w2 ws].
  - cbn [PyStr.join]; rewrite <- (app_empty w) at 1.
    rewrite split_word by (exact W || exact I); reflexivity.
  - rewrite join_cons by discriminate.
    rewrite split_word by (exact W || reflexivity).
    change (" " ++ PyStr.join " " (w2 :: ws))
      with (String " " (PyStr.join " " (w2 :: ws))).
    change (PyStr.split (String " " (PyStr.join " " (w2 :: ws))))
      with (PyStr.split (PyStr.join " " (w2 :: ws))).
    now rewrite IH.
Qed.

(** What [split] returns are words. *)
Lemma split_words (s : string) : Forall is_word (PyStr.split s).
Proof.
  induction s as [|c r IH]; [constructor|].
  cbn [PyStr.split]; destruct (PyStr.isspace c) eqn:Sc; [exact IH|].
  assert (One : is_word (String c ""))
    by (split; [discriminate | cbn [PyStr.forallb]; now rewrite Sc]).
  destruct r as [|c' r']; [constructor; [exact One | constructor]|].
  destruct (PyStr.isspace c'); [constructor; [exact One | exact IH]|].
  destruct (PyStr.split (String c' r')) as [|w ws];
    [constructor; [exact One | constructor]|].
  inversion IH as [|? ? [_ W] Ws]; subst; constructor; [|exact Ws].
  split; [discriminate|]; cbn [PyStr.forallb]; now rewrite Sc, W.
Qed.

Lemma join_snoc (ws : list string) (w s : string) :
  PyStr.join " " (ws ++ [w]) ++ s = PyStr.join " " (ws ++ [w ++ s]).
Proof.
  induction ws as [|x ws IH]; [reflexivity|].
  change ((x :: ws) ++ [w])%list with (x :: (ws ++ [w]))%list.
  change ((x :: ws) ++ [(w ++ s)%string])%list
    with (x :: (ws ++ [(w ++ s)%string]))%list.
  rewrite !join_cons by (destruct ws; discriminate).
  now rewrite !PyStrFacts.app_assoc, IH.
Qed.

Lemma word_dots (w : string) : is_word w -> is_word (w ++ "...").
Proof.
  intros [N W]; split; [destruct w; [congruence | discriminate]|].
  rewrite PyStrFacts.forallb_app, W; reflexivity.
Qed.

Lemma forall_py_prefix {A : Type} (P : A -> Prop) (n : Z) (l : list A) :
  Forall P l -> Forall P (NewsScraper.py_prefix n l).
Proof.
  intros H; unfold NewsScraper.py_prefix.
  destruct (0 <=? n)%Z; apply Forall_forall; intros x X;
    apply (proj1 (Forall_forall P l) H); eapply ExtractorFacts.in_firstn; exact X.
Qed.

(** The words of a truncated text. *)
Lemma split_truncated (value : string) (length : Z) :
  (length < Z.of_nat (List.length (PyStr.split value)))%Z ->
  let kept := NewsScraper.py_prefix length (PyStr.split value) in
  exists text,
    NewsTags.truncate_words value (inl length) = inl text
    /\ text = PyStr.join " " kept ++ "..."
    /\ PyStr.split text
       = match kept with
         | [] => ["..."]
         | _ :: _ => (removelast kept ++ [(last kept "" ++ "...")%string])%list
         end.
Proof.
  intros L kept; unfold NewsTags.truncate_words.
  destruct (Z.leb_spec (Z.of_nat (List.length (PyStr.split value))) length); [lia|].
  fold kept; eexists; split; [reflexivity|]; split; [reflexivity|].
  assert (K : Forall is_word kept)
    by (apply forall_py_prefix, split_words).
  destruct kept as [|k0 kept'] eqn:E; [reflexivity|].
  rewrite <- E in *.
  assert (NE : kept <> []) by (rewrite E; discriminate).
  rewrite (app_removelast_last "" NE) at 1.
  rewrite join_snoc; apply split_join.
  apply Forall_app; split.
  - apply Forall_forall; intros x X; apply (proj1 (Forall_forall _ _) K).
    rewrite (app_removelast_last "" NE); apply in_or_app; now left.
  - constructor; [|constructor]; apply word_dots, (proj1 (Forall_forall _ _) K).
    rewrite (app_removelast_last "" NE) at 2; apply in_or_app; right; now left.
Qed.

(** The first [S m] elements are the first [m] and the one at [m]. *)
Lemma firstn_snoc {A : Type} (default : A) (l : list A) (m : nat) :
  m < List.length l -> firstn (S m) l = (firstn m l ++ [nth m l default])%list.
Proof.
  revert m; induction l as [|x l IH]; intros [|m] N; cbn [List.length] in N;
    try lia; [reflexivity|].
  cbn [firstn nth app]; f_equal; apply IH; lia.
Qed.

End TruncateWordsFacts.

(** X16. The filter [truncate_words] returns the text untouched, white
    space included, when [int(arg)] raises [ValueError] or the text has
    no more words than [int(arg)]; any other exception of [int(arg)]
    (the [TypeError] of [None]) leaves the filter uncaught.  With
    [int(arg) = n] and a text of more than [n] words the result is the
    words [words[:n]] joined by single spaces, then three dots.  For
    [n >= 1] it splits into exactly [n] words: the first [n - 1] words of
    the text, then the [n]-th with the dots glued to it.  For [n = 0] it
    is the three dots alone; for a negative [n] the words are counted off
    from the end, and the last word kept carries the dots. *)
Theorem truncate_words_keeps_first_words :
  forall value : string,
    let words := PyStr.split value in
    NewsTags.truncate_words value (inr NewsTags.ValueError) = inl value
    /\ (forall e, e <> NewsTags.ValueError ->
                  NewsTags.truncate_words value (inr e) = inr e)
    /\ (forall n, (Z.of_nat (List.length words) <= n)%Z ->
                  NewsTags.truncate_words value (inl n) = inl value)
    /\ (forall n, (n < Z.of_nat (List.length words))%Z ->
          let kept := NewsScraper.py_prefix n words in
          exists text,
            NewsTags.truncate_words value (inl n) = inl text
            /\ text = (PyStr.join " " kept ++ "...")%string
            /\ PyStr.split text
               = match kept with
                 | [] => ["..."%string]
                 | _ :: _ => (removelast kept ++ [(last kept "" ++ "...")%string])%list
                 end)
    /\ (forall n, (0 < n < Z.of_nat (List.length words))%Z ->
          exists text,
            NewsTags.truncate_words value (inl n) = inl text
            /\ PyStr.split text
               = (firstn (Z.to_nat n - 1) words
                  ++ [(nth (Z.to_nat n - 1) words "" ++ "...")%string])%list
            /\ List.length (PyStr.split text) = Z.to_nat n)
    /\ ((0 < Z.of_nat (List.length words))%Z ->
        NewsTags.truncate_words value (inl 0%Z) = inl "..."%string).
Proof.
  intros value words; split; [reflexivity|].
  split; [intros [| |] E; [congruence | reflexivity | reflexivity]|].
  split; [|split; [|split]].
  - intros n L; unfold NewsTags.truncate_words; fold words.
    now destruct (Z.leb_spec (Z.of_nat (List.length words)) n); [|lia].
  - intros n L; exact (TruncateWordsFacts.split_truncated value n L).
  - intros n [P L].
    destruct (TruncateWordsFacts.split_truncated value n L) as (text & E & _ & S).
    fold words in S.
    assert (S' : PyStr.split text
                 = (firstn (Z.to_nat n - 1) words
                    ++ [(nth (Z.to_nat n - 1) words "" ++ "...")%string])%list).
    { rewrite S; unfold NewsScraper.py_prefix.
      destruct (Z.leb_spec 0 n); [|lia].
      assert (F0 : firstn (Z.to_nat n) words
                   = (firstn (Z.to_nat n - 1) words
                      ++ [nth (Z.to_nat n - 1) words ""%string])%list)
        by (replace (Z.to_nat n) with (Datatypes.S (Z.to_nat n - 1)) at 1 by lia;
            apply TruncateWordsFacts.firstn_snoc; lia).
      rewrite F0.
      destruct (firstn (Z.to_nat n - 1) words
                ++ [nth (Z.to_nat n - 1) words ""%string])%list eqn:F;
        [destruct (firstn (Z.to_nat n - 1) words); discriminate|].
      rewrite <- F, removelast_last, last_last; reflexivity. }
    exists text; split; [exact E|]; split; [exact S'|].
    rewrite S', length_app, firstn_length_le by lia; cbn [List.length]; lia.
  - intros L; unfold NewsTags.truncate_words; fold words.
    destruct (Z.leb_spec (Z.of_nat (List.length words)) 0); [lia|].
    reflexivity.
Qed.

Lemma truncate_words_keeps_first_words_witness :
  (0 < 2 < Z.of_nat (List.length (PyStr.split "one  two three")))%Z
  /\ NewsTags.TypeError <> NewsTags.ValueError
  /\ NewsTags.truncate_words "one  two three" (inr NewsTags.TypeError)
     = inr NewsTags.TypeError
  /\ exists text,
       NewsTags.truncate_words "one  two three" (inl 2%Z) = inl text
       /\ PyStr.split text = ["one"; "two..."]%string
       /\ List.length (PyStr.split text) = 2.
Proof.
  assert (L : (0 < 2 < Z.of_nat (List.length (PyStr.split "one  two three")))%Z)
    by (vm_compute; split; reflexivity).
  assert (D : NewsTags.TypeError <> NewsTags.ValueError) by discriminate.
  pose proof (truncate_words_keeps_first_words "one  two three")
    as (_ & Other & _ & _ & Cut & _).
  split; [exact L|]. split; [exact D|]. split; [exact (Other _ D)|].
  exact (Cut 2%Z L).
Defined.
